(** * Trade portal backend (server.js): a shallow embedding

    The Express application of [server.js] is modelled as a family of pure
    handler functions over an explicit relational store.  What the program
    obtains from its surroundings (the wall clock, random bytes, the token
    codec of [jsonwebtoken], the Blowfish core of [bcryptjs], failures of the
    database connection) is passed in explicitly. *)

From Stdlib Require Import ZArith List String Ascii Bool Lia DecimalString.
From Stdlib Require Import DecimalZ DecimalPos Sorted Permutation.
Import ListNotations.
Open Scope string_scope.
Open Scope Z_scope.

Set Implicit Arguments.

(** ** Process configuration (server.js lines 16-22, 410) *)

Record process_env := {
  env_DATABASE_URL : option string;
  env_NODE_ENV : option string;
  env_JWT_SECRET : option string;
  env_PORT : option string
}.

(** [a || d] on a value that is a string or [undefined]: the empty string is
    falsy as well. *)
Definition js_or (a : option string) (d : string) : string :=
  match a with
  | Some s => if String.eqb s "" then d else s
  | None => d
  end.

Definition JWT_SECRET (e : process_env) : string :=
  js_or (env_JWT_SECRET e) "prime-worktops-secret-key-change-in-production".

(** [process.env.PORT || 3000], the number written as text. *)
Definition PORT (e : process_env) : string := js_or (env_PORT e) "3000".

(** [ssl: process.env.NODE_ENV === 'production' ? {...} : false] *)
Definition pool_ssl (e : process_env) : bool :=
  match env_NODE_ENV e with
  | Some m => String.eqb m "production"
  | None => false
  end.

(** What evaluating the module does: either the server ends up listening
    with the configuration it computed, or the process stopped before. *)
Inductive startup :=
| Listening (secret port : string) (ssl : bool)
| Refused.

(** Lines 8-22 and 410-416: nothing on this path inspects the secret;
    [initDB] catches its own errors, then [app.listen] runs. *)
Definition start (e : process_env) : startup :=
  Listening (JWT_SECRET e) (PORT e) (pool_ssl e).

(** ** Outcomes of awaited calls *)

Inductive outcome (A : Type) :=
| Threw
| Returned (a : A).
Arguments Threw {A}.
Arguments Returned {A} a.

(** ** Strings *)

(** [s.split(' ')] *)
Fixpoint split_space (s : string) : list string :=
  match s with
  | EmptyString => [EmptyString]
  | String c r =>
      if Ascii.eqb c " " then EmptyString :: split_space r
      else match split_space r with
           | [] => [String c EmptyString]
           | w :: ws => String c w :: ws
           end
  end.

Fixpoint has_space (s : string) : bool :=
  match s with
  | EmptyString => false
  | String c r => Ascii.eqb c " " || has_space r
  end.

(** ** Session tokens (jsonwebtoken) *)

(** An id in the payload, as the store will read it where a handler passes
    it on as a query parameter: [undefined] or [null] is sent as NULL; a
    number or a text that reads as an integer is that integer; any other
    value is refused where the statement expects an INTEGER.  The routes
    sign numbers only, but [jwt.verify] hands on whatever was signed. *)
Inductive claim_id :=
| NoId
| Id (n : Z)
| BadId.

Record claims := {
  userId : claim_id;
  companyId : claim_id;
  role : option string
}.

(** The payload of a token: the claims, [iat], and [nbf] and [exp] when
    present (whole seconds, a fraction rounded up). *)
Record jwt_payload := {
  p_claims : claims;
  p_iat : Z;
  p_nbf : option Z;
  p_exp : option Z
}.

(** The clock of the token library: [Math.floor(Date.now() / 1000)]. *)
Definition clockTimestamp (now_ms : Z) : Z := now_ms / 1000.

(** [ms('7d') / 1000] *)
Definition seven_days : Z := 7 * 24 * 60 * 60.

Inductive auth :=
| Reject (status : Z) (error : string)
| Next (user : jwt_payload).

Section Tokens.

(** The compact JWS serialisation, which the program never looks into:
    [jws_sign k p] is the signed text of payload [p] under key [k], and
    [jws_open k t] the payload of text [t] when [t] is well formed, its
    signature verifies under [k], and its [nbf] and [exp], where present,
    are numbers. *)
Variable jws_sign : string -> jwt_payload -> string.
Variable jws_open : string -> string -> option jwt_payload.

(** [jwt.sign(claims, secret, { expiresIn: '7d' })] *)
Definition jwt_sign (c : claims) (secret : string) (now_ms : Z) : string :=
  let iat := clockTimestamp now_ms in
  jws_sign secret {| p_claims := c; p_iat := iat; p_nbf := None;
                     p_exp := Some (iat + seven_days) |}.

(** A token is not active before its [nbf]. *)
Definition not_yet (p : jwt_payload) (now_ms : Z) : bool :=
  match p_nbf p with
  | Some n => n >? clockTimestamp now_ms
  | None => false
  end.

(** [jwt.verify(token, secret, callback)]: [Threw] is the callback's [err]. *)
Definition jwt_verify (token secret : string) (now_ms : Z) : outcome jwt_payload :=
  match jws_open secret token with
  | None => Threw
  | Some p =>
      if not_yet p now_ms then Threw
      else match p_exp p with
           | Some e => if clockTimestamp now_ms >=? e then Threw else Returned p
           | None => Returned p
           end
  end.

(** Lines 114-125.  [env] is the process environment the secret was read
    from, [authHeader] is [req.headers['authorization']]. *)
Definition authenticateToken (env : process_env) (now_ms : Z)
    (authHeader : option string) : auth :=
  let token :=
    match authHeader with
    | None => None
    | Some h => if String.eqb h "" then None else nth_error (split_space h) 1
    end in
  match token with
  | None => Reject 401 "Access denied"
  | Some t =>
      if String.eqb t "" then Reject 401 "Access denied"
      else match jwt_verify t (JWT_SECRET env) now_ms with
           | Threw => Reject 403 "Invalid token"
           | Returned user => Next user
           end
  end.

End Tokens.

(** ** Password hashing (bcryptjs) *)

(** A bcrypt hash string [$2a$<cost>$<salt><digest>], by its parts. *)
Record bcrypt_hash := {
  bh_cost : nat;
  bh_salt : string;
  bh_digest : string
}.

Definition zero_byte : ascii := Ascii.zero.

Fixpoint string_of_bytes (l : list ascii) : string :=
  match l with
  | [] => EmptyString
  | c :: r => String c (string_of_bytes r)
  end.

(** bcryptjs appends a NUL to the password bytes and reads the key through
    [_streamtoword], which wraps around at the end of the key; the key
    schedule consumes 18 words of 4 bytes per pass, always starting at
    offset 0.  [key_stream] is those 72 bytes: input past the 72nd byte is
    not used (the limit the library documents), and a shorter key repeats.
    A password is taken here as its UTF-8 bytes. *)
Definition key_stream (password : string) : string :=
  let key := (list_ascii_of_string password ++ [zero_byte])%list in
  string_of_bytes (firstn 72 (List.concat (repeat key 72))).

Section Passwords.

(** The expensive-key-schedule Blowfish core: from the 72 key bytes, the
    salt and the cost to the digest text. *)
Variable eks_blowfish : string -> string -> nat -> string.

(** [bcrypt.hash(password, 10)]; [salt] is the text [genSalt] drew.  A
    password that is not a string is rejected. *)
Definition bcrypt_hash_with (salt : string) (password : option string)
    (rounds : nat) : outcome bcrypt_hash :=
  match password with
  | None => Threw
  | Some s =>
      Returned {| bh_cost := rounds; bh_salt := salt;
                  bh_digest := eks_blowfish (key_stream s) salt rounds |}
  end.

(** [bcrypt.compare(password, hash)]: hash again under the stored salt and
    cost, compare the texts. *)
Definition bcrypt_compare (password : option string) (h : bcrypt_hash)
    : outcome bool :=
  match password with
  | None => Threw
  | Some s =>
      Returned (String.eqb (eks_blowfish (key_stream s) (bh_salt h) (bh_cost h))
                          (bh_digest h))
  end.

End Passwords.

(** ** The relational store (schema of [initDB], lines 25-104)

    A nullable column is an [option]; a [NOT NULL] column is not.  Instants
    are milliseconds since the epoch, dates are day numbers, and a
    [DECIMAL(p,2)] is counted in hundredths. *)

Record company := {
  c_id : Z;
  c_company_name : string;
  c_email : string;
  c_phone : option string;
  c_address_line1 : option string;
  c_address_line2 : option string;
  c_city : option string;
  c_postcode : option string;
  c_vat_number : option string;
  c_account_status : option string;
  c_trial_ends_at : option Z;
  c_markup_percentage : option Z;
  c_created_at : option Z
}.

Record user := {
  u_id : Z;
  u_company_id : option Z;
  u_email : string;
  u_password_hash : bcrypt_hash;
  u_first_name : string;
  u_last_name : string;
  u_phone : option string;
  u_role : option string;
  u_is_active : option bool;
  u_created_at : option Z
}.

Record branding := {
  b_id : Z;
  b_company_id : option Z;
  b_logo_url : option string;
  b_primary_colour : option string;
  b_secondary_colour : option string;
  b_quote_header_text : option string;
  b_quote_footer_text : option string;
  b_created_at : option Z
}.

(** The fifteen columns of a quote that [POST /api/quotes] takes from the
    request body ([customerName] is [customer_name], and so on;
    [quote_data] is the text [JSON.stringify(quoteData)] gave). *)
Record quote_fields := {
  customer_name : option string;
  customer_email : option string;
  customer_phone : option string;
  customer_address : option string;
  customer_postcode : option string;
  material_name : option string;
  material_brand : option string;
  thickness : option Z;
  edge_profile : option string;
  slabs_required : option Z;
  trade_price_ex_vat : option Z;
  trade_price_inc_vat : option Z;
  customer_price_ex_vat : option Z;
  customer_price_inc_vat : option Z;
  quote_data : option string
}.

Record quote := {
  q_id : Z;
  q_company_id : option Z;
  q_created_by : option Z;
  q_quote_reference : string;
  q_status : option string;
  q_fields : quote_fields;
  q_valid_until : option Z;
  q_created_at : option Z
}.

Record store := {
  companies : list company;
  users : list user;
  company_branding : list branding;
  quotes : list quote;
  companies_id_seq : Z;
  users_id_seq : Z;
  company_branding_id_seq : Z;
  quotes_id_seq : Z
}.

(** The store once [initDB] has created the four tables in an empty
    database. *)
Definition initDB : store :=
  {| companies := []; users := []; company_branding := []; quotes := [];
     companies_id_seq := 1; users_id_seq := 1;
     company_branding_id_seq := 1; quotes_id_seq := 1 |}.

Definition set_companies (l : list company) (seq : Z) (s : store) : store :=
  {| companies := l; users := users s; company_branding := company_branding s;
     quotes := quotes s; companies_id_seq := seq; users_id_seq := users_id_seq s;
     company_branding_id_seq := company_branding_id_seq s;
     quotes_id_seq := quotes_id_seq s |}.

Definition set_users (l : list user) (seq : Z) (s : store) : store :=
  {| companies := companies s; users := l; company_branding := company_branding s;
     quotes := quotes s; companies_id_seq := companies_id_seq s; users_id_seq := seq;
     company_branding_id_seq := company_branding_id_seq s;
     quotes_id_seq := quotes_id_seq s |}.

Definition set_company_branding (l : list branding) (seq : Z) (s : store) : store :=
  {| companies := companies s; users := users s; company_branding := l;
     quotes := quotes s; companies_id_seq := companies_id_seq s;
     users_id_seq := users_id_seq s; company_branding_id_seq := seq;
     quotes_id_seq := quotes_id_seq s |}.

Definition set_quotes (l : list quote) (seq : Z) (s : store) : store :=
  {| companies := companies s; users := users s;
     company_branding := company_branding s; quotes := l;
     companies_id_seq := companies_id_seq s; users_id_seq := users_id_seq s;
     company_branding_id_seq := company_branding_id_seq s; quotes_id_seq := seq |}.

(** ** Column types and constraints *)

Definition obind {A B} (o : outcome A) (f : A -> outcome B) : outcome B :=
  match o with
  | Threw => Threw
  | Returned a => f a
  end.

Notation "'check' x <- o 'in' k" := (obind o (fun x => k))
  (at level 10, x name, o at level 99, k at level 200).

(** *** Text

    A string is the UTF-8 form of the JavaScript string, which is what
    node-postgres puts on the wire.  The store (a database in encoding
    UTF8) reads a text parameter character by character: it refuses one
    that holds a NUL or is not well-formed UTF-8, and the length of a
    [VARCHAR(n)] is counted in characters, not in bytes. *)

Definition byte (c : ascii) : Z := Z.of_N (N_of_ascii c).

Definition between (lo hi : Z) (c : ascii) : bool :=
  (lo <=? byte c) && (byte c <=? hi).

(** The first two bytes of a character of three bytes, and of four. *)
Definition starts_three (a b : ascii) : bool :=
  (between 224 224 a && between 160 191 b) || (between 225 236 a && between 128 191 b)
  || (between 237 237 a && between 128 159 b) || (between 238 239 a && between 128 191 b).

Definition starts_four (a b : ascii) : bool :=
  (between 240 240 a && between 144 191 b) || (between 241 243 a && between 128 191 b)
  || (between 244 244 a && between 128 143 b).

(** The characters of a text, each as its bytes; [None] for what is not a
    text (a NUL, a stray or missing continuation byte, an overlong form, a
    surrogate, a code point past U+10FFFF). *)
Fixpoint utf8_chars (s : string) : option (list string) :=
  match s with
  | EmptyString => Some []
  | String a r =>
      if between 1 127 a then option_map (cons (String a "")) (utf8_chars r)
      else
        match r with
        | EmptyString => None
        | String b r2 =>
            if between 194 223 a && between 128 191 b
            then option_map (cons (String a (String b ""))) (utf8_chars r2)
            else
              match r2 with
              | EmptyString => None
              | String c r3 =>
                  if starts_three a b && between 128 191 c
                  then option_map (cons (String a (String b (String c ""))))
                                  (utf8_chars r3)
                  else
                    match r3 with
                    | EmptyString => None
                    | String d r4 =>
                        if starts_four a b && between 128 191 c && between 128 191 d
                        then option_map
                               (cons (String a (String b (String c (String d "")))))
                               (utf8_chars r4)
                        else None
                    end
              end
        end
  end.

Definition is_text (t : string) : bool :=
  match utf8_chars t with
  | Some _ => true
  | None => false
  end.

(** The text made of the characters [cs]. *)
Definition text_of (cs : list string) : string := fold_right append "" cs.

(** A [TEXT] parameter or column. *)
Definition text (v : option string) : outcome (option string) :=
  match v with
  | None => Returned None
  | Some t => if is_text t then Returned (Some t) else Threw
  end.

(** Assignment to a [VARCHAR(n)] column: a text of more than [n]
    characters is an error unless the excess is spaces only, which are cut
    off. *)
Definition varchar (n : nat) (v : option string) : outcome (option string) :=
  match v with
  | None => Returned None
  | Some t =>
      match utf8_chars t with
      | None => Threw
      | Some cs =>
          if (List.length cs <=? n)%nat then Returned (Some t)
          else if forallb (String.eqb " ") (skipn n cs)
               then Returned (Some (text_of (firstn n cs)))
               else Threw
      end
  end.

(** [INTEGER]: four bytes, signed. *)
Definition int4_ok (z : Z) : bool := (-2147483648 <=? z) && (z <=? 2147483647).

Definition int4 (v : option Z) : outcome (option Z) :=
  match v with
  | None => Returned None
  | Some z => if int4_ok z then Returned (Some z) else Threw
  end.

(** [DECIMAL(10,2)], in hundredths: fewer than ten digits before rounding
    out of range. *)
Definition decimal_10_2 (v : option Z) : outcome (option Z) :=
  match v with
  | None => Returned None
  | Some z => if Z.abs z <? 10000000000 then Returned (Some z) else Threw
  end.

Definition not_null {A} (v : option A) : outcome A :=
  match v with
  | None => Threw
  | Some a => Returned a
  end.

(** [COALESCE($k, column)] *)
Definition coalesce {A} (v old : option A) : option A :=
  match v with
  | Some _ => v
  | None => old
  end.

Definition Z_is (v : option Z) (z : Z) : bool :=
  match v with
  | Some x => x =? z
  | None => false
  end.

(** An id of the payload as an [INTEGER] parameter. *)
Definition int4_claim (c : claim_id) : outcome (option Z) :=
  match c with
  | NoId => Returned None
  | Id n => int4 (Some n)
  | BadId => Threw
  end.

(** [column = $k] on an integer column; never true when either is NULL. *)
Definition same_id (column k : option Z) : bool :=
  match k with
  | Some z => Z_is column z
  | None => false
  end.

(** [REFERENCES rows(id)]: a NULL is not checked. *)
Definition references (v : option Z) (ids : list Z) : bool :=
  match v with
  | Some k => existsb (Z.eqb k) ids
  | None => true
  end.

(** [column = $k] on a text column; never true of NULL. *)
Definition text_is (v : option string) (column : string) : bool :=
  match v with
  | Some x => String.eqb column x
  | None => false
  end.

(** ** Statements

    A statement runs on the store and either returns, or throws and leaves
    the tables as they were.  A sequence hands out its next value before the
    row is checked, and that is not undone when the insert fails. *)

Definition io (A : Type) := store -> outcome A * store.

Definition ret {A} (a : A) : io A := fun s => (Returned a, s).

Definition lift {A} (o : outcome A) : io A := fun s => (o, s).

Definition bind {A B} (m : io A) (f : A -> io B) : io B :=
  fun s => match m s with
           | (Threw, s') => (Threw, s')
           | (Returned a, s') => f a s'
           end.

Notation "x <- m ;; k" := (bind m (fun x => k))
  (at level 61, m at next level, right associativity).

(** [SELECT id FROM users WHERE email = $1] *)
Definition select_users_by_email (email : option string) : io (list Z) :=
  fun s =>
    match text email with
    | Threw => (Threw, s)
    | Returned e =>
        (Returned (map u_id (filter (fun u => text_is e (u_email u)) (users s))), s)
    end.

(** [INSERT INTO companies (company_name, email, phone, postcode)
    VALUES ($1, $2, $3, $4) RETURNING id] *)
Definition insert_companies (now : Z) (company_name email phone postcode : option string)
    : io Z :=
  fun s =>
    let id := companies_id_seq s in
    let row :=
      check _ <- int4 (Some id) in
      check n <- varchar 255 company_name in
      check n <- not_null n in
      check e <- varchar 255 email in
      check e <- not_null e in
      check p <- varchar 20 phone in
      check pc <- varchar 10 postcode in
      if existsb (fun c => String.eqb (c_email c) e) (companies s) then Threw
      else Returned
        {| c_id := id; c_company_name := n; c_email := e; c_phone := p;
           c_address_line1 := None; c_address_line2 := None; c_city := None;
           c_postcode := pc; c_vat_number := None;
           c_account_status := Some "trial";
           c_trial_ends_at := Some (now + 14 * 86400000);
           c_markup_percentage := Some 2000;
           c_created_at := Some now |} in
    match row with
    | Threw => (Threw, set_companies (companies s) (id + 1) s)
    | Returned r => (Returned id, set_companies (companies s ++ [r])%list (id + 1) s)
    end.

(** [INSERT INTO company_branding (company_id) VALUES ($1)] *)
Definition insert_company_branding (now : Z) (company_id : Z) : io unit :=
  fun s =>
    let id := company_branding_id_seq s in
    let row :=
      check _ <- int4 (Some id) in
      check cid <- int4 (Some company_id) in
      if negb (existsb (fun c => Z_is cid (c_id c)) (companies s)) then Threw
      else if existsb (fun b => Z_is (b_company_id b) company_id) (company_branding s)
      then Threw
      else Returned
        {| b_id := id; b_company_id := cid; b_logo_url := None;
           b_primary_colour := Some "#033f2a";
           b_secondary_colour := Some "#f6d466";
           b_quote_header_text := None; b_quote_footer_text := None;
           b_created_at := Some now |} in
    match row with
    | Threw => (Threw, set_company_branding (company_branding s) (id + 1) s)
    | Returned r =>
        (Returned tt, set_company_branding (company_branding s ++ [r])%list (id + 1) s)
    end.

(** [INSERT INTO users (company_id, email, password_hash, first_name,
    last_name, phone, role) VALUES ($1, $2, $3, $4, $5, $6, 'trade_admin')
    RETURNING id] *)
Definition insert_users (now : Z) (company_id : Z) (email : option string)
    (password_hash : bcrypt_hash) (first_name last_name phone : option string)
    : io Z :=
  fun s =>
    let id := users_id_seq s in
    let row :=
      check _ <- int4 (Some id) in
      check cid <- int4 (Some company_id) in
      check e <- varchar 255 email in
      check e <- not_null e in
      check f <- varchar 100 first_name in
      check f <- not_null f in
      check l <- varchar 100 last_name in
      check l <- not_null l in
      check p <- varchar 20 phone in
      if negb (existsb (fun c => Z_is cid (c_id c)) (companies s)) then Threw
      else if existsb (fun u => String.eqb (u_email u) e) (users s) then Threw
      else Returned
        {| u_id := id; u_company_id := cid; u_email := e;
           u_password_hash := password_hash; u_first_name := f;
           u_last_name := l; u_phone := p; u_role := Some "trade_admin";
           u_is_active := Some true; u_created_at := Some now |} in
    match row with
    | Threw => (Threw, set_users (users s) (id + 1) s)
    | Returned r => (Returned id, set_users (users s ++ [r])%list (id + 1) s)
    end.

(** [UPDATE company_branding SET logo_url = COALESCE($1, logo_url), ...
    WHERE company_id = $6] (lines 282-288) *)
Definition update_company_branding
    (logoUrl primaryColour secondaryColour quoteHeaderText quoteFooterText : option string)
    (company_id : claim_id) : io unit :=
  fun s =>
    let rows :=
      check l <- varchar 500 logoUrl in
      check p <- varchar 7 primaryColour in
      check c <- varchar 7 secondaryColour in
      check hd <- text quoteHeaderText in
      check ft <- text quoteFooterText in
      check k <- int4_claim company_id in
      Returned (map (fun b =>
        if same_id (b_company_id b) k then
          {| b_id := b_id b; b_company_id := b_company_id b;
             b_logo_url := coalesce l (b_logo_url b);
             b_primary_colour := coalesce p (b_primary_colour b);
             b_secondary_colour := coalesce c (b_secondary_colour b);
             b_quote_header_text := coalesce hd (b_quote_header_text b);
             b_quote_footer_text := coalesce ft (b_quote_footer_text b);
             b_created_at := b_created_at b |}
        else b) (company_branding s)) in
    match rows with
    | Threw => (Threw, s)
    | Returned l => (Returned tt, set_company_branding l (company_branding_id_seq s) s)
    end.

(** [UPDATE companies SET company_name = COALESCE($1, company_name), ...
    WHERE id = $8] (lines 303-311) *)
Definition update_companies
    (companyName phone addressLine1 addressLine2 city postcode vatNumber : option string)
    (id : claim_id) : io unit :=
  fun s =>
    let rows :=
      check n <- varchar 255 companyName in
      check p <- varchar 20 phone in
      check a1 <- varchar 255 addressLine1 in
      check a2 <- varchar 255 addressLine2 in
      check ci <- varchar 100 city in
      check pc <- varchar 10 postcode in
      check v <- varchar 20 vatNumber in
      check k <- int4_claim id in
      Returned (map (fun c =>
        if same_id (Some (c_id c)) k then
          {| c_id := c_id c;
             c_company_name := match n with Some t => t | None => c_company_name c end;
             c_email := c_email c;
             c_phone := coalesce p (c_phone c);
             c_address_line1 := coalesce a1 (c_address_line1 c);
             c_address_line2 := coalesce a2 (c_address_line2 c);
             c_city := coalesce ci (c_city c);
             c_postcode := coalesce pc (c_postcode c);
             c_vat_number := coalesce v (c_vat_number c);
             c_account_status := c_account_status c;
             c_trial_ends_at := c_trial_ends_at c;
             c_markup_percentage := c_markup_percentage c;
             c_created_at := c_created_at c |}
        else c) (companies s)) in
    match rows with
    | Threw => (Threw, s)
    | Returned l => (Returned tt, set_companies l (companies_id_seq s) s)
    end.

(** The body's values as the columns of [quotes] take them. *)
Definition quote_columns (f : quote_fields) : outcome quote_fields :=
  check cn <- varchar 255 (customer_name f) in
  check ce <- varchar 255 (customer_email f) in
  check cp <- varchar 20 (customer_phone f) in
  check ca <- text (customer_address f) in
  check cpc <- varchar 10 (customer_postcode f) in
  check mn <- varchar 255 (material_name f) in
  check mb <- varchar 255 (material_brand f) in
  check th <- int4 (thickness f) in
  check ep <- varchar 50 (edge_profile f) in
  check sl <- int4 (slabs_required f) in
  check t1 <- decimal_10_2 (trade_price_ex_vat f) in
  check t2 <- decimal_10_2 (trade_price_inc_vat f) in
  check c1 <- decimal_10_2 (customer_price_ex_vat f) in
  check c2 <- decimal_10_2 (customer_price_inc_vat f) in
  Returned
    {| customer_name := cn; customer_email := ce; customer_phone := cp;
       customer_address := ca; customer_postcode := cpc;
       material_name := mn; material_brand := mb; thickness := th;
       edge_profile := ep; slabs_required := sl;
       trade_price_ex_vat := t1; trade_price_inc_vat := t2;
       customer_price_ex_vat := c1; customer_price_inc_vat := c2;
       quote_data := quote_data f |}.

(** [INSERT INTO quotes (company_id, created_by, quote_reference, ...)
    VALUES ($1, ..., $18) RETURNING *] (lines 331-337) *)
Definition insert_quotes (now : Z) (company_id created_by : claim_id)
    (quote_reference : string) (f : quote_fields) : io quote :=
  fun s =>
    let id := quotes_id_seq s in
    let row :=
      check _ <- int4 (Some id) in
      check cid <- int4_claim company_id in
      check uid <- int4_claim created_by in
      check r <- varchar 20 (Some quote_reference) in
      check r <- not_null r in
      check cols <- quote_columns f in
      if negb (references cid (map c_id (companies s))) then Threw
      else if negb (references uid (map u_id (users s))) then Threw
      else if existsb (fun q => String.eqb (q_quote_reference q) r) (quotes s) then Threw
      else Returned
        {| q_id := id; q_company_id := cid; q_created_by := uid;
           q_quote_reference := r; q_status := Some "draft"; q_fields := cols;
           q_valid_until := Some (now / 86400000 + 30);
           q_created_at := Some now |} in
    match row with
    | Threw => (Threw, set_quotes (quotes s) (id + 1) s)
    | Returned r => (Returned r, set_quotes (quotes s ++ [r])%list (id + 1) s)
    end.

(** [req.params.id]: a text the store reads as the integer [n], or any
    other text, which it refuses where an integer is expected. *)
Inductive route_param :=
| IntText (n : Z)
| OtherText (t : string).

Definition int4_in (p : route_param) : outcome Z :=
  match p with
  | IntText n => if int4_ok n then Returned n else Threw
  | OtherText _ => Threw
  end.

Definition with_status (st : option string) (q : quote) : quote :=
  {| q_id := q_id q; q_company_id := q_company_id q;
     q_created_by := q_created_by q;
     q_quote_reference := q_quote_reference q; q_status := st;
     q_fields := q_fields q; q_valid_until := q_valid_until q;
     q_created_at := q_created_at q |}.

(** [UPDATE quotes SET status = $1 WHERE id = $2 AND company_id = $3] *)
Definition update_quotes_status (status : option string) (id : route_param)
    (company_id : claim_id) : io unit :=
  fun s =>
    let rows :=
      check st <- varchar 20 status in
      check i <- int4_in id in
      check k <- int4_claim company_id in
      Returned (map (fun q =>
        if (q_id q =? i) && same_id (q_company_id q) k
        then with_status st q else q) (quotes s)) in
    match rows with
    | Threw => (Threw, s)
    | Returned l => (Returned tt, set_quotes l (quotes_id_seq s) s)
    end.

(** [a JOIN b ON on] *)
Definition join {A B} (l : list A) (r : list B) (on : A -> B -> bool) : list (A * B) :=
  flat_map (fun a => map (pair a) (filter (on a) r)) l.

Definition user_company (u : user) (c : company) : bool :=
  Z_is (u_company_id u) (c_id c).

(** The query of [POST /api/login] (lines 192-195). *)
Definition select_login (email : option string) : io (list (user * company)) :=
  fun s =>
    match text email with
    | Threw => (Threw, s)
    | Returned e =>
        (Returned (join (filter (fun u => text_is e (u_email u)) (users s))
                        (companies s) user_company), s)
    end.

(** The query of [GET /api/me] (lines 241-245). *)
Definition select_me (user_id : claim_id) : io (list (user * company)) :=
  fun s =>
    match int4_claim user_id with
    | Threw => (Threw, s)
    | Returned k =>
        (Returned (join (filter (fun u => same_id (Some (u_id u)) k) (users s))
                        (companies s) user_company), s)
    end.

(** The query of [GET /api/branding] (lines 263-267). *)
Definition select_branding (company_id : claim_id) : io (list (branding * company)) :=
  fun s =>
    match int4_claim company_id with
    | Threw => (Threw, s)
    | Returned k =>
        (Returned (join (filter (fun b => same_id (b_company_id b) k)
                                (company_branding s))
                        (companies s)
                        (fun b c => Z_is (b_company_id b) (c_id c))), s)
    end.

(** A quote with [u.first_name, u.last_name] of its creator. *)
Record quote_row := {
  qr_quote : quote;
  qr_first_name : option string;
  qr_last_name : option string
}.

(** [quotes q LEFT JOIN users u ON q.created_by = u.id] *)
Definition left_join_users (us : list user) (q : quote) : list quote_row :=
  match filter (fun u => Z_is (q_created_by q) (u_id u)) us with
  | [] => [{| qr_quote := q; qr_first_name := None; qr_last_name := None |}]
  | m => map (fun u => {| qr_quote := q; qr_first_name := Some (u_first_name u);
                          qr_last_name := Some (u_last_name u) |}) m
  end.

(** [ORDER BY q.created_at DESC]: later rows first, NULL before all. *)
Definition stays_before (a b : quote_row) : bool :=
  match q_created_at (qr_quote a), q_created_at (qr_quote b) with
  | None, _ => true
  | Some _, None => false
  | Some x, Some y => y <=? x
  end.

Fixpoint order_insert (r : quote_row) (l : list quote_row) : list quote_row :=
  match l with
  | [] => [r]
  | x :: xs => if stays_before x r then x :: order_insert r xs else r :: l
  end.

Definition order_by_created_at_desc (l : list quote_row) : list quote_row :=
  fold_left (fun acc r => order_insert r acc) l [].

(** The query of [GET /api/quotes] (lines 355-359). *)
Definition select_quotes (company_id : claim_id) : io (list quote_row) :=
  fun s =>
    match int4_claim company_id with
    | Threw => (Threw, s)
    | Returned k =>
        (Returned (order_by_created_at_desc
           (flat_map (left_join_users (users s))
              (filter (fun q => same_id (q_company_id q) k) (quotes s)))), s)
    end.

(** The query of [GET /api/quotes/:id] (lines 372-375). *)
Definition select_quote (id : route_param) (company_id : claim_id)
    : io (list quote_row) :=
  fun s =>
    match (check i <- int4_in id in
           check k <- int4_claim company_id in Returned (i, k)) with
    | Threw => (Threw, s)
    | Returned (i, k) =>
        (Returned (flat_map (left_join_users (users s))
           (filter (fun q => (q_id q =? i) && same_id (q_company_id q) k)
                   (quotes s))), s)
    end.

(** ** Requests and responses *)

Record register_body := {
  rb_companyName : option string;
  rb_email : option string;
  rb_password : option string;
  rb_firstName : option string;
  rb_lastName : option string;
  rb_phone : option string;
  rb_postcode : option string
}.

Record branding_body := {
  bb_logoUrl : option string;
  bb_primaryColour : option string;
  bb_secondaryColour : option string;
  bb_quoteHeaderText : option string;
  bb_quoteFooterText : option string
}.

Record company_body := {
  cb_companyName : option string;
  cb_phone : option string;
  cb_addressLine1 : option string;
  cb_addressLine2 : option string;
  cb_city : option string;
  cb_postcode : option string;
  cb_vatNumber : option string
}.

Record session_user := {
  su_firstName : option string;
  su_lastName : option string;
  su_email : option string;
  su_role : option string
}.

(** [sc_status] is [None] where the object has no [status] key. *)
Record session_company := {
  sc_id : Z;
  sc_name : option string;
  sc_status : option (option string)
}.

Record me_row := {
  me_id : Z;
  me_first_name : string;
  me_last_name : string;
  me_email : string;
  me_role : option string;
  me_company_id : Z;
  me_company_name : string;
  me_account_status : option string;
  me_trial_ends_at : option Z
}.

Record branding_row := {
  br_branding : branding;
  br_company_name : string;
  br_email : string;
  br_phone : option string;
  br_address_line1 : option string;
  br_address_line2 : option string;
  br_city : option string;
  br_postcode : option string
}.

Inductive json :=
| JError (error : string)
| JSuccess
| JEmpty
| JHealth (time : Z)
| JSession (token : string) (user : session_user) (company : session_company)
| JMe (row : me_row)
| JBranding (row : branding_row)
| JQuote (row : quote)
| JQuoteRow (row : quote_row)
| JQuoteRows (rows : list quote_row)
| JIndexHtml.

Record response := {
  res_status : Z;
  res_body : json
}.

Definition res_json (j : json) : response := {| res_status := 200; res_body := j |}.

Definition res_error (st : Z) (e : string) : response :=
  {| res_status := st; res_body := JError e |}.

(** What a request finds around it. *)
Record ambient := {
  env : process_env;
  now : Z;                 (* Date.now(), and the store's clock *)
  year : Z;                (* new Date().getFullYear() *)
  random9000 : Z;          (* Math.floor(Math.random() * 9000) *)
  salt : string;           (* the salt bcrypt draws *)
  fault : nat -> bool      (* the k-th pool.query of the request fails
                              at the connection *)
}.

Definition handler := store -> response * store.

(** [await pool.query(...)], the [k]-th of its handler. *)
Definition pool_query {A} (a : ambient) (k : nat) (q : io A) : io A :=
  if fault a k then (fun s => (Threw, s)) else q.

(** [try { ... } catch (err) { res.status(500).json({ error }) }] *)
Definition try_catch (m : io response) (error : string) : handler :=
  fun s =>
    match m s with
    | (Returned r, s') => (r, s')
    | (Threw, s') => (res_error 500 error, s')
    end.

(** Lines 107-111. *)
Definition generateQuoteRef (a : ambient) : string :=
  let random := random9000 a + 1000 in
  "PW-" ++ DecimalString.NilZero.string_of_int (Z.to_int (year a)) ++ "-"
        ++ DecimalString.NilZero.string_of_int (Z.to_int random).

Definition is_empty {A} (l : list A) : bool :=
  match l with
  | [] => true
  | _ :: _ => false
  end.

Section Server.

Variable jws_sign : string -> jwt_payload -> string.
Variable jws_open : string -> string -> option jwt_payload.
Variable eks_blowfish : string -> string -> nat -> string.

(** A route behind the [authenticateToken] middleware. *)
Definition authenticated (a : ambient) (authHeader : option string)
    (next : claims -> handler) : handler :=
  match authenticateToken jws_open (env a) (now a) authHeader with
  | Reject st e => fun s => (res_error st e, s)
  | Next user => next (p_claims user)
  end.

(** [POST /api/register] (lines 135-184) *)
Definition post_register (a : ambient) (b : register_body) : handler :=
  try_catch
    (existing <- pool_query a 0 (select_users_by_email (rb_email b)) ;;
     if negb (is_empty existing) then ret (res_error 400 "Email already registered")
     else
       companyId <- pool_query a 1
         (insert_companies (now a) (rb_companyName b) (rb_email b) (rb_phone b)
                           (rb_postcode b)) ;;
       _ <- pool_query a 2 (insert_company_branding (now a) companyId) ;;
       passwordHash <- lift (bcrypt_hash_with eks_blowfish (salt a) (rb_password b) 10) ;;
       userId <- pool_query a 3
         (insert_users (now a) companyId (rb_email b) passwordHash
                       (rb_firstName b) (rb_lastName b) (rb_phone b)) ;;
       let token :=
         jwt_sign jws_sign
           {| userId := Id userId; companyId := Id companyId;
              role := Some "trade_admin" |}
           (JWT_SECRET (env a)) (now a) in
       ret (res_json (JSession token
              {| su_firstName := rb_firstName b; su_lastName := rb_lastName b;
                 su_email := rb_email b; su_role := Some "trade_admin" |}
              {| sc_id := companyId; sc_name := rb_companyName b;
                 sc_status := None |})))
    "Registration failed".

(** [POST /api/login] (lines 187-235).  [user.company_id] is written
    [c_id c]: the join kept the rows where the two are equal. *)
Definition post_login (a : ambient) (email password : option string) : handler :=
  try_catch
    (rows <- pool_query a 0 (select_login email) ;;
     match rows with
     | [] => ret (res_error 400 "Invalid email or password")
     | (u, c) :: _ =>
         validPassword <- lift (bcrypt_compare eks_blowfish password (u_password_hash u)) ;;
         if negb validPassword then ret (res_error 400 "Invalid email or password")
         else
           let token :=
             jwt_sign jws_sign
               {| userId := Id (u_id u); companyId := Id (c_id c); role := u_role u |}
               (JWT_SECRET (env a)) (now a) in
           ret (res_json (JSession token
                  {| su_firstName := Some (u_first_name u);
                     su_lastName := Some (u_last_name u);
                     su_email := Some (u_email u); su_role := u_role u |}
                  {| sc_id := c_id c; sc_name := Some (c_company_name c);
                     sc_status := Some (c_account_status c) |}))
     end)
    "Login failed".

(** [GET /api/me] (lines 238-257) *)
Definition get_me (a : ambient) (authHeader : option string) : handler :=
  authenticated a authHeader (fun user =>
    try_catch
      (rows <- pool_query a 0 (select_me (userId user)) ;;
       match rows with
       | [] => ret (res_error 404 "User not found")
       | (u, c) :: _ =>
           ret (res_json (JMe
             {| me_id := u_id u; me_first_name := u_first_name u;
                me_last_name := u_last_name u; me_email := u_email u;
                me_role := u_role u; me_company_id := c_id c;
                me_company_name := c_company_name c;
                me_account_status := c_account_status c;
                me_trial_ends_at := c_trial_ends_at c |}))
       end)
      "Failed to get user").

(** [GET /api/branding] (lines 260-274) *)
Definition get_branding (a : ambient) (authHeader : option string) : handler :=
  authenticated a authHeader (fun user =>
    try_catch
      (rows <- pool_query a 0 (select_branding (companyId user)) ;;
       match rows with
       | [] => ret (res_json JEmpty)
       | (b, c) :: _ =>
           ret (res_json (JBranding
             {| br_branding := b; br_company_name := c_company_name c;
                br_email := c_email c; br_phone := c_phone c;
                br_address_line1 := c_address_line1 c;
                br_address_line2 := c_address_line2 c;
                br_city := c_city c; br_postcode := c_postcode c |}))
       end)
      "Failed to get branding").

(** [PUT /api/branding] (lines 277-295) *)
Definition put_branding (a : ambient) (authHeader : option string)
    (b : branding_body) : handler :=
  authenticated a authHeader (fun user =>
    try_catch
      (_ <- pool_query a 0
         (update_company_branding (bb_logoUrl b) (bb_primaryColour b)
            (bb_secondaryColour b) (bb_quoteHeaderText b) (bb_quoteFooterText b)
            (companyId user)) ;;
       ret (res_json JSuccess))
      "Failed to update branding").

(** [PUT /api/company] (lines 298-318) *)
Definition put_company (a : ambient) (authHeader : option string)
    (b : company_body) : handler :=
  authenticated a authHeader (fun user =>
    try_catch
      (_ <- pool_query a 0
         (update_companies (cb_companyName b) (cb_phone b) (cb_addressLine1 b)
            (cb_addressLine2 b) (cb_city b) (cb_postcode b) (cb_vatNumber b)
            (companyId user)) ;;
       ret (res_json JSuccess))
      "Failed to update company").

(** [POST /api/quotes] (lines 321-349) *)
Definition post_quotes (a : ambient) (authHeader : option string)
    (b : quote_fields) : handler :=
  authenticated a authHeader (fun user =>
    try_catch
      (let quoteRef := generateQuoteRef a in
       row <- pool_query a 0
         (insert_quotes (now a) (companyId user) (userId user) quoteRef b) ;;
       ret (res_json (JQuote row)))
      "Failed to create quote").

(** [GET /api/quotes] (lines 352-366) *)
Definition get_quotes (a : ambient) (authHeader : option string) : handler :=
  authenticated a authHeader (fun user =>
    try_catch
      (rows <- pool_query a 0 (select_quotes (companyId user)) ;;
       ret (res_json (JQuoteRows rows)))
      "Failed to get quotes").

(** [GET /api/quotes/:id] (lines 369-387) *)
Definition get_quote (a : ambient) (authHeader : option string)
    (id : route_param) : handler :=
  authenticated a authHeader (fun user =>
    try_catch
      (rows <- pool_query a 0 (select_quote id (companyId user)) ;;
       match rows with
       | [] => ret (res_error 404 "Quote not found")
       | r :: _ => ret (res_json (JQuoteRow r))
       end)
      "Failed to get quote").

(** [PATCH /api/quotes/:id/status] (lines 390-402) *)
Definition patch_quote_status (a : ambient) (authHeader : option string)
    (id : route_param) (status : option string) : handler :=
  authenticated a authHeader (fun user =>
    try_catch
      (_ <- pool_query a 0 (update_quotes_status status id (companyId user)) ;;
       ret (res_json JSuccess))
      "Failed to update quote").

(** The routes of the application. *)
Inductive request :=
| GetHealth
| PostRegister (b : register_body)
| PostLogin (email password : option string)
| GetMe (authorization : option string)
| GetBranding (authorization : option string)
| PutBranding (authorization : option string) (b : branding_body)
| PutCompany (authorization : option string) (b : company_body)
| PostQuotes (authorization : option string) (b : quote_fields)
| GetQuotes (authorization : option string)
| GetQuote (authorization : option string) (id : route_param)
| PatchQuoteStatus (authorization : option string) (id : route_param)
    (status : option string)
| GetFrontend.

Definition handle (a : ambient) (r : request) : handler :=
  match r with
  | GetHealth => fun s => (res_json (JHealth (now a)), s)
  | PostRegister b => post_register a b
  | PostLogin e p => post_login a e p
  | GetMe h => get_me a h
  | GetBranding h => get_branding a h
  | PutBranding h b => put_branding a h b
  | PutCompany h b => put_company a h b
  | PostQuotes h b => post_quotes a h b
  | GetQuotes h => get_quotes a h
  | GetQuote h id => get_quote a h id
  | PatchQuoteStatus h id st => patch_quote_status a h id st
  | GetFrontend => fun s => (res_json JIndexHtml, s)
  end.

(** The stores the application can get to, one request after another,
    from the tables [initDB] created. *)
Inductive reachable : store -> Prop :=
| reach_init : reachable initDB
| reach_step : forall s a r, reachable s -> reachable (snd (handle a r s)).

End Server.

(** ** Keys

    [distinct eqb l]: no value occurs twice in [l]. *)
Fixpoint distinct {K : Type} (eqb : K -> K -> bool) (l : list K) : bool :=
  match l with
  | [] => true
  | k :: r => negb (existsb (eqb k) r) && distinct eqb r
  end.

(** The non-NULL values of a column ([UNIQUE] does not compare NULLs). *)
Definition non_null {A} (l : list (option A)) : list A :=
  flat_map (fun v => match v with Some a => [a] | None => [] end) l.

(** The store with the [is_active] flags rewritten by [f], all else as it
    was (no route writes the flag; this is a change made at the database). *)
Definition with_is_active (f : user -> option bool) (s : store) : store :=
  set_users
    (map (fun u =>
       {| u_id := u_id u; u_company_id := u_company_id u; u_email := u_email u;
          u_password_hash := u_password_hash u; u_first_name := u_first_name u;
          u_last_name := u_last_name u; u_phone := u_phone u; u_role := u_role u;
          u_is_active := f u; u_created_at := u_created_at u |}) (users s))
    (users_id_seq s) s.

(** ** What a partial update may do to a row

    [assigned col v old new]: the column holds [new] after the update was
    given [v] for it; with [v] absent it kept [old], otherwise it holds [v]
    as the column type [col] takes it. *)
Definition assigned (col : option string -> outcome (option string))
    (v old new : option string) : Prop :=
  match v with
  | None => new = old
  | Some _ => col v = Returned new
  end.

Definition branding_merge (b : branding_body) (old new : branding) : Prop :=
  b_id new = b_id old /\
  b_company_id new = b_company_id old /\
  b_created_at new = b_created_at old /\
  assigned (varchar 500) (bb_logoUrl b) (b_logo_url old) (b_logo_url new) /\
  assigned (varchar 7) (bb_primaryColour b) (b_primary_colour old) (b_primary_colour new) /\
  assigned (varchar 7) (bb_secondaryColour b) (b_secondary_colour old)
           (b_secondary_colour new) /\
  assigned text (bb_quoteHeaderText b) (b_quote_header_text old)
           (b_quote_header_text new) /\
  assigned text (bb_quoteFooterText b) (b_quote_footer_text old)
           (b_quote_footer_text new).

Definition company_merge (b : company_body) (old new : company) : Prop :=
  c_id new = c_id old /\
  c_email new = c_email old /\
  c_account_status new = c_account_status old /\
  c_trial_ends_at new = c_trial_ends_at old /\
  c_markup_percentage new = c_markup_percentage old /\
  c_created_at new = c_created_at old /\
  assigned (varchar 255) (cb_companyName b) (Some (c_company_name old))
           (Some (c_company_name new)) /\
  assigned (varchar 20) (cb_phone b) (c_phone old) (c_phone new) /\
  assigned (varchar 255) (cb_addressLine1 b) (c_address_line1 old) (c_address_line1 new) /\
  assigned (varchar 255) (cb_addressLine2 b) (c_address_line2 old) (c_address_line2 new) /\
  assigned (varchar 100) (cb_city b) (c_city old) (c_city new) /\
  assigned (varchar 10) (cb_postcode b) (c_postcode old) (c_postcode new) /\
  assigned (varchar 20) (cb_vatNumber b) (c_vat_number old) (c_vat_number new).

(** ** What a request may do to a quote

    [quote_step jws_open a r old new]: request [r], arriving in [a], found
    the row [old] and left [new] in its place. *)
Definition quote_step (jws_open : string -> string -> option jwt_payload)
    (a : ambient) (r : request) (old new : quote) : Prop :=
  q_company_id new = q_company_id old /\
  q_created_by new = q_created_by old /\
  q_quote_reference new = q_quote_reference old /\
  (new = old \/
   exists h id st st' user k,
     r = PatchQuoteStatus h id st /\
     authenticateToken jws_open (env a) (now a) h = Next user /\
     companyId (p_claims user) = Id k /\
     q_company_id old = Some k /\
     int4_in id = Returned (q_id old) /\
     varchar 20 st = Returned st' /\
     new = with_status st' old).

(** ** Tenants

    The company, branding and user rows that belong together under an
    email: the users of that email, each with the companies it points to
    and their branding rows. *)
Definition triples (email : string) (s : store) : list (company * branding * user) :=
  flat_map (fun u =>
    flat_map (fun c =>
      map (fun n => (c, n, u))
          (filter (fun n => Z_is (b_company_id n) (c_id c)) (company_branding s)))
      (filter (user_company u) (companies s)))
    (filter (fun u => String.eqb (u_email u) email) (users s)).

(** What holds of the tenants in every store the application builds. *)
Definition tenants_ok (s : store) : Prop :=
  distinct Z.eqb (map c_id (companies s)) = true /\
  distinct String.eqb (map c_email (companies s)) = true /\
  distinct String.eqb (map u_email (users s)) = true /\
  distinct Z.eqb (non_null (map b_company_id (company_branding s))) = true /\
  (forall c, In c (companies s) -> c_id c < companies_id_seq s) /\
  (forall u, In u (users s) ->
     exists c n, In c (companies s) /\ In n (company_branding s) /\
                 u_company_id u = Some (c_id c) /\
                 b_company_id n = Some (c_id c) /\ c_email c = u_email u) /\
  (forall n, In n (company_branding s) ->
     exists k, b_company_id n = Some k /\ k < companies_id_seq s).

(** The primary key of [quotes], and where its sequence stands. *)
Definition quotes_ok (s : store) : Prop :=
  distinct Z.eqb (map q_id (quotes s)) = true /\
  (forall q, In q (quotes s) -> q_id q < quotes_id_seq s).

(** The quotes table with its sequence. *)
Definition quotes_and_seq (s : store) : list quote * Z := (quotes s, quotes_id_seq s).

(** [keeps f m]: running [m] does not change what [f] reads off the store. *)
Definition keeps {X A : Type} (f : store -> X) (m : io A) : Prop :=
  forall s, f (snd (m s)) = f s.

(** ** Stand-ins for the examples

    A token codec and a digest that are readable and nothing else: the
    token is its fields in decimal with the key in place of a signature,
    the digest is the salt followed by the key bytes. *)
Module Demo.

Fixpoint split_dot (s : string) : list string :=
  match s with
  | EmptyString => [EmptyString]
  | String c r =>
      if Ascii.eqb c "." then EmptyString :: split_dot r
      else match split_dot r with
           | [] => [String c EmptyString]
           | w :: ws => String c w :: ws
           end
  end.

Definition dec (z : Z) : string := NilZero.string_of_int (Z.to_int z).

Definition undec (t : string) : option Z := option_map Z.of_int (NilZero.int_of_string t).

Definition dec_id (c : claim_id) : string :=
  match c with
  | NoId => "-"
  | Id n => dec n
  | BadId => "?"
  end.

Definition undec_id (t : string) : claim_id :=
  if String.eqb t "-" then NoId
  else match undec t with
       | Some n => Id n
       | None => BadId
       end.

(** [nbf] is not written: the tokens of the examples have none. *)
Definition jws_sign (k : string) (p : jwt_payload) : string :=
  dec_id (userId (p_claims p)) ++ "." ++ dec_id (companyId (p_claims p)) ++ "."
  ++ match role (p_claims p) with Some r => "r" ++ r | None => "-" end ++ "."
  ++ dec (p_iat p) ++ "."
  ++ match p_exp p with Some e => dec e | None => "-" end ++ "." ++ k.

Definition jws_open (k t : string) : option jwt_payload :=
  match split_dot t with
  | [u; c; r; i; e; k'] =>
      if String.eqb k' k then
        match undec i with
        | Some i =>
            Some {| p_claims :=
                      {| userId := undec_id u; companyId := undec_id c;
                         role := match r with
                                 | String "r" x => Some x
                                 | _ => None
                                 end |};
                    p_iat := i; p_nbf := None; p_exp := undec e |}
        | None => None
        end
      else None
  | _ => None
  end.

Definition eks_blowfish (key salt : string) (cost : nat) : string := salt ++ key.

Definition production : process_env :=
  {| env_DATABASE_URL := Some "postgres://db/portal";
     env_NODE_ENV := Some "production";
     env_JWT_SECRET := None;
     env_PORT := None |}.

Definition quiet (t : Z) : ambient :=
  {| env := production; now := t; year := 2026; random9000 := 234;
     salt := "saltsaltsaltsaltsaltsa"; fault := fun _ => false |}.

Definition run (a : ambient) (r : request) (s : store) : store :=
  snd (handle jws_sign jws_open eks_blowfish a r s).

Definition acme : register_body :=
  {| rb_companyName := Some "Acme Worktops"; rb_email := Some "a@acme.test";
     rb_password := Some "secret123"; rb_firstName := Some "Ann";
     rb_lastName := Some "Lee"; rb_phone := None; rb_postcode := Some "AB1 2CD" |}.

Definition stone : register_body :=
  {| rb_companyName := Some "Stone and Co"; rb_email := Some "s@stone.test";
     rb_password := Some "granite42"; rb_firstName := Some "Sam";
     rb_lastName := Some "Roy"; rb_phone := Some "0123456789"; rb_postcode := None |}.

(** The bearer header of a session opened at [t]. *)
Definition bearer (user company : Z) (t : Z) : option string :=
  Some ("Bearer " ++
        jwt_sign jws_sign
          {| userId := Id user; companyId := Id company; role := Some "trade_admin" |}
          (JWT_SECRET production) t).

Definition jane : quote_fields :=
  {| customer_name := Some "Jane Doe"; customer_email := None;
     customer_phone := None; customer_address := None; customer_postcode := None;
     material_name := Some "Quartz"; material_brand := None; thickness := Some 30;
     edge_profile := None; slabs_required := None;
     trade_price_ex_vat := Some 50000; trade_price_inc_vat := Some 60000;
     customer_price_ex_vat := None; customer_price_inc_vat := None;
     quote_data := None |}.

(** Two companies registered, then a quote created by the second. *)
Definition two_companies : store :=
  run (quiet 1700000100000) (PostRegister stone)
    (run (quiet 1700000000500) (PostRegister acme) initDB).

Definition with_quote : store :=
  run (quiet 1700000200000) (PostQuotes (bearer 2 2 1700000100000) jane) two_companies.

Definition the_quote : quote :=
  {| q_id := 1; q_company_id := Some 2; q_created_by := Some 2;
     q_quote_reference := "PW-2026-1234"; q_status := Some "draft";
     q_fields := jane; q_valid_until := Some 19705;
     q_created_at := Some 1700000200000 |}.

Definition session (user company : Z) (t : Z) : jwt_payload :=
  {| p_claims :=
       {| userId := Id user; companyId := Id company; role := Some "trade_admin" |};
     p_iat := t / 1000; p_nbf := None; p_exp := Some (t / 1000 + seven_days) |}.

(** Everybody deactivated behind the application's back. *)
Definition deactivated : store := with_is_active (fun _ => Some false) two_companies.

Definition ann_inactive : user :=
  {| u_id := 1; u_company_id := Some 1; u_email := "a@acme.test";
     u_password_hash :=
       {| bh_cost := 10; bh_salt := "saltsaltsaltsaltsaltsa";
          bh_digest := eks_blowfish (key_stream "secret123") "saltsaltsaltsaltsaltsa" 10 |};
     u_first_name := "Ann"; u_last_name := "Lee"; u_phone := None;
     u_role := Some "trade_admin"; u_is_active := Some false;
     u_created_at := Some 1700000000500 |}.

Definition ann : user :=
  {| u_id := 1; u_company_id := Some 1; u_email := "a@acme.test";
     u_password_hash :=
       {| bh_cost := 10; bh_salt := "saltsaltsaltsaltsaltsa";
          bh_digest := eks_blowfish (key_stream "secret123") "saltsaltsaltsaltsaltsa" 10 |};
     u_first_name := "Ann"; u_last_name := "Lee"; u_phone := None;
     u_role := Some "trade_admin"; u_is_active := Some true;
     u_created_at := Some 1700000000500 |}.

(** A registration without a first name, and one without a password. *)
Definition nameless : register_body :=
  {| rb_companyName := Some "Granite Bros"; rb_email := Some "g@granite.test";
     rb_password := Some "pebbles"; rb_firstName := None;
     rb_lastName := Some "Moss"; rb_phone := None; rb_postcode := None |}.

(** The connection drops at the third query of the request. *)
Definition drops_at_branding (t : Z) : ambient :=
  {| env := production; now := t; year := 2026; random9000 := 234;
     salt := "saltsaltsaltsaltsaltsa"; fault := fun k => Nat.eqb k 2 |}.

Definition acme_row : company :=
  {| c_id := 1; c_company_name := "Acme Worktops"; c_email := "a@acme.test";
     c_phone := None; c_address_line1 := None; c_address_line2 := None;
     c_city := None; c_postcode := Some "AB1 2CD"; c_vat_number := None;
     c_account_status := Some "trial"; c_trial_ends_at := Some 1701209600500;
     c_markup_percentage := Some 2000; c_created_at := Some 1700000000500 |}.

End Demo.

(** ** More runs

    A second quote of the second company, drawn with another number; and
    the first company's branding after it set its primary colour. *)
Module Scenario.

Definition later (t : Z) : ambient :=
  {| env := Demo.production; now := t; year := 2026; random9000 := 7777;
     salt := "pepperpepperpepperpeppe"; fault := fun _ => false |}.

Definition two_quotes : store :=
  Demo.run (later 1700000250000)
    (PostQuotes (Demo.bearer 2 2 1700000100000) Demo.jane) Demo.with_quote.

Definition only_primary (colour : string) : branding_body :=
  {| bb_logoUrl := None; bb_primaryColour := Some colour; bb_secondaryColour := None;
     bb_quoteHeaderText := None; bb_quoteFooterText := None |}.

Definition granite : register_body :=
  {| rb_companyName := Some "Granite Bros"; rb_email := Some "g@granite.test";
     rb_password := Some "pebbles"; rb_firstName := Some "Gus";
     rb_lastName := Some "Moss"; rb_phone := None; rb_postcode := None |}.

Definition acme_branding : branding :=
  {| b_id := 1; b_company_id := Some 1; b_logo_url := None;
     b_primary_colour := Some "#033f2a"; b_secondary_colour := Some "#f6d466";
     b_quote_header_text := None; b_quote_footer_text := None;
     b_created_at := Some 1700000000500 |}.

(** The store after the registration without a first name failed at the
    user insert. *)
Definition orphaned : store :=
  Demo.run (Demo.quiet 1700000600000) (PostRegister Demo.nameless) Demo.two_companies.

(** Seven letters of two bytes each (U+00E9, seven times). *)
Definition seven_letters : string :=
  text_of (repeat (String (ascii_of_nat 195) (String (ascii_of_nat 169) "")) 7).

(** The header of a token signed with the configured key whose payload
    names no user and no company. *)
Definition unnamed : option string :=
  Some ("Bearer " ++
        jwt_sign Demo.jws_sign {| userId := NoId; companyId := NoId; role := None |}
                 (JWT_SECRET Demo.production) 1700000100000).

End Scenario.

(** ** Routes behind the middleware

    [authorization_of r]: the [Authorization] header of a request to a route
    registered with [authenticateToken], [None] for the open routes. *)
Definition authorization_of (r : request) : option (option string) :=
  match r with
  | GetHealth | PostRegister _ | PostLogin _ _ | GetFrontend => None
  | GetMe h | GetBranding h | PutBranding h _ | PutCompany h _
  | PostQuotes h _ | GetQuotes h | GetQuote h _ | PatchQuoteStatus h _ _ => Some h
  end.

Unset Implicit Arguments.

(** * Properties *)

(** ** A session, run

    Two companies register; the second creates a quote, sees it in its
    list, marks it sent and reads it back; the first registers again and
    is turned away. *)
Example run_register :
  fst (handle Demo.jws_sign Demo.jws_open Demo.eks_blowfish (Demo.quiet 1700000000500)
         (PostRegister Demo.acme) initDB)
  = res_json
      (JSession
         "1.1.rtrade_admin.1700000000.1700604800.prime-worktops-secret-key-change-in-production"
         {| su_firstName := Some "Ann"; su_lastName := Some "Lee";
            su_email := Some "a@acme.test"; su_role := Some "trade_admin" |}
         {| sc_id := 1; sc_name := Some "Acme Worktops"; sc_status := None |}).
Proof. reflexivity. Qed.

Example run_create_quote :
  quotes Demo.with_quote = [Demo.the_quote] /\
  q_quote_reference Demo.the_quote = "PW-2026-1234".
Proof. split; reflexivity. Qed.

Example run_list_and_patch :
  let h := Demo.bearer 2 2 1700000100000 in
  let a := Demo.quiet 1700000300000 in
  let row q := {| qr_quote := q; qr_first_name := Some "Sam";
                  qr_last_name := Some "Roy" |} in
  let s := snd (patch_quote_status Demo.jws_open a h (IntText 1) (Some "sent")
                  Demo.with_quote) in
  fst (get_quotes Demo.jws_open a h Demo.with_quote)
  = res_json (JQuoteRows [row Demo.the_quote]) /\
  fst (get_quote Demo.jws_open a h (IntText 1) s)
  = res_json (JQuoteRow (row (with_status (Some "sent") Demo.the_quote))) /\
  fst (get_quote Demo.jws_open a h (OtherText "abc") s)
  = res_error 500 "Failed to get quote" /\
  fst (get_quote Demo.jws_open a None (IntText 1) s) = res_error 401 "Access denied" /\
  fst (get_quote Demo.jws_open a (Some "Bearer x.y.z") (IntText 1) s)
  = res_error 403 "Invalid token".
Proof. repeat split; reflexivity. Qed.

(** ** Configuration *)

(** C2, as the program has it: with [JWT_SECRET] unset the server starts
    all the same, signing with the built-in key, whatever [NODE_ENV] is. *)
Theorem start_defaults_secret :
  forall e, env_JWT_SECRET e = None ->
    start e = Listening "prime-worktops-secret-key-change-in-production"
                        (PORT e) (pool_ssl e).
Proof.
  intros e H. unfold start, JWT_SECRET. rewrite H. reflexivity.
Qed.

Lemma start_defaults_secret_production :
  env_JWT_SECRET Demo.production = None /\
  start Demo.production =
    Listening "prime-worktops-secret-key-change-in-production"
              (PORT Demo.production) (pool_ssl Demo.production).
Proof.
  split; [reflexivity | apply (start_defaults_secret Demo.production); reflexivity].
Defined.

(** C2 as specified fails: in production, without [JWT_SECRET], the
    process does not refuse to start. *)
Lemma production_without_secret_starts :
  env_NODE_ENV Demo.production = Some "production" /\
  env_JWT_SECRET Demo.production = None /\
  start Demo.production <> Refused /\
  start Demo.production =
    Listening "prime-worktops-secret-key-change-in-production" "3000" true.
Proof.
  repeat split; try reflexivity. discriminate.
Qed.

(** ** Text *)

(** Each character [utf8_chars] finds is cut off the front of any text it
    starts. *)
Lemma utf8_chars_cut :
  forall n t cs,
    (String.length t <= n)%nat -> utf8_chars t = Some cs ->
    Forall (fun c => forall rest,
              utf8_chars (c ++ rest) = option_map (cons c) (utf8_chars rest)) cs.
Proof.
  induction n as [|n IH]; intros t cs Hlen.
  { destruct t; [intros [= <-]; constructor | cbn in Hlen; lia]. }
  destruct t as [|a r]; [intros [= <-]; constructor|].
  cbn [utf8_chars String.length] in *.
  destruct (between 1 127 a) eqn:E1.
  { destruct (utf8_chars r) as [cs'|] eqn:Er; [|discriminate]. intros [= <-].
    constructor; [|apply (IH r); [lia | exact Er]].
    intros rest. cbn [append utf8_chars]. now rewrite E1. }
  destruct r as [|b r2]; [discriminate|]. cbn [String.length] in Hlen.
  destruct (between 194 223 a && between 128 191 b) eqn:E2.
  { destruct (utf8_chars r2) as [cs'|] eqn:Er; [|discriminate]. intros [= <-].
    constructor; [|apply (IH r2); [lia | exact Er]].
    intros rest. cbn [append utf8_chars]. now rewrite E1, E2. }
  destruct r2 as [|c r3]; [discriminate|]. cbn [String.length] in Hlen.
  destruct (starts_three a b && between 128 191 c) eqn:E3.
  { destruct (utf8_chars r3) as [cs'|] eqn:Er; [|discriminate]. intros [= <-].
    constructor; [|apply (IH r3); [lia | exact Er]].
    intros rest. cbn [append utf8_chars]. now rewrite E1, E2, E3. }
  destruct r3 as [|d r4]; [discriminate|]. cbn [String.length] in Hlen.
  destruct (starts_four a b && between 128 191 c && between 128 191 d) eqn:E4;
    [|discriminate].
  destruct (utf8_chars r4) as [cs'|] eqn:Er; [|discriminate]. intros [= <-].
  constructor; [|apply (IH r4); [lia | exact Er]].
  intros rest. cbn [append utf8_chars]. now rewrite E1, E2, E3, E4.
Qed.

Lemma utf8_chars_text_of :
  forall cs,
    Forall (fun c => forall rest,
              utf8_chars (c ++ rest) = option_map (cons c) (utf8_chars rest)) cs ->
    utf8_chars (text_of cs) = Some cs.
Proof.
  induction 1 as [|c cs Hc _ IH]; [reflexivity|].
  cbn [text_of fold_right]. rewrite Hc. fold (text_of cs). now rewrite IH.
Qed.

Lemma Forall_first :
  forall (A : Type) (P : A -> Prop) n (l : list A), Forall P l -> Forall P (firstn n l).
Proof.
  intros A P n l F. revert n. induction F as [|x l Hx F IH]; intros [|n]; cbn;
    constructor; auto.
Qed.

(** The characters of a text put together again are the text. *)
Lemma text_of_utf8_chars :
  forall n t cs, (String.length t <= n)%nat -> utf8_chars t = Some cs -> text_of cs = t.
Proof.
  induction n as [|n IH]; intros t cs Hlen.
  { destruct t; [intros [= <-]; reflexivity | cbn in Hlen; lia]. }
  destruct t as [|a r]; [intros [= <-]; reflexivity|].
  cbn [utf8_chars String.length] in *.
  destruct (between 1 127 a).
  { destruct (utf8_chars r) as [cs'|] eqn:Er; [|discriminate]. intros [= <-].
    cbn. f_equal. apply (IH r); [lia | exact Er]. }
  destruct r as [|b r2]; [discriminate|]. cbn [String.length] in Hlen.
  destruct (between 194 223 a && between 128 191 b).
  { destruct (utf8_chars r2) as [cs'|] eqn:Er; [|discriminate]. intros [= <-].
    cbn. do 2 f_equal. apply (IH r2); [lia | exact Er]. }
  destruct r2 as [|c r3]; [discriminate|]. cbn [String.length] in Hlen.
  destruct (starts_three a b && between 128 191 c).
  { destruct (utf8_chars r3) as [cs'|] eqn:Er; [|discriminate]. intros [= <-].
    cbn. do 3 f_equal. apply (IH r3); [lia | exact Er]. }
  destruct r3 as [|d r4]; [discriminate|]. cbn [String.length] in Hlen.
  destruct (starts_four a b && between 128 191 c && between 128 191 d); [|discriminate].
  destruct (utf8_chars r4) as [cs'|] eqn:Er; [|discriminate]. intros [= <-].
  cbn. do 4 f_equal. apply (IH r4); [lia | exact Er].
Qed.

(** What a [VARCHAR(n)] column returns for a value is a value, and a text. *)
Lemma varchar_some :
  forall n x l, varchar n (Some x) = Returned l -> exists y, l = Some y.
Proof.
  intros n x l. unfold varchar.
  destruct (utf8_chars x) as [cs|]; [|discriminate].
  destruct (List.length cs <=? n)%nat.
  - intros [= <-]. eauto.
  - destruct (forallb _ _); [intros [= <-]; eauto | discriminate].
Qed.

Lemma varchar_is_text :
  forall n v y, varchar n v = Returned (Some y) -> is_text y = true.
Proof.
  intros n [x|] y; [|discriminate]. unfold varchar, is_text.
  destruct (utf8_chars x) as [cs|] eqn:E; [|discriminate].
  destruct (List.length cs <=? n)%nat.
  - intros [= <-]. now rewrite E.
  - destruct (forallb _ _); [|discriminate]. intros [= <-].
    rewrite utf8_chars_text_of; [reflexivity|].
    apply Forall_first. exact (utf8_chars_cut _ x cs (Nat.le_refl _) E).
Qed.

(** A value a [VARCHAR(n)] column takes is a text parameter the store
    reads. *)
Lemma varchar_reads :
  forall n v r, varchar n v = Returned r -> text v = Returned v.
Proof.
  intros n [x|] r; [|reflexivity]. unfold varchar, text, is_text.
  destruct (utf8_chars x); [reflexivity | discriminate].
Qed.

(** What is not a text no [VARCHAR(n)] column takes. *)
Lemma varchar_not_text :
  forall n v, text v = Threw -> varchar n v = Threw.
Proof.
  intros n [t|]; [|discriminate]. unfold text, varchar, is_text.
  destruct (utf8_chars t); [discriminate | reflexivity].
Qed.

(** A text of at most [n] characters is stored as it is. *)
Lemma varchar_fits :
  forall n t cs,
    utf8_chars t = Some cs -> (List.length cs <= n)%nat ->
    varchar n (Some t) = Returned (Some t).
Proof.
  intros n t cs E L. unfold varchar. rewrite E.
  apply Nat.leb_le in L. now rewrite L.
Qed.

Lemma varchar_as_sent :
  forall n t y cs,
    varchar n (Some t) = Returned (Some y) ->
    utf8_chars t = Some cs -> (List.length cs <= n)%nat -> y = t.
Proof.
  intros n t y cs H E L. rewrite (varchar_fits n t cs E L) in H. now injection H.
Qed.

(** Bytes from 1 to 127 are characters of their own. *)
Lemma utf8_chars_ascii :
  forall t,
    forallb (between 1 127) (list_ascii_of_string t) = true ->
    utf8_chars t = Some (map (fun c => String c "") (list_ascii_of_string t)).
Proof.
  induction t as [|a r IH]; [reflexivity|].
  cbn [list_ascii_of_string forallb utf8_chars map]. intros H.
  apply andb_true_iff in H. destruct H as [Ha Hr].
  now rewrite Ha, (IH Hr).
Qed.

(** ** Tokens *)

Lemma split_space_word :
  forall t, has_space t = false -> split_space t = [t].
Proof.
  induction t as [|c r IH]; simpl; intros H; [reflexivity|].
  destruct (Ascii.eqb c " "); [discriminate|].
  simpl in H. rewrite (IH H). reflexivity.
Qed.

Lemma eqb_empty_false : forall t, t <> "" -> String.eqb t "" = false.
Proof.
  intros t H. destruct (String.eqb_spec t ""); [contradiction | reflexivity].
Qed.

(** What [authenticateToken] does with [Bearer <token>] for a token that
    opens to payload [p]. *)
Lemma authenticate_bearer :
  forall jws_open e now_ms token p,
    has_space token = false -> token <> "" ->
    jws_open (JWT_SECRET e) token = Some p ->
    authenticateToken jws_open e now_ms (Some ("Bearer " ++ token)) =
      if not_yet p now_ms then Reject 403 "Invalid token"
      else match p_exp p with
           | Some x =>
               if clockTimestamp now_ms >=? x then Reject 403 "Invalid token" else Next p
           | None => Next p
           end.
Proof.
  intros jws_open e now_ms token p Hsp Hne Hopen.
  unfold authenticateToken. cbn [append String.eqb Ascii.eqb Bool.eqb].
  cbn [split_space Ascii.eqb Bool.eqb]. rewrite (split_space_word _ Hsp).
  cbn [nth_error]. rewrite (eqb_empty_false _ Hne).
  unfold jwt_verify. rewrite Hopen.
  destruct (not_yet p now_ms); [reflexivity|].
  destruct (p_exp p) as [x|]; [|reflexivity].
  destruct (clockTimestamp now_ms >=? x); reflexivity.
Qed.

(** C3.  A token issued at [t0] for [(userId, companyId, role)], presented
    at [t1] as [Authorization: Bearer <token>], is accepted with exactly
    those claims while the token clock (whole seconds) is before
    [iat + 7 days], and is answered 403 from that second on; in
    milliseconds, it is accepted up to a second short of seven days after
    [t0] and refused from seven days after [t0] on.  The codec is any for
    which this token opens to what was signed and is one word. *)
Theorem verify_issued_token :
  forall jws_sign jws_open e (c : claims) (t0 t1 : Z),
    let token := jwt_sign jws_sign c (JWT_SECRET e) t0 in
    let issued := {| p_claims := c; p_iat := clockTimestamp t0; p_nbf := None;
                     p_exp := Some (clockTimestamp t0 + seven_days) |} in
    jws_open (JWT_SECRET e) token = Some issued ->
    has_space token = false -> token <> "" ->
    (clockTimestamp t1 < clockTimestamp t0 + seven_days ->
       authenticateToken jws_open e t1 (Some ("Bearer " ++ token)) = Next issued /\
       p_claims issued = c) /\
    (clockTimestamp t0 + seven_days <= clockTimestamp t1 ->
       authenticateToken jws_open e t1 (Some ("Bearer " ++ token)) =
         Reject 403 "Invalid token") /\
    (t1 + 1000 <= t0 + 1000 * seven_days ->
       authenticateToken jws_open e t1 (Some ("Bearer " ++ token)) = Next issued) /\
    (t0 + 1000 * seven_days <= t1 ->
       authenticateToken jws_open e t1 (Some ("Bearer " ++ token)) =
         Reject 403 "Invalid token").
Proof.
  intros jws_sign jws_open e c t0 t1 token issued Hopen Hsp Hne.
  pose proof (authenticate_bearer jws_open e t1 _ _ Hsp Hne Hopen) as H.
  unfold not_yet in H. cbn [p_nbf p_exp issued] in H. rewrite H.
  unfold clockTimestamp, seven_days in *.
  destruct (Z.geb_spec (t1 / 1000) (t0 / 1000 + 7 * 24 * 60 * 60));
    repeat match goal with
           | |- _ /\ _ => split
           | |- _ -> _ => intro
           end;
    try reflexivity; exfalso; Z.to_euclidean_division_equations; lia.
Qed.

Lemma verify_issued_token_demo :
  let c := {| userId := Id 7; companyId := Id 3; role := Some "trade_admin" |} in
  let t0 := 1700000000500 in
  let token := jwt_sign Demo.jws_sign c (JWT_SECRET Demo.production) t0 in
  token = "7.3.rtrade_admin.1700000000.1700604800.prime-worktops-secret-key-change-in-production" /\
  authenticateToken Demo.jws_open Demo.production (t0 + 86400000)
    (Some ("Bearer " ++ token))
  = Next {| p_claims := c; p_iat := 1700000000; p_nbf := None;
            p_exp := Some 1700604800 |} /\
  authenticateToken Demo.jws_open Demo.production 1700604800000
    (Some ("Bearer " ++ token))
  = Reject 403 "Invalid token".
Proof.
  intros c t0 token.
  assert (token <> "") as Hne by discriminate.
  split; [reflexivity|].
  split.
  - destruct (verify_issued_token Demo.jws_sign Demo.jws_open Demo.production c t0
                (t0 + 86400000) eq_refl eq_refl Hne) as (Hin & _).
    apply Hin. reflexivity.
  - destruct (verify_issued_token Demo.jws_sign Demo.jws_open Demo.production c t0
                1700604800000 eq_refl eq_refl Hne) as (_ & Hout & _).
    apply Hout. discriminate.
Defined.

(** ** Passwords *)

Lemma string_of_bytes_of_string :
  forall t, string_of_bytes (list_ascii_of_string t) = t.
Proof.
  induction t as [|c r IH]; simpl; [reflexivity | now rewrite IH].
Qed.

Lemma list_ascii_of_append :
  forall a b,
    list_ascii_of_string (a ++ b) = (list_ascii_of_string a ++ list_ascii_of_string b)%list.
Proof.
  induction a as [|c r IH]; simpl; intros b; [reflexivity | now rewrite IH].
Qed.

Lemma length_list_ascii :
  forall t, List.length (list_ascii_of_string t) = String.length t.
Proof.
  induction t as [|c r IH]; simpl; [reflexivity | now rewrite IH].
Qed.

(** Bytes after the 72nd never reach the key schedule. *)
Lemma key_stream_prefix :
  forall p x, String.length p = 72%nat -> key_stream (p ++ x) = p.
Proof.
  intros p x Hlen. unfold key_stream.
  rewrite list_ascii_of_append.
  change (repeat ?k 72) with (k :: repeat k 71).
  cbn [List.concat]. rewrite <- !app_assoc.
  rewrite firstn_app, length_list_ascii, Hlen.
  rewrite firstn_all2 by (rewrite length_list_ascii; lia).
  rewrite Nat.sub_diag. cbn [firstn]. rewrite app_nil_r.
  apply string_of_bytes_of_string.
Qed.

(** C4, as the program has it: a password verifies against its own hash;
    another password verifies against that hash exactly when the Blowfish
    core gives the stored digest for its 72 key bytes under the stored
    salt, which is always so when the two passwords have the same key
    bytes. *)
Theorem bcrypt_compare_hash :
  forall eks salt P1,
    exists h,
      bcrypt_hash_with eks salt (Some P1) 10 = Returned h /\
      bcrypt_compare eks (Some P1) h = Returned true /\
      forall P2,
        bcrypt_compare eks (Some P2) h =
          Returned (String.eqb (eks (key_stream P2) salt 10%nat)
                               (eks (key_stream P1) salt 10%nat)) /\
        (key_stream P2 = key_stream P1 ->
         bcrypt_compare eks (Some P2) h = Returned true).
Proof.
  intros eks salt P1. eexists. split; [reflexivity|].
  unfold bcrypt_compare. cbn [bh_salt bh_cost bh_digest].
  split; [now rewrite String.eqb_refl|].
  intros P2. split; [reflexivity|].
  intros ->. now rewrite String.eqb_refl.
Qed.

(** C4 as specified fails: two passwords that differ only after the
    72nd byte verify against each other's hash, whatever the Blowfish core
    and the salt. *)
Lemma long_passwords_collide :
  let p := string_of_bytes (repeat "a"%char 72) in
  (p ++ "b") <> (p ++ "c") /\
  forall eks salt,
    exists h,
      bcrypt_hash_with eks salt (Some (p ++ "b")) 10 = Returned h /\
      bcrypt_compare eks (Some (p ++ "c")) h = Returned true.
Proof.
  intros p. split; [discriminate|].
  intros eks salt. eexists. split; [reflexivity|].
  unfold bcrypt_compare. cbn [bh_salt bh_cost bh_digest].
  rewrite !key_stream_prefix by reflexivity.
  now rewrite String.eqb_refl.
Qed.

(** ** Lists of rows and their keys *)

Section Keys.

Variables (A K : Type) (key : A -> K) (eqb : K -> K -> bool).
Hypothesis eqb_spec : forall x y, reflect (x = y) (eqb x y).

Lemma existsb_key_false :
  forall (l : list A) k,
    existsb (fun a => eqb (key a) k) l = false ->
    forall a, In a l -> key a <> k.
Proof.
  intros l k H a Ha Hk.
  assert (existsb (fun a => eqb (key a) k) l = true) as E.
  { apply existsb_exists. exists a. split; [exact Ha|].
    destruct (eqb_spec (key a) k); [reflexivity | contradiction]. }
  congruence.
Qed.

Lemma filter_key_none :
  forall (l : list A) k,
    existsb (fun a => eqb (key a) k) l = false ->
    filter (fun a => eqb (key a) k) l = [].
Proof.
  induction l as [|a l IH]; simpl; intros k H; [reflexivity|].
  apply orb_false_iff in H. destruct H as [H1 H2].
  rewrite H1. auto.
Qed.

Lemma distinct_NoDup :
  forall l : list K, distinct eqb l = true -> NoDup l.
Proof.
  induction l as [|k l IH]; simpl; intros H; constructor.
  - apply andb_true_iff in H. destruct H as [H _].
    apply negb_true_iff in H. intros Hin.
    assert (existsb (eqb k) l = true) as E.
    { apply existsb_exists. exists k. split; [exact Hin|].
      destruct (eqb_spec k k); [reflexivity | contradiction]. }
    congruence.
  - apply andb_true_iff in H. tauto.
Qed.

Lemma filter_key_one :
  forall (l : list A) x,
    distinct eqb (map key l) = true -> In x l ->
    filter (fun a => eqb (key a) (key x)) l = [x].
Proof.
  induction l as [|a l IH]; simpl; intros x Hd Hin; [contradiction|].
  apply andb_true_iff in Hd. destruct Hd as [Hfresh Hd].
  apply negb_true_iff in Hfresh.
  assert (forall b, In b l -> key b <> key a) as Hne.
  { intros b Hb Heq.
    assert (existsb (eqb (key a)) (map key l) = true) as E.
    { apply existsb_exists. exists (key b). split; [now apply in_map|].
      destruct (eqb_spec (key a) (key b)); [reflexivity | congruence]. }
    congruence. }
  destruct Hin as [->|Hin].
  - destruct (eqb_spec (key x) (key x)); [|contradiction].
    f_equal. apply filter_key_none.
    destruct (existsb (fun a => eqb (key a) (key x)) l) eqn:E; [|reflexivity].
    apply existsb_exists in E. destruct E as [b [Hb Hk]].
    destruct (eqb_spec (key b) (key x)); [|discriminate].
    exfalso. now apply (Hne b).
  - destruct (eqb_spec (key a) (key x)) as [Heq|_].
    + exfalso. apply (Hne x Hin). now symmetry.
    + now apply IH.
Qed.

End Keys.

Lemma filter_all_false :
  forall (A : Type) (f : A -> bool) (l : list A),
    (forall a, In a l -> f a = false) -> filter f l = [].
Proof.
  induction l as [|a l IH]; simpl; intros H; [reflexivity|].
  rewrite (H a (or_introl eq_refl)). apply IH. intros b Hb. apply H. now right.
Qed.

Lemma existsb_false_all :
  forall (A : Type) (f : A -> bool) (l : list A),
    existsb f l = false -> forall a, In a l -> f a = false.
Proof.
  intros A f l H a Ha. destruct (f a) eqn:E; [|reflexivity].
  assert (existsb f l = true) by (apply existsb_exists; eauto). congruence.
Qed.

Lemma same_key_same_row :
  forall (A : Type) (key : A -> Z) (l : list A) x y,
    distinct Z.eqb (map key l) = true ->
    In x l -> In y l -> key y = key x -> y = x.
Proof.
  intros A key l x y Hd Hx Hy Hk.
  pose proof (filter_key_one A Z key Z.eqb Z.eqb_spec l x Hd Hx) as F.
  assert (In y (filter (fun a => key a =? key x) l)) as Hin.
  { apply filter_In. split; [exact Hy|]. now apply Z.eqb_eq. }
  rewrite F in Hin. destruct Hin as [<-|[]]. reflexivity.
Qed.

(** ** Reading one's own data *)

(** C10.  With no branding row for the caller's company, [GET /api/branding]
    answers 200 with the empty object.  [k] is the token's company as the
    store reads it: an integer of the column's range, or NULL when the
    token names no company, which no row matches. *)
Theorem get_branding_without_row :
  forall jws_open a h user k s,
    authenticateToken jws_open (env a) (now a) h = Next user ->
    fault a 0 = false ->
    int4_claim (companyId (p_claims user)) = Returned k ->
    existsb (fun b => same_id (b_company_id b) k) (company_branding s) = false ->
    get_branding jws_open a h s = ({| res_status := 200; res_body := JEmpty |}, s).
Proof.
  intros jws_open a h user k s Hauth Hfault Hint Hnone.
  unfold get_branding, authenticated. rewrite Hauth.
  unfold try_catch, bind, pool_query. rewrite Hfault.
  unfold select_branding. rewrite Hint.
  rewrite (filter_all_false _ _ _ (existsb_false_all _ _ _ Hnone)).
  reflexivity.
Qed.

Lemma get_branding_without_row_demo :
  get_branding Demo.jws_open (Demo.quiet 1700000300000)
    (Demo.bearer 9 9 1700000100000) Demo.with_quote
  = ({| res_status := 200; res_body := JEmpty |}, Demo.with_quote).
Proof.
  apply (get_branding_without_row Demo.jws_open (Demo.quiet 1700000300000)
           (Demo.bearer 9 9 1700000100000) (Demo.session 9 9 1700000100000) (Some 9));
    reflexivity.
Defined.

(** C1.  A quote that exists under another company is answered exactly as
    an id that no quote has: 404 [Quote not found].  [k] is the token's
    company as the store reads it (NULL when the token names none). *)
Theorem foreign_quote_not_found :
  forall jws_open a h user k s n q,
    authenticateToken jws_open (env a) (now a) h = Next user ->
    fault a 0 = false ->
    int4_claim (companyId (p_claims user)) = Returned k ->
    int4_ok n = true ->
    distinct Z.eqb (map q_id (quotes s)) = true ->
    In q (quotes s) -> q_id q = n ->
    same_id (q_company_id q) k = false ->
    get_quote jws_open a h (IntText n) s = (res_error 404 "Quote not found", s) /\
    forall s',
      existsb (fun q' => q_id q' =? n) (quotes s') = false ->
      get_quote jws_open a h (IntText n) s' = (res_error 404 "Quote not found", s').
Proof.
  intros jws_open a h user k s n q Hauth Hfault Hcid Hn Hd Hq Hid Hother.
  unfold get_quote, authenticated. rewrite Hauth.
  unfold try_catch, bind, pool_query. rewrite Hfault.
  unfold select_quote, int4_in, obind. rewrite Hn, Hcid.
  split.
  - rewrite filter_all_false; [reflexivity|].
    intros q' Hq'. destruct (Z.eqb_spec (q_id q') n) as [E|]; [|reflexivity].
    assert (q' = q) as -> by (apply (same_key_same_row _ q_id (quotes s)); congruence).
    exact Hother.
  - intros s' Hnone. rewrite filter_all_false; [reflexivity|].
    intros q' Hq'. now rewrite (existsb_false_all _ _ _ Hnone q' Hq').
Qed.

Lemma foreign_quote_not_found_demo :
  In Demo.the_quote (quotes Demo.with_quote) /\
  get_quote Demo.jws_open (Demo.quiet 1700000300000)
    (Demo.bearer 1 1 1700000000500) (IntText 1) Demo.with_quote
  = (res_error 404 "Quote not found", Demo.with_quote) /\
  get_quote Demo.jws_open (Demo.quiet 1700000300000)
    (Demo.bearer 1 1 1700000000500) (IntText 1) Demo.two_companies
  = (res_error 404 "Quote not found", Demo.two_companies).
Proof.
  assert (In Demo.the_quote (quotes Demo.with_quote)) as Hin by (left; reflexivity).
  split; [exact Hin|].
  destruct (foreign_quote_not_found Demo.jws_open (Demo.quiet 1700000300000)
              (Demo.bearer 1 1 1700000000500) (Demo.session 1 1 1700000000500)
              (Some 1) Demo.with_quote 1 Demo.the_quote
              eq_refl eq_refl eq_refl eq_refl eq_refl Hin eq_refl eq_refl)
    as [H1 H2].
  split; [exact H1 | exact (H2 Demo.two_companies eq_refl)].
Defined.

(** ** Login *)

Lemma filter_map_same :
  forall (A : Type) (g : A -> A) (p : A -> bool) (l : list A),
    (forall a, p (g a) = p a) -> filter p (map g l) = map g (filter p l).
Proof.
  induction l as [|a l IH]; simpl; intros H; [reflexivity|].
  rewrite H. destruct (p a); simpl; now rewrite IH.
Qed.

Lemma join_map_left :
  forall (A B : Type) (g : A -> A) (on : A -> B -> bool) (l : list A) (r : list B),
    (forall a b, on (g a) b = on a b) ->
    join (map g l) r on = map (fun ab => (g (fst ab), snd ab)) (join l r on).
Proof.
  unfold join. induction l as [|a l IH]; simpl; intros r H; [reflexivity|].
  rewrite IH by exact H. rewrite map_app, map_map. f_equal.
  rewrite (filter_ext (on (g a)) (on a) (H a)). reflexivity.
Qed.

(** The rows the login query returns for the one user of an email. *)
Lemma select_login_one :
  forall s u c,
    is_text (u_email u) = true ->
    distinct String.eqb (map u_email (users s)) = true ->
    distinct Z.eqb (map c_id (companies s)) = true ->
    In u (users s) -> In c (companies s) -> u_company_id u = Some (c_id c) ->
    select_login (Some (u_email u)) s = (Returned [(u, c)], s).
Proof.
  intros s u c Ht Hue Hci Hu Hc Hcid. unfold select_login, text. rewrite Ht.
  unfold text_is.
  rewrite (filter_key_one user string u_email String.eqb String.eqb_spec _ u Hue Hu).
  unfold join. cbn [flat_map]. rewrite app_nil_r.
  rewrite (filter_ext (user_company u) (fun c' => c_id c' =? c_id c)).
  - rewrite (filter_key_one company Z c_id Z.eqb Z.eqb_spec _ c Hci Hc). reflexivity.
  - intros c'. unfold user_company, Z_is. rewrite Hcid. apply Z.eqb_sym.
Qed.

(** C9.  A user whose email and password match is logged in and handed a
    token; and the answer is the same after any rewriting of the
    [is_active] flags, [false] on every user included.  (A stored email is
    a text: the column holds nothing else.) *)
Theorem login_ignores_is_active :
  forall jws_sign eks a pw s u c,
    fault a 0 = false ->
    is_text (u_email u) = true ->
    distinct String.eqb (map u_email (users s)) = true ->
    distinct Z.eqb (map c_id (companies s)) = true ->
    In u (users s) -> In c (companies s) -> u_company_id u = Some (c_id c) ->
    bcrypt_compare eks (Some pw) (u_password_hash u) = Returned true ->
    let answer :=
      {| res_status := 200;
         res_body :=
           JSession
             (jwt_sign jws_sign
                {| userId := Id (u_id u); companyId := Id (c_id c); role := u_role u |}
                (JWT_SECRET (env a)) (now a))
             {| su_firstName := Some (u_first_name u);
                su_lastName := Some (u_last_name u);
                su_email := Some (u_email u); su_role := u_role u |}
             {| sc_id := c_id c; sc_name := Some (c_company_name c);
                sc_status := Some (c_account_status c) |} |} in
    post_login jws_sign eks a (Some (u_email u)) (Some pw) s = (answer, s) /\
    forall f,
      post_login jws_sign eks a (Some (u_email u)) (Some pw) (with_is_active f s)
      = (answer, with_is_active f s).
Proof.
  intros jws_sign eks a pw s u c Hfault Ht Hue Hci Hu Hc Hcid Hpw answer.
  split.
  - unfold post_login, try_catch, bind, pool_query. rewrite Hfault.
    rewrite (select_login_one s u c Ht Hue Hci Hu Hc Hcid).
    unfold lift. rewrite Hpw. reflexivity.
  - intros f.
    unfold post_login, try_catch, bind, pool_query. rewrite Hfault.
    pose proof (select_login_one s u c Ht Hue Hci Hu Hc Hcid) as R.
    unfold select_login, text in R |- *. rewrite Ht in R |- *.
    unfold with_is_active at 1 2. cbn [users companies set_users].
    rewrite filter_map_same by reflexivity.
    rewrite join_map_left by reflexivity.
    injection R as R. unfold text_is in R |- *. rewrite R.
    cbn [map fst snd u_password_hash]. unfold lift. rewrite Hpw. reflexivity.
Qed.

Lemma login_ignores_is_active_demo :
  In Demo.ann_inactive (users Demo.deactivated) /\
  u_is_active Demo.ann_inactive = Some false /\
  post_login Demo.jws_sign Demo.eks_blowfish (Demo.quiet 1700000400000)
    (Some "a@acme.test") (Some "secret123") Demo.deactivated
  = ({| res_status := 200;
        res_body :=
          JSession
            "1.1.rtrade_admin.1700000400.1700605200.prime-worktops-secret-key-change-in-production"
            {| su_firstName := Some "Ann"; su_lastName := Some "Lee";
               su_email := Some "a@acme.test"; su_role := Some "trade_admin" |}
            {| sc_id := 1; sc_name := Some "Acme Worktops";
               sc_status := Some (Some "trial") |} |},
     Demo.deactivated).
Proof.
  assert (In Demo.ann_inactive (users Demo.deactivated)) as Hu by (left; reflexivity).
  assert (In Demo.acme_row (companies Demo.deactivated)) as Hc by (left; reflexivity).
  split; [exact Hu|]. split; [reflexivity|].
  exact (proj1 (login_ignores_is_active Demo.jws_sign Demo.eks_blowfish
                  (Demo.quiet 1700000400000) "secret123" Demo.deactivated
                  Demo.ann_inactive Demo.acme_row
                  eq_refl eq_refl eq_refl eq_refl Hu Hc eq_refl eq_refl)).
Defined.

(** ** Partial updates *)

Lemma Forall2_same :
  forall (A : Type) (R : A -> A -> Prop) (l : list A),
    (forall x, R x x) -> Forall2 R l l.
Proof.
  induction l; intros H; constructor; auto.
Qed.

Lemma Forall2_map_right :
  forall (A : Type) (R : A -> A -> Prop) (g : A -> A) (l : list A),
    (forall x, R x (g x)) -> Forall2 R l (map g l).
Proof.
  induction l; intros H; constructor; auto.
Qed.

Lemma Z_is_true : forall v z, Z_is v z = true -> v = Some z.
Proof.
  intros [x|] z H; simpl in H; [|discriminate].
  apply Z.eqb_eq in H. now subst.
Qed.

(** The store reads an id of the payload as the integer [n] only when the
    payload holds [n], within the column's range. *)
Lemma int4_claim_some :
  forall c n, int4_claim c = Returned (Some n) -> c = Id n /\ int4_ok n = true.
Proof.
  intros [|m|] n; cbn; try discriminate. unfold int4.
  destruct (int4_ok m) eqn:E; [|discriminate]. intros [= ->]. now split.
Qed.

Lemma int4_claim_id :
  forall n, int4_ok n = true -> int4_claim (Id n) = Returned (Some n).
Proof.
  intros n H. cbn. unfold int4. now rewrite H.
Qed.

Lemma same_id_true :
  forall v k, same_id v k = true -> exists n, k = Some n /\ v = Some n.
Proof.
  intros v [n|] H; [|discriminate]. exists n. split; [reflexivity|].
  now apply Z_is_true.
Qed.

Lemma assigned_varchar :
  forall n v l old,
    varchar n v = Returned l -> assigned (varchar n) v old (coalesce l old).
Proof.
  intros n [x|] l old H; unfold assigned.
  - destruct (varchar_some _ _ _ H) as [y ->]. exact H.
  - simpl in H. injection H as <-. reflexivity.
Qed.

Lemma assigned_text :
  forall v l old, text v = Returned l -> assigned text v old (coalesce l old).
Proof.
  intros [x|] l old H; unfold assigned.
  - unfold text in H |- *. destruct (is_text x); [|discriminate].
    injection H as <-. reflexivity.
  - injection H as <-. reflexivity.
Qed.

Lemma assigned_name :
  forall v l old,
    varchar 255 v = Returned l ->
    assigned (varchar 255) v (Some old)
             (Some match l with Some t => t | None => old end).
Proof.
  intros [x|] l old H; unfold assigned.
  - destruct (varchar_some _ _ _ H) as [y ->]. exact H.
  - simpl in H. injection H as <-. reflexivity.
Qed.

(** The middleware rejects with 401 or 403, never with 200. *)
Lemma rejected_status :
  forall jws_open e t h st msg,
    authenticateToken jws_open e t h = Reject st msg -> st = 401 \/ st = 403.
Proof.
  intros jws_open e t h st msg. unfold authenticateToken.
  repeat match goal with
         | |- context [match ?x with _ => _ end] => destruct x
         end; intros [= <- <-]; auto.
Qed.

Lemma Forall2_weaken :
  forall (A : Type) (R1 R2 : A -> A -> Prop) (l1 l2 : list A),
    (forall x y, R1 x y -> R2 x y) -> Forall2 R1 l1 l2 -> Forall2 R2 l1 l2.
Proof.
  intros A R1 R2 l1 l2 H F. induction F; constructor; auto.
Qed.

Ltac refused :=
  left; cbn [fst snd res_error res_status]; split; [discriminate | reflexivity].

(** [PUT /api/branding]: either the request is refused and nothing
    changes, or it is answered [{success: true}] and the rows of the
    token's company, and no others, are the merge of the body into what
    they were. *)
Lemma put_branding_effect :
  forall jws_open a h b s,
    let res := fst (put_branding jws_open a h b s) in
    let s' := snd (put_branding jws_open a h b s) in
    (res_status res <> 200 /\ s' = s) \/
    (res = res_json JSuccess /\
     companies s' = companies s /\ users s' = users s /\ quotes s' = quotes s /\
     exists user k,
       authenticateToken jws_open (env a) (now a) h = Next user /\
       int4_claim (companyId (p_claims user)) = Returned k /\
       Forall2 (fun old new =>
                  if same_id (b_company_id old) k then branding_merge b old new
                  else new = old)
               (company_branding s) (company_branding s')).
Proof.
  intros jws_open a h b s. cbn zeta. unfold put_branding, authenticated.
  destruct (authenticateToken jws_open (env a) (now a) h) as [st e|user] eqn:Hauth.
  { left. cbn [fst snd res_error res_status]. split; [|reflexivity].
    destruct (rejected_status _ _ _ _ _ _ Hauth) as [->| ->]; discriminate. }
  unfold try_catch, bind, pool_query, ret.
  destruct (fault a 0); [refused|].
  unfold update_company_branding, obind.
  destruct (varchar 500 (bb_logoUrl b)) as [|l] eqn:El; [refused|].
  destruct (varchar 7 (bb_primaryColour b)) as [|p] eqn:Ep; [refused|].
  destruct (varchar 7 (bb_secondaryColour b)) as [|c] eqn:Ec; [refused|].
  destruct (text (bb_quoteHeaderText b)) as [|hd] eqn:Ehd; [refused|].
  destruct (text (bb_quoteFooterText b)) as [|ft] eqn:Eft; [refused|].
  destruct (int4_claim (companyId (p_claims user))) as [|k] eqn:Ek; [refused|].
  right. cbn [fst snd set_company_branding companies users quotes company_branding].
  repeat (split; [reflexivity|]). exists user, k.
  split; [reflexivity|]. split; [exact Ek|].
  apply Forall2_map_right. intros old.
  destruct (same_id (b_company_id old) k); [|reflexivity].
  unfold branding_merge. cbn.
  repeat split; auto using assigned_varchar, assigned_text.
Qed.

(** [PUT /api/company], likewise. *)
Lemma put_company_effect :
  forall jws_open a h b s,
    let res := fst (put_company jws_open a h b s) in
    let s' := snd (put_company jws_open a h b s) in
    (res_status res <> 200 /\ s' = s) \/
    (res = res_json JSuccess /\
     users s' = users s /\ company_branding s' = company_branding s /\
     quotes s' = quotes s /\
     exists user k,
       authenticateToken jws_open (env a) (now a) h = Next user /\
       int4_claim (companyId (p_claims user)) = Returned k /\
       Forall2 (fun old new =>
                  if same_id (Some (c_id old)) k then company_merge b old new
                  else new = old)
               (companies s) (companies s')).
Proof.
  intros jws_open a h b s. cbn zeta. unfold put_company, authenticated.
  destruct (authenticateToken jws_open (env a) (now a) h) as [st e|user] eqn:Hauth.
  { left. cbn [fst snd res_error res_status]. split; [|reflexivity].
    destruct (rejected_status _ _ _ _ _ _ Hauth) as [->| ->]; discriminate. }
  unfold try_catch, bind, pool_query, ret.
  destruct (fault a 0); [refused|].
  unfold update_companies, obind.
  destruct (varchar 255 (cb_companyName b)) as [|n] eqn:En; [refused|].
  destruct (varchar 20 (cb_phone b)) as [|p] eqn:Ep; [refused|].
  destruct (varchar 255 (cb_addressLine1 b)) as [|a1] eqn:Ea1; [refused|].
  destruct (varchar 255 (cb_addressLine2 b)) as [|a2] eqn:Ea2; [refused|].
  destruct (varchar 100 (cb_city b)) as [|ci] eqn:Eci; [refused|].
  destruct (varchar 10 (cb_postcode b)) as [|pc] eqn:Epc; [refused|].
  destruct (varchar 20 (cb_vatNumber b)) as [|v] eqn:Ev; [refused|].
  destruct (int4_claim (companyId (p_claims user))) as [|k] eqn:Ek; [refused|].
  right. cbn [fst snd set_companies companies users quotes company_branding].
  repeat (split; [reflexivity|]). exists user, k.
  split; [reflexivity|]. split; [exact Ek|].
  apply Forall2_map_right. intros old.
  destruct (same_id (Some (c_id old)) k); [|reflexivity].
  unfold company_merge. cbn.
  repeat split; auto using assigned_varchar, assigned_name.
Qed.

(** When the two updates are accepted. *)
Lemma put_branding_accepted :
  forall jws_open a h b s user,
    authenticateToken jws_open (env a) (now a) h = Next user ->
    fault a 0 = false ->
    int4_claim (companyId (p_claims user)) <> Threw ->
    varchar 500 (bb_logoUrl b) <> Threw ->
    varchar 7 (bb_primaryColour b) <> Threw ->
    varchar 7 (bb_secondaryColour b) <> Threw ->
    text (bb_quoteHeaderText b) <> Threw -> text (bb_quoteFooterText b) <> Threw ->
    fst (put_branding jws_open a h b s) = res_json JSuccess.
Proof.
  intros jws_open a h b s user Hauth F0 Hk Hl Hp Hc Hhd Hft.
  unfold put_branding, authenticated. rewrite Hauth.
  unfold try_catch, bind, pool_query, ret. rewrite F0.
  unfold update_company_branding, obind.
  destruct (varchar 500 (bb_logoUrl b)); [contradiction|].
  destruct (varchar 7 (bb_primaryColour b)); [contradiction|].
  destruct (varchar 7 (bb_secondaryColour b)); [contradiction|].
  destruct (text (bb_quoteHeaderText b)); [contradiction|].
  destruct (text (bb_quoteFooterText b)); [contradiction|].
  destruct (int4_claim (companyId (p_claims user))); [contradiction|].
  reflexivity.
Qed.

Lemma put_company_accepted :
  forall jws_open a h b s user,
    authenticateToken jws_open (env a) (now a) h = Next user ->
    fault a 0 = false ->
    int4_claim (companyId (p_claims user)) <> Threw ->
    varchar 255 (cb_companyName b) <> Threw -> varchar 20 (cb_phone b) <> Threw ->
    varchar 255 (cb_addressLine1 b) <> Threw ->
    varchar 255 (cb_addressLine2 b) <> Threw ->
    varchar 100 (cb_city b) <> Threw -> varchar 10 (cb_postcode b) <> Threw ->
    varchar 20 (cb_vatNumber b) <> Threw ->
    fst (put_company jws_open a h b s) = res_json JSuccess.
Proof.
  intros jws_open a h b s user Hauth F0 Hk Hn Hp Ha1 Ha2 Hci Hpc Hv.
  unfold put_company, authenticated. rewrite Hauth.
  unfold try_catch, bind, pool_query, ret. rewrite F0.
  unfold update_companies, obind.
  destruct (varchar 255 (cb_companyName b)); [contradiction|].
  destruct (varchar 20 (cb_phone b)); [contradiction|].
  destruct (varchar 255 (cb_addressLine1 b)); [contradiction|].
  destruct (varchar 255 (cb_addressLine2 b)); [contradiction|].
  destruct (varchar 100 (cb_city b)); [contradiction|].
  destruct (varchar 10 (cb_postcode b)); [contradiction|].
  destruct (varchar 20 (cb_vatNumber b)); [contradiction|].
  destruct (int4_claim (companyId (p_claims user))); [contradiction|].
  reflexivity.
Qed.

(** [PUT /api/branding]: what becomes of the store, whatever the answer. *)
Lemma put_branding_frame :
  forall jws_open a h b s,
    let s' := snd (put_branding jws_open a h b s) in
    companies s' = companies s /\ users s' = users s /\ quotes s' = quotes s /\
    Forall2 (fun old new => new = old \/ branding_merge b old new)
            (company_branding s) (company_branding s').
Proof.
  intros jws_open a h b s. cbn zeta.
  destruct (put_branding_effect jws_open a h b s)
    as [(_ & ->)|(_ & C & U & Q & user & k & _ & _ & F)].
  - repeat split. apply Forall2_same. now left.
  - repeat split; try assumption. revert F. apply Forall2_weaken.
    intros old new. destruct (same_id (b_company_id old) k); auto.
Qed.

(** [PUT /api/company]: what becomes of the store, whatever the answer. *)
Lemma put_company_frame :
  forall jws_open a h b s,
    let s' := snd (put_company jws_open a h b s) in
    users s' = users s /\ company_branding s' = company_branding s /\
    quotes s' = quotes s /\
    Forall2 (fun old new => new = old \/ company_merge b old new)
            (companies s) (companies s').
Proof.
  intros jws_open a h b s. cbn zeta.
  destruct (put_company_effect jws_open a h b s)
    as [(_ & ->)|(_ & U & B & Q & user & k & _ & _ & F)].
  - repeat split. apply Forall2_same. now left.
  - repeat split; try assumption. revert F. apply Forall2_weaken.
    intros old new. destruct (same_id (Some (c_id old)) k); auto.
Qed.

(** C5.  [PUT /api/branding] and [PUT /api/company] leave every other
    table as it was.  A request that is not answered 200 changes nothing.
    One that is answered 200 leaves the rows of other companies as they
    were and makes each row of the token's company the merge of the body
    into it: a field the body omits keeps its value, a field it provides
    holds the provided value as the column type takes it.  The request is
    answered 200 whenever the token is accepted, the connection holds and
    every provided value is one its column takes.  With only
    [primaryColour] in the body the other four branding fields of every
    row are as before, and that colour (a text of at most seven
    characters) is the primary colour of the token's company and of no
    other. *)
Theorem partial_update_frame :
  forall jws_open a h,
    (forall b s,
       let res := fst (put_branding jws_open a h b s) in
       let s' := snd (put_branding jws_open a h b s) in
       companies s' = companies s /\ users s' = users s /\ quotes s' = quotes s /\
       ((res_status res <> 200 /\ s' = s) \/
        (res = res_json JSuccess /\
         exists user k,
           authenticateToken jws_open (env a) (now a) h = Next user /\
           int4_claim (companyId (p_claims user)) = Returned k /\
           Forall2 (fun old new =>
                      if same_id (b_company_id old) k then branding_merge b old new
                      else new = old)
                   (company_branding s) (company_branding s'))) /\
       (forall user,
          authenticateToken jws_open (env a) (now a) h = Next user ->
          fault a 0 = false ->
          int4_claim (companyId (p_claims user)) <> Threw ->
          varchar 500 (bb_logoUrl b) <> Threw ->
          varchar 7 (bb_primaryColour b) <> Threw ->
          varchar 7 (bb_secondaryColour b) <> Threw ->
          text (bb_quoteHeaderText b) <> Threw ->
          text (bb_quoteFooterText b) <> Threw ->
          res = res_json JSuccess)) /\
    (forall b s,
       let res := fst (put_company jws_open a h b s) in
       let s' := snd (put_company jws_open a h b s) in
       users s' = users s /\ company_branding s' = company_branding s /\
       quotes s' = quotes s /\
       ((res_status res <> 200 /\ s' = s) \/
        (res = res_json JSuccess /\
         exists user k,
           authenticateToken jws_open (env a) (now a) h = Next user /\
           int4_claim (companyId (p_claims user)) = Returned k /\
           Forall2 (fun old new =>
                      if same_id (Some (c_id old)) k then company_merge b old new
                      else new = old)
                   (companies s) (companies s'))) /\
       (forall user,
          authenticateToken jws_open (env a) (now a) h = Next user ->
          fault a 0 = false ->
          int4_claim (companyId (p_claims user)) <> Threw ->
          varchar 255 (cb_companyName b) <> Threw -> varchar 20 (cb_phone b) <> Threw ->
          varchar 255 (cb_addressLine1 b) <> Threw ->
          varchar 255 (cb_addressLine2 b) <> Threw ->
          varchar 100 (cb_city b) <> Threw -> varchar 10 (cb_postcode b) <> Threw ->
          varchar 20 (cb_vatNumber b) <> Threw ->
          res = res_json JSuccess)) /\
    (forall colour s,
       let b := {| bb_logoUrl := None; bb_primaryColour := Some colour;
                   bb_secondaryColour := None; bb_quoteHeaderText := None;
                   bb_quoteFooterText := None |} in
       let s' := snd (put_branding jws_open a h b s) in
       Forall2 (fun old new =>
                  b_secondary_colour new = b_secondary_colour old /\
                  b_logo_url new = b_logo_url old /\
                  b_quote_header_text new = b_quote_header_text old /\
                  b_quote_footer_text new = b_quote_footer_text old)
               (company_branding s) (company_branding s') /\
       (forall user k cs,
          authenticateToken jws_open (env a) (now a) h = Next user ->
          fault a 0 = false ->
          int4_claim (companyId (p_claims user)) = Returned k ->
          utf8_chars colour = Some cs -> (List.length cs <= 7)%nat ->
          Forall2 (fun old new =>
                     b_primary_colour new =
                       if same_id (b_company_id old) k then Some colour
                       else b_primary_colour old)
                  (company_branding s) (company_branding s'))).
Proof.
  intros jws_open a h. split; [|split].
  - intros b s. cbn zeta.
    destruct (put_branding_frame jws_open a h b s) as (C & U & Q & _).
    repeat (split; [assumption|]). split.
    + destruct (put_branding_effect jws_open a h b s)
        as [H|(R & _ & _ & _ & user & k & Hauth & Hk & F)]; [now left|].
      right. split; [exact R|]. now exists user, k.
    + intros user. apply put_branding_accepted.
  - intros b s. cbn zeta.
    destruct (put_company_frame jws_open a h b s) as (U & B & Q & _).
    repeat (split; [assumption|]). split.
    + destruct (put_company_effect jws_open a h b s)
        as [H|(R & _ & _ & _ & user & k & Hauth & Hk & F)]; [now left|].
      right. split; [exact R|]. now exists user, k.
    + intros user. apply put_company_accepted.
  - intros colour s b s'. split.
    + destruct (put_branding_frame jws_open a h b s) as (_ & _ & _ & F).
      revert F. apply Forall2_weaken. intros old new [->|M].
      * repeat split.
      * unfold branding_merge, assigned in M. cbn in M. tauto.
    + intros user k cs Hauth F0 Hk Hcs Hlen.
      pose proof (varchar_fits 7 colour cs Hcs Hlen) as Hv.
      assert (fst (put_branding jws_open a h b s) = res_json JSuccess) as Hok.
      { apply (put_branding_accepted jws_open a h b s user Hauth F0); unfold b;
          cbn [bb_logoUrl bb_primaryColour bb_secondaryColour bb_quoteHeaderText
               bb_quoteFooterText];
          rewrite ?Hk, ?Hv; intros X; cbn in X; discriminate X. }
      destruct (put_branding_effect jws_open a h b s)
        as [(Hno & _)|(_ & _ & _ & _ & user' & k' & Hauth' & Hk' & F)].
      { exfalso. apply Hno. now rewrite Hok. }
      rewrite Hauth in Hauth'. injection Hauth' as <-.
      rewrite Hk in Hk'. injection Hk' as <-.
      revert F. apply Forall2_weaken. intros old new.
      destruct (same_id (b_company_id old) k); [|now intros ->].
      intros M. unfold branding_merge, assigned, b in M.
      cbn [bb_primaryColour] in M.
      destruct M as (_ & _ & _ & _ & M & _). rewrite Hv in M. now injection M.
Qed.

(** The first company sets its primary colour to seven letters of two
    bytes each: the column takes them, its row holds the new colour, and
    the row of the second company its own. *)
Lemma partial_update_frame_demo :
  let b := Scenario.only_primary Scenario.seven_letters in
  let r := put_branding Demo.jws_open (Demo.quiet 1700000300000)
             (Demo.bearer 1 1 1700000000500) b Demo.two_companies in
  String.length Scenario.seven_letters = 14%nat /\
  fst r = res_json JSuccess /\
  map b_primary_colour (company_branding Demo.two_companies)
  = [Some "#033f2a"; Some "#033f2a"] /\
  map b_primary_colour (company_branding (snd r))
  = [Some Scenario.seven_letters; Some "#033f2a"] /\
  Forall2 (fun old new =>
             b_primary_colour new =
               if same_id (b_company_id old) (Some 1) then Some Scenario.seven_letters
               else b_primary_colour old)
          (company_branding Demo.two_companies) (company_branding (snd r)).
Proof.
  intros b r. repeat (split; [reflexivity|]).
  apply (proj2 (proj2 (proj2 (partial_update_frame Demo.jws_open
                                (Demo.quiet 1700000300000)
                                (Demo.bearer 1 1 1700000000500)))
                      Scenario.seven_letters Demo.two_companies)
               (Demo.session 1 1 1700000000500) (Some 1)
               (repeat (String (ascii_of_nat 195) (String (ascii_of_nat 169) "")) 7));
    reflexivity.
Defined.

(** ** What each statement does to the store *)

Ltac chain H :=
  repeat match type of H with
         | obind ?o _ = Returned _ =>
             let E := fresh "E" in
             destruct o eqn:E; cbn [obind] in H; [discriminate|]
         | (if ?c then Threw else _) = Returned _ =>
             let E := fresh "E" in
             destruct c eqn:E; [discriminate|]
         end.

Ltac facts :=
  repeat match goal with
         | H : not_null ?v = Returned _ |- _ =>
             destruct v; cbn [not_null] in H; [|discriminate];
             inversion H; subst; clear H
         | H : int4 (Some ?z) = Returned _ |- _ =>
             unfold int4 in H; destruct (int4_ok z); [|discriminate];
             inversion H; subst; clear H
         end.

Ltac case_row R :=
  match goal with
  | |- context [match ?x with Threw => _ | Returned _ => _ end] =>
      destruct x eqn:R
  end.

Lemma insert_companies_spec :
  forall now n e p pc s o s1,
    insert_companies now n e p pc s = (o, s1) ->
    users s1 = users s /\ company_branding s1 = company_branding s /\
    quotes s1 = quotes s /\ companies_id_seq s1 = companies_id_seq s + 1 /\
    match o with
    | Threw => companies s1 = companies s
    | Returned id =>
        id = companies_id_seq s /\
        exists c, companies s1 = (companies s ++ [c])%list /\ c_id c = id /\
                  varchar 255 e = Returned (Some (c_email c)) /\
                  existsb (fun c' => String.eqb (c_email c') (c_email c)) (companies s)
                  = false
    end.
Proof.
  intros now n e p pc s o s1. unfold insert_companies. cbn zeta.
  case_row R; intros [= <- <-]; cbn; repeat split.
  chain R. facts. injection R as <-. eexists. split; [reflexivity|]. cbn.
  repeat split; assumption.
Qed.

Lemma insert_company_branding_spec :
  forall now cid s o s1,
    insert_company_branding now cid s = (o, s1) ->
    companies s1 = companies s /\ users s1 = users s /\ quotes s1 = quotes s /\
    companies_id_seq s1 = companies_id_seq s /\
    match o with
    | Threw => company_branding s1 = company_branding s
    | Returned _ =>
        exists b, company_branding s1 = (company_branding s ++ [b])%list /\
                  b_company_id b = Some cid /\
                  existsb (fun b' => Z_is (b_company_id b') cid) (company_branding s)
                  = false
    end.
Proof.
  intros now cid s o s1. unfold insert_company_branding. cbn zeta.
  case_row R; intros [= <- <-]; cbn; repeat split.
  chain R. facts. injection R as <-. eexists. split; [reflexivity|]. cbn.
  repeat split; assumption.
Qed.

Lemma insert_users_spec :
  forall now cid e h f l p s o s1,
    insert_users now cid e h f l p s = (o, s1) ->
    companies s1 = companies s /\ company_branding s1 = company_branding s /\
    quotes s1 = quotes s /\ companies_id_seq s1 = companies_id_seq s /\
    match o with
    | Threw => users s1 = users s
    | Returned id =>
        exists u, users s1 = (users s ++ [u])%list /\ u_id u = id /\
                  u_company_id u = Some cid /\
                  varchar 255 e = Returned (Some (u_email u)) /\
                  existsb (fun u' => String.eqb (u_email u') (u_email u)) (users s)
                  = false /\
                  u_is_active u = Some true
    end.
Proof.
  intros now cid e h f l p s o s1. unfold insert_users. cbn zeta.
  case_row R; intros [= <- <-]; cbn; repeat split.
  chain R. facts. injection R as <-. eexists. split; [reflexivity|]. cbn.
  repeat split; assumption.
Qed.

Lemma insert_quotes_spec :
  forall now cid uid r f s o s1,
    insert_quotes now cid uid r f s = (o, s1) ->
    companies s1 = companies s /\ users s1 = users s /\
    company_branding s1 = company_branding s /\
    companies_id_seq s1 = companies_id_seq s /\
    match o with
    | Threw => quotes s1 = quotes s
    | Returned q =>
        quotes s1 = (quotes s ++ [q])%list /\
        int4_claim cid = Returned (q_company_id q) /\
        int4_claim uid = Returned (q_created_by q) /\ q_status q = Some "draft"
    end.
Proof.
  intros now cid uid r f s o s1. unfold insert_quotes. cbn zeta.
  case_row R; intros [= <- <-]; cbn; repeat split.
  all: chain R; facts; injection R as <-; cbn; try reflexivity; assumption.
Qed.

(** ** Registration *)

(** Everything [POST /api/register] can do to the store: nothing; or a
    company row; or a company and its branding; or those and a user. *)
Lemma post_register_effect :
  forall jws_sign eks a b s,
    let s' := snd (post_register jws_sign eks a b s) in
    quotes s' = quotes s /\
    companies_id_seq s <= companies_id_seq s' /\
    ((companies s' = companies s /\ company_branding s' = company_branding s /\
      users s' = users s) \/
     exists c,
       companies s' = (companies s ++ [c])%list /\
       c_id c = companies_id_seq s /\ c_id c < companies_id_seq s' /\
       varchar 255 (rb_email b) = Returned (Some (c_email c)) /\
       existsb (fun c' => String.eqb (c_email c') (c_email c)) (companies s) = false /\
       ((company_branding s' = company_branding s /\ users s' = users s) \/
        exists n,
          company_branding s' = (company_branding s ++ [n])%list /\
          b_company_id n = Some (c_id c) /\
          existsb (fun n' => Z_is (b_company_id n') (c_id c)) (company_branding s)
          = false /\
          (users s' = users s \/
           exists u,
             users s' = (users s ++ [u])%list /\
             u_company_id u = Some (c_id c) /\ u_email u = c_email c /\
             u_is_active u = Some true /\
             existsb (fun u' => String.eqb (u_email u') (u_email u)) (users s)
             = false))).
Proof.
  intros jws_sign eks a b s. cbn zeta.
  pattern (snd (post_register jws_sign eks a b s)).
  match goal with |- ?Q _ => set (P := Q) end.
  assert (P s) as Hnothing.
  { unfold P. split; [reflexivity|]. split; [lia|]. left. repeat split; reflexivity. }
  unfold post_register, try_catch, bind, pool_query, lift, ret.
  destruct (fault a 0); [exact Hnothing|].
  unfold select_users_by_email.
  destruct (text (rb_email b)) as [|e0]; [exact Hnothing|]. cbv beta iota.
  match goal with |- context [if negb ?x then _ else _] => destruct (negb x) end;
    [exact Hnothing|].
  destruct (fault a 1); [exact Hnothing|].
  destruct (insert_companies _ _ _ _ _ s) as [o1 s1] eqn:E1.
  apply insert_companies_spec in E1. destruct E1 as (U1 & B1 & Q1 & S1 & C1).
  destruct o1 as [|cid].
  { cbn [snd]. unfold P. rewrite Q1, S1. split; [reflexivity|]. split; [lia|].
    left. repeat split; assumption. }
  destruct C1 as (-> & c & C1 & Hid & He & Hfresh).
  assert (forall s2, quotes s2 = quotes s1 -> companies s2 = companies s1 ->
                     companies_id_seq s2 = companies_id_seq s1 ->
                     (company_branding s2 = company_branding s /\ users s2 = users s \/
                      exists n,
                        company_branding s2 = (company_branding s ++ [n])%list /\
                        b_company_id n = Some (c_id c) /\
                        existsb (fun n' => Z_is (b_company_id n') (c_id c))
                                (company_branding s) = false /\
                        (users s2 = users s \/
                         exists u,
                           users s2 = (users s ++ [u])%list /\
                           u_company_id u = Some (c_id c) /\ u_email u = c_email c /\
                           u_is_active u = Some true /\
                           existsb (fun u' => String.eqb (u_email u') (u_email u))
                                   (users s) = false)) ->
                     P s2) as Wrap.
  { intros s2 Hq Hc Hs Hrest. unfold P. rewrite Hq, Hc, Hs, Q1, S1.
    split; [reflexivity|]. split; [lia|]. right. exists c.
    repeat split; try assumption. lia. }
  clearbody P.
  destruct (fault a 2); [cbn [snd]; apply Wrap; auto|].
  destruct (insert_company_branding _ _ s1) as [o2 s2] eqn:E2.
  apply insert_company_branding_spec in E2. destruct E2 as (C2 & U2 & Q2 & S2 & B2).
  destruct o2 as [|[]].
  { cbn [snd]. apply Wrap; auto. left. split; congruence. }
  destruct B2 as (n & B2 & Hn & Hnfresh). rewrite B1 in B2, Hnfresh.
  rewrite <- Hid in Hn, Hnfresh.
  destruct (bcrypt_hash_with eks (salt a) (rb_password b) 10) as [|ph].
  { cbn [snd]. apply Wrap; auto. right. exists n. repeat split; auto.
    left. congruence. }
  destruct (fault a 3).
  { cbn [snd]. apply Wrap; auto. right. exists n. repeat split; auto.
    left. congruence. }
  destruct (insert_users _ _ _ _ _ _ _ s2) as [o3 s3] eqn:E3.
  apply insert_users_spec in E3. destruct E3 as (C3 & B3 & Q3 & S3 & U3).
  destruct o3 as [|uid]; cbn [snd].
  { apply Wrap; try congruence. right. exists n. repeat split; try congruence.
    left. congruence. }
  destruct U3 as (u & U3 & _ & Hucid & Hue & Hufresh & Hact).
  apply Wrap; try congruence. right. exists n. repeat split; try congruence.
  right. exists u. rewrite U2, U1 in U3, Hufresh. rewrite <- Hid in Hucid.
  repeat split; try assumption. congruence.
Qed.

(** ** Tenants of reachable stores *)

Lemma distinct_snoc :
  forall (K : Type) (eqb : K -> K -> bool),
    (forall x y, reflect (x = y) (eqb x y)) ->
    forall (l : list K) k,
      distinct eqb l = true -> (forall k', In k' l -> k' <> k) ->
      distinct eqb (l ++ [k]) = true.
Proof.
  intros K eqb spec. induction l as [|x l IH]; intros k Hd Hfresh; [reflexivity|].
  cbn [app distinct] in *. apply andb_true_iff in Hd. destruct Hd as [Hx Hd].
  apply andb_true_iff. split.
  - rewrite existsb_app, negb_orb. apply andb_true_iff. split; [exact Hx|].
    cbn. destruct (spec x k) as [E|]; [|reflexivity].
    exfalso. apply (Hfresh x); [now left | exact E].
  - apply IH; [exact Hd|]. intros k' Hk'. apply Hfresh. now right.
Qed.

Lemma in_non_null :
  forall (A : Type) (l : list (option A)) k, In k (non_null l) <-> In (Some k) l.
Proof.
  intros A l k. unfold non_null. rewrite in_flat_map. split.
  - intros ([x|] & Hin & Hk); [|contradiction].
    destruct Hk as [<-|[]]. exact Hin.
  - intros Hin. exists (Some k). split; [exact Hin | now left].
Qed.

Lemma non_null_app :
  forall (A : Type) (l r : list (option A)),
    non_null (l ++ r) = (non_null l ++ non_null r)%list.
Proof.
  intros. unfold non_null. apply flat_map_app.
Qed.

Lemma Forall2_in_left :
  forall (A : Type) (R : A -> A -> Prop) (l l' : list A) x,
    Forall2 R l l' -> In x l -> exists y, In y l' /\ R x y.
Proof.
  intros A R l l' x F. induction F as [|a b l l' Hab F IH]; intros Hin; [contradiction|].
  destruct Hin as [<-|Hin].
  - exists b. split; [now left | exact Hab].
  - destruct (IH Hin) as (y & Hy & Hr). exists y. split; [now right | exact Hr].
Qed.

Lemma Forall2_in_right :
  forall (A : Type) (R : A -> A -> Prop) (l l' : list A) y,
    Forall2 R l l' -> In y l' -> exists x, In x l /\ R x y.
Proof.
  intros A R l l' y F. induction F as [|a b l l' Hab F IH]; intros Hin; [contradiction|].
  destruct Hin as [<-|Hin].
  - exists a. split; [now left | exact Hab].
  - destruct (IH Hin) as (x & Hx & Hr). exists x. split; [now right | exact Hr].
Qed.

Lemma Forall2_same_keys :
  forall (A K : Type) (key : A -> K) (R : A -> A -> Prop) (l l' : list A),
    (forall x y, R x y -> key y = key x) ->
    Forall2 R l l' -> map key l' = map key l.
Proof.
  intros A K key R l l' H F. induction F as [|a b l l' Hab F IH]; [reflexivity|].
  cbn. now rewrite (H a b Hab), IH.
Qed.

Lemma filter_non_null_one :
  forall (A : Type) (key : A -> option Z) (l : list A) x k,
    distinct Z.eqb (non_null (map key l)) = true ->
    In x l -> key x = Some k ->
    filter (fun y => Z_is (key y) k) l = [x].
Proof.
  induction l as [|a l IH]; intros x k Hd Hin Hk; [contradiction|].
  cbn [map] in Hd. cbn [filter].
  destruct (key a) as [ka|] eqn:Ea.
  - change (non_null (Some ka :: map key l)) with (ka :: non_null (map key l)) in Hd.
    cbn [distinct] in Hd. apply andb_true_iff in Hd. destruct Hd as [Hfresh Hd].
    apply negb_true_iff in Hfresh.
    assert (forall y, In y l -> key y <> Some ka) as Hne.
    { intros y Hy Hy'.
      assert (existsb (Z.eqb ka) (non_null (map key l)) = true) as E.
      { apply existsb_exists. exists ka. split; [|apply Z.eqb_refl].
        apply in_non_null. rewrite <- Hy'. now apply in_map. }
      congruence. }
    destruct Hin as [->|Hin].
    + rewrite Ea in Hk. injection Hk as ->. cbn [Z_is]. rewrite Z.eqb_refl. f_equal.
      apply filter_all_false. intros y Hy.
      destruct (Z_is (key y) k) eqn:E; [|reflexivity].
      apply Z_is_true in E. exfalso. now apply (Hne y).
    + cbn [Z_is]. destruct (Z.eqb_spec ka k) as [->|_].
      * exfalso. now apply (Hne x).
      * now apply IH.
  - change (non_null (None :: map key l)) with (non_null (map key l)) in Hd.
    cbn [Z_is]. destruct Hin as [->|Hin]; [congruence|]. now apply IH.
Qed.

Lemma tenants_ok_initDB : tenants_ok initDB.
Proof.
  unfold tenants_ok, initDB. cbn. repeat split; try contradiction.
Qed.

(** Only the three tenant tables and the companies' sequence matter. *)
Lemma tenants_ok_same_tables :
  forall s s',
    companies s' = companies s -> users s' = users s ->
    company_branding s' = company_branding s ->
    companies_id_seq s <= companies_id_seq s' ->
    tenants_ok s -> tenants_ok s'.
Proof.
  intros s s' C U B S (H1 & H2 & H3 & H4 & H5 & H6 & H7). unfold tenants_ok.
  rewrite C, U, B. repeat split; try assumption.
  - intros c Hc. specialize (H5 c Hc). lia.
  - intros n Hn. destruct (H7 n Hn) as (k & Hk & Hlt). exists k. split; [exact Hk | lia].
Qed.

Ltac run_read :=
  unfold authenticated;
  match goal with
  | |- context [authenticateToken ?j ?e ?n ?h] =>
      destruct (authenticateToken j e n h); [reflexivity|]
  | _ => idtac
  end;
  unfold try_catch, bind, pool_query, lift, ret;
  match goal with |- context [fault ?a 0] => destruct (fault a 0); [reflexivity|] end.

(** The routes that only read leave the store as it was. *)
Lemma reads_leave_store :
  forall jws_sign jws_open eks a s,
    (forall e pw, snd (post_login jws_sign eks a e pw s) = s) /\
    (forall h, snd (get_me jws_open a h s) = s) /\
    (forall h, snd (get_branding jws_open a h s) = s) /\
    (forall h, snd (get_quotes jws_open a h s) = s) /\
    (forall h id, snd (get_quote jws_open a h id s) = s).
Proof.
  intros jws_sign jws_open eks a s. repeat split; intros.
  - unfold post_login. run_read. unfold select_login.
    destruct (text e); [reflexivity|].
    destruct (join _ _ _) as [|[u c] rows]; [reflexivity|].
    destruct (bcrypt_compare eks pw (u_password_hash u)) as [|[|]]; reflexivity.
  - unfold get_me. run_read. unfold select_me.
    destruct (int4_claim _); [reflexivity|].
    destruct (join _ _ _) as [|[u c] rows]; reflexivity.
  - unfold get_branding. run_read. unfold select_branding.
    destruct (int4_claim _); [reflexivity|].
    destruct (join _ _ _) as [|[n c] rows]; reflexivity.
  - unfold get_quotes. run_read. unfold select_quotes.
    destruct (int4_claim _); reflexivity.
  - unfold get_quote. run_read. unfold select_quote.
    destruct (obind _ _) as [|[i k]]; [reflexivity|].
    destruct (flat_map _ _); reflexivity.
Qed.

(** The two routes that write quotes leave the tenant tables alone. *)
Lemma quote_routes_leave_tenants :
  forall jws_open a h s,
    (forall f,
       let s' := snd (post_quotes jws_open a h f s) in
       companies s' = companies s /\ users s' = users s /\
       company_branding s' = company_branding s /\
       companies_id_seq s' = companies_id_seq s) /\
    (forall id st,
       let s' := snd (patch_quote_status jws_open a h id st s) in
       companies s' = companies s /\ users s' = users s /\
       company_branding s' = company_branding s /\
       companies_id_seq s' = companies_id_seq s).
Proof.
  intros jws_open a h s. split; intros; subst s'.
  - unfold post_quotes, authenticated.
    destruct (authenticateToken jws_open (env a) (now a) h) as [? ?|user];
      [repeat split|].
    unfold try_catch, bind, pool_query, ret.
    destruct (fault a 0); [repeat split|].
    destruct (insert_quotes _ _ _ _ _ s) as [o s1] eqn:E.
    apply insert_quotes_spec in E. destruct E as (C & U & B & S & _).
    destruct o; cbn [snd]; auto.
  - unfold patch_quote_status, authenticated.
    destruct (authenticateToken jws_open (env a) (now a) h) as [? ?|user];
      [repeat split|].
    unfold try_catch, bind, pool_query, ret.
    destruct (fault a 0); [repeat split|].
    unfold update_quotes_status. case_row R; repeat split.
Qed.

Lemma updates_keep_sequence :
  forall jws_open a h s,
    (forall b,
       companies_id_seq (snd (put_branding jws_open a h b s)) = companies_id_seq s) /\
    (forall b,
       companies_id_seq (snd (put_company jws_open a h b s)) = companies_id_seq s).
Proof.
  intros jws_open a h s. split; intros b.
  - unfold put_branding, authenticated.
    destruct (authenticateToken jws_open (env a) (now a) h) as [? ?|user];
      [reflexivity|].
    unfold try_catch, bind, pool_query, ret.
    destruct (fault a 0); [reflexivity|].
    unfold update_company_branding. case_row R; reflexivity.
  - unfold put_company, authenticated.
    destruct (authenticateToken jws_open (env a) (now a) h) as [? ?|user];
      [reflexivity|].
    unfold try_catch, bind, pool_query, ret.
    destruct (fault a 0); [reflexivity|].
    unfold update_companies. case_row R; reflexivity.
Qed.

Lemma fresh_email :
  forall (A : Type) (key : A -> string) (l : list A) e,
    existsb (fun a => String.eqb (key a) e) l = false ->
    forall k, In k (map key l) -> k <> e.
Proof.
  intros A key l e H k Hk. apply in_map_iff in Hk. destruct Hk as (a & <- & Ha).
  exact (existsb_key_false A string key String.eqb String.eqb_spec l e H a Ha).
Qed.

Lemma tenants_ok_register :
  forall jws_sign eks a b s,
    tenants_ok s -> tenants_ok (snd (post_register jws_sign eks a b s)).
Proof.
  intros jws_sign eks a b s Hok.
  destruct (post_register_effect jws_sign eks a b s) as (_ & Hseq & Heff).
  set (s' := snd (post_register jws_sign eks a b s)) in *.
  destruct Heff as [(C & B & U)|(c & C & Hid & Hlt & _ & Hce & Hrest)].
  { now apply (tenants_ok_same_tables s). }
  destruct Hok as (H1 & H2 & H3 & H4 & H5 & H6 & H7).
  assert (forall u, In u (users s) ->
            exists c0 n, In c0 (companies s') /\ In n (company_branding s) /\
                         u_company_id u = Some (c_id c0) /\
                         b_company_id n = Some (c_id c0) /\ c_email c0 = u_email u)
    as Hold.
  { intros u Hu. destruct (H6 u Hu) as (c0 & n & Hc0 & Hn & L).
    exists c0, n. rewrite C. split; [apply in_or_app; now left|]. now split. }
  unfold tenants_ok. rewrite C, !map_app. cbn [map].
  split; [|split; [|split; [|split; [|split; [|split]]]]].
  - apply (distinct_snoc Z Z.eqb Z.eqb_spec); [exact H1|].
    intros k Hk. apply in_map_iff in Hk. destruct Hk as (c0 & <- & Hc0).
    specialize (H5 c0 Hc0). lia.
  - apply (distinct_snoc string String.eqb String.eqb_spec); [exact H2|].
    now apply fresh_email.
  - destruct Hrest as [(_ & ->)|(n & _ & _ & _ & [->|(u & -> & _ & _ & _ & Hue)])];
      try exact H3.
    rewrite map_app. cbn [map].
    apply (distinct_snoc string String.eqb String.eqb_spec); [exact H3|].
    now apply fresh_email.
  - destruct Hrest as [(-> & _)|(n & -> & Hn & Hnfresh & _)]; [exact H4|].
    rewrite map_app, non_null_app. cbn [map]. rewrite Hn.
    apply (distinct_snoc Z Z.eqb Z.eqb_spec); [exact H4|].
    intros k Hk. apply in_non_null, in_map_iff in Hk. destruct Hk as (n' & Hk & Hn').
    intros ->. pose proof (existsb_false_all _ _ _ Hnfresh n' Hn') as E.
    cbn beta in E. rewrite Hk in E. cbn in E. now rewrite Z.eqb_refl in E.
  - intros c0 Hc0. apply in_app_or in Hc0. destruct Hc0 as [Hc0|[<-|[]]]; [|exact Hlt].
    specialize (H5 c0 Hc0). lia.
  - destruct Hrest as [(B & U)|(n & B & Hn & _ & [U|(u & U & Hucid & Hue & _)])];
      rewrite B, U; intros u0 Hu0.
    + destruct (Hold u0 Hu0) as (c0 & n0 & Hc0 & Hn0 & L). rewrite C in Hc0. eauto.
    + destruct (Hold u0 Hu0) as (c0 & n0 & Hc0 & Hn0 & L). rewrite C in Hc0.
      exists c0, n0. split; [exact Hc0|]. split; [apply in_or_app; now left | exact L].
    + apply in_app_or in Hu0. destruct Hu0 as [Hu0|[<-|[]]].
      * destruct (Hold u0 Hu0) as (c0 & n0 & Hc0 & Hn0 & L). rewrite C in Hc0.
        exists c0, n0. split; [exact Hc0|].
        split; [apply in_or_app; now left | exact L].
      * exists c, n. split; [apply in_or_app; right; now left|].
        split; [apply in_or_app; right; now left|]. now repeat split.
  - assert (forall n, In n (company_branding s) ->
              exists k, b_company_id n = Some k /\ k < companies_id_seq s') as Hold7.
    { intros n Hn. destruct (H7 n Hn) as (k & Hk & Hklt). exists k.
      split; [exact Hk | lia]. }
    destruct Hrest as [(-> & _)|(n & -> & Hn & _ & _)]; [exact Hold7|].
    intros n0 Hn0. apply in_app_or in Hn0. destruct Hn0 as [Hn0|[<-|[]]].
    + now apply Hold7.
    + exists (c_id c). split; [exact Hn | exact Hlt].
Qed.

Lemma tenants_ok_put_branding :
  forall jws_open a h b s,
    tenants_ok s -> tenants_ok (snd (put_branding jws_open a h b s)).
Proof.
  intros jws_open a h b s (H1 & H2 & H3 & H4 & H5 & H6 & H7).
  destruct (put_branding_frame jws_open a h b s) as (C & U & _ & F).
  pose proof (proj1 (updates_keep_sequence jws_open a h s) b) as S.
  set (s' := snd (put_branding jws_open a h b s)) in *.
  assert (forall old new,
            (new = old \/ branding_merge b old new) ->
            b_company_id new = b_company_id old) as Hkey.
  { intros old new [->|M]; [reflexivity|]. apply M. }
  unfold tenants_ok. rewrite C, U, S.
  rewrite (Forall2_same_keys _ _ b_company_id _ _ _ Hkey F).
  repeat split; try assumption.
  - intros u Hu. destruct (H6 u Hu) as (c & n & Hc & Hn & L1 & L2 & L3).
    destruct (Forall2_in_left _ _ _ _ n F Hn) as (n' & Hn' & R).
    exists c, n'. repeat split; try assumption.
    rewrite (Hkey n n' R). exact L2.
  - intros n' Hn'. destruct (Forall2_in_right _ _ _ _ n' F Hn') as (n & Hn & R).
    rewrite (Hkey n n' R). now apply H7.
Qed.

Lemma tenants_ok_put_company :
  forall jws_open a h b s,
    tenants_ok s -> tenants_ok (snd (put_company jws_open a h b s)).
Proof.
  intros jws_open a h b s (H1 & H2 & H3 & H4 & H5 & H6 & H7).
  destruct (put_company_frame jws_open a h b s) as (U & B & _ & F).
  pose proof (proj2 (updates_keep_sequence jws_open a h s) b) as S.
  set (s' := snd (put_company jws_open a h b s)) in *.
  assert (forall old new,
            (new = old \/ company_merge b old new) ->
            c_id new = c_id old /\ c_email new = c_email old) as Hkey.
  { intros old new [->|M]; [now split|]. split; apply M. }
  unfold tenants_ok. rewrite U, B, S.
  rewrite (Forall2_same_keys _ _ c_id _ _ _ (fun x y r => proj1 (Hkey x y r)) F).
  rewrite (Forall2_same_keys _ _ c_email _ _ _ (fun x y r => proj2 (Hkey x y r)) F).
  repeat split; try assumption.
  - intros c' Hc'. destruct (Forall2_in_right _ _ _ _ c' F Hc') as (c & Hc & R).
    rewrite (proj1 (Hkey c c' R)). now apply H5.
  - intros u Hu. destruct (H6 u Hu) as (c & n & Hc & Hn & L1 & L2 & L3).
    destruct (Forall2_in_left _ _ _ _ c F Hc) as (c' & Hc' & R).
    destruct (Hkey c c' R) as (K1 & K2).
    exists c', n. rewrite K1, K2. now repeat split.
Qed.

Lemma tenants_ok_handle :
  forall jws_sign jws_open eks a r s,
    tenants_ok s -> tenants_ok (snd (handle jws_sign jws_open eks a r s)).
Proof.
  intros jws_sign jws_open eks a r s Hok.
  destruct (reads_leave_store jws_sign jws_open eks a s) as (Rl & Rm & Rb & Rqs & Rq).
  destruct r as [|b|e pw|h|h|h b|h b|h b|h|h id|h id st|]; cbn [handle snd];
    try exact Hok.
  - now apply tenants_ok_register.
  - now rewrite Rl.
  - now rewrite Rm.
  - now rewrite Rb.
  - now apply tenants_ok_put_branding.
  - now apply tenants_ok_put_company.
  - destruct (proj1 (quote_routes_leave_tenants jws_open a h s) b) as (C & U & B & S).
    apply (tenants_ok_same_tables s); auto. lia.
  - now rewrite Rqs.
  - now rewrite Rq.
  - destruct (proj2 (quote_routes_leave_tenants jws_open a h s) id st)
      as (C & U & B & S).
    apply (tenants_ok_same_tables s); auto. lia.
Qed.

Lemma reachable_tenants_ok :
  forall jws_sign jws_open eks s,
    reachable jws_sign jws_open eks s -> tenants_ok s.
Proof.
  intros jws_sign jws_open eks s R. induction R as [|s a r _ IH].
  - exact tenants_ok_initDB.
  - now apply tenants_ok_handle.
Qed.

(** Every email a user is stored under is a text. *)
Lemma reachable_emails_text :
  forall jws_sign jws_open eks s,
    reachable jws_sign jws_open eks s ->
    forall u, In u (users s) -> is_text (u_email u) = true.
Proof.
  intros jws_sign jws_open eks s R. induction R as [|s a r _ IH]; [intros u []|].
  destruct (reads_leave_store jws_sign jws_open eks a s) as (Rl & Rm & Rb & Rqs & Rq).
  destruct r as [|b|e pw|h|h|h b|h b|h b|h|h id|h id st|]; cbn [handle snd];
    rewrite ?Rl, ?Rm, ?Rb, ?Rqs, ?Rq; try exact IH.
  - destruct (post_register_effect jws_sign eks a b s)
      as (_ & _ & [(_ & _ & ->)|(c & _ & _ & _ & He & _ & Hrest)]); [exact IH|].
    destruct Hrest as [(_ & ->)|(n & _ & _ & _ & [->|(u & -> & _ & Hue & _)])];
      try exact IH.
    intros u0 Hu0. apply in_app_or in Hu0. destruct Hu0 as [H|[<-|[]]]; [now apply IH|].
    rewrite Hue. exact (varchar_is_text _ _ _ He).
  - destruct (put_branding_frame jws_open a h b s) as (_ & -> & _). exact IH.
  - destruct (put_company_frame jws_open a h b s) as (-> & _). exact IH.
  - destruct (proj1 (quote_routes_leave_tenants jws_open a h s) b) as (_ & -> & _).
    exact IH.
  - destruct (proj2 (quote_routes_leave_tenants jws_open a h s) id st) as (_ & -> & _).
    exact IH.
Qed.

(** C7.  Registering with an email that a user already has is answered
    400 before any insert, the store is as it was, and in it that email
    has exactly one company, branding and user triple. *)
Theorem duplicate_email_rejected :
  forall jws_sign jws_open eks a b s u,
    reachable jws_sign jws_open eks s ->
    fault a 0 = false ->
    In u (users s) -> rb_email b = Some (u_email u) ->
    post_register jws_sign eks a b s
    = (res_error 400 "Email already registered", s) /\
    exists c n,
      triples (u_email u) s = [(c, n, u)] /\ c_email c = u_email u /\
      filter (fun c' => String.eqb (c_email c') (u_email u)) (companies s) = [c].
Proof.
  intros jws_sign jws_open eks a b s u Hreach Hfault Hu Hemail. split.
  - pose proof (reachable_emails_text _ _ _ _ Hreach u Hu) as Ht.
    unfold post_register, try_catch, bind, pool_query. rewrite Hfault.
    unfold select_users_by_email, text. rewrite Hemail, Ht.
    assert (In u (filter (fun u' => text_is (Some (u_email u)) (u_email u')) (users s)))
      as Hin.
    { apply filter_In. split; [exact Hu|]. cbn. apply String.eqb_refl. }
    destruct (filter _ (users s)) as [|u0 l]; [contradiction|]. reflexivity.
  - destruct (reachable_tenants_ok _ _ _ _ Hreach) as (H1 & H2 & H3 & H4 & H5 & H6 & _).
    destruct (H6 u Hu) as (c & n & Hc & Hn & L1 & L2 & L3).
    exists c, n. split; [|split; [exact L3|]].
    + unfold triples.
      rewrite (filter_key_one user string u_email String.eqb String.eqb_spec _ u H3 Hu).
      cbn [flat_map]. rewrite app_nil_r.
      rewrite (filter_ext (user_company u) (fun c' => c_id c' =? c_id c)).
      * rewrite (filter_key_one company Z c_id Z.eqb Z.eqb_spec _ c H1 Hc).
        cbn [flat_map]. rewrite app_nil_r.
        now rewrite (filter_non_null_one _ b_company_id _ n (c_id c) H4 Hn L2).
      * intros c'. unfold user_company, Z_is. rewrite L1. apply Z.eqb_sym.
    + rewrite <- L3.
      exact (filter_key_one company string c_email String.eqb String.eqb_spec _ c H2 Hc).
Qed.

Lemma duplicate_email_rejected_demo :
  In Demo.ann (users Demo.two_companies) /\
  post_register Demo.jws_sign Demo.eks_blowfish (Demo.quiet 1700000500000)
    Demo.acme Demo.two_companies
  = (res_error 400 "Email already registered", Demo.two_companies) /\
  List.length (triples "a@acme.test" Demo.two_companies) = 1%nat.
Proof.
  assert (In Demo.ann (users Demo.two_companies)) as Hu by (left; reflexivity).
  assert (reachable Demo.jws_sign Demo.jws_open Demo.eks_blowfish Demo.two_companies)
    as Hreach by (apply reach_step, reach_step, reach_init).
  split; [exact Hu|].
  destruct (duplicate_email_rejected Demo.jws_sign Demo.jws_open Demo.eks_blowfish
              (Demo.quiet 1700000500000) Demo.acme Demo.two_companies Demo.ann
              Hreach eq_refl Hu eq_refl) as (H400 & c & n & Hone & _).
  split; [exact H400|].
  change "a@acme.test" with (u_email Demo.ann). rewrite Hone. reflexivity.
Defined.

Lemma all_false_existsb :
  forall (A : Type) (f : A -> bool) (l : list A),
    (forall a, In a l -> f a = false) -> existsb f l = false.
Proof.
  induction l as [|a l IH]; intros H; [reflexivity|]. cbn.
  rewrite (H a (or_introl eq_refl)). apply IH. intros b Hb. apply H. now right.
Qed.

(** Nothing points to the id the next company will get. *)
Lemma next_company_unused :
  forall s,
    tenants_ok s ->
    existsb (fun u => Z_is (u_company_id u) (companies_id_seq s)) (users s) = false /\
    existsb (fun n => Z_is (b_company_id n) (companies_id_seq s)) (company_branding s)
    = false.
Proof.
  intros s (_ & _ & _ & _ & H5 & H6 & H7). split; apply all_false_existsb.
  - intros u Hu. destruct (H6 u Hu) as (c & n & Hc & _ & L & _).
    rewrite L. cbn. apply Z.eqb_neq. specialize (H5 c Hc). lia.
  - intros n Hn. destruct (H7 n Hn) as (k & -> & Hk). cbn. apply Z.eqb_neq. lia.
Qed.

(** C6.  Once the company insert of a registration has gone through, a
    failure of a later step is answered 500 with the rows inserted so far
    left in place: the company alone when the branding insert fails, the
    company and its branding when hashing or the user insert fails.  No
    user belongs to that company then. *)
Theorem registration_not_atomic :
  forall jws_sign jws_open eks a b s cid s1,
    reachable jws_sign jws_open eks s ->
    fault a 0 = false -> fault a 1 = false ->
    existsb (fun u => text_is (rb_email b) (u_email u)) (users s) = false ->
    insert_companies (now a) (rb_companyName b) (rb_email b) (rb_phone b)
                     (rb_postcode b) s = (Returned cid, s1) ->
    (fault a 2 = true ->
     exists c,
       post_register jws_sign eks a b s = (res_error 500 "Registration failed", s1) /\
       companies s1 = (companies s ++ [c])%list /\ c_id c = cid /\
       company_branding s1 = company_branding s /\ users s1 = users s /\
       existsb (fun n => Z_is (b_company_id n) cid) (company_branding s1) = false /\
       existsb (fun u => Z_is (u_company_id u) cid) (users s1) = false) /\
    (forall s2,
       fault a 2 = false ->
       insert_company_branding (now a) cid s1 = (Returned tt, s2) ->
       match bcrypt_hash_with eks (salt a) (rb_password b) 10 with
       | Threw => True
       | Returned ph =>
           fault a 3 = true \/
           fst (insert_users (now a) cid (rb_email b) ph (rb_firstName b)
                             (rb_lastName b) (rb_phone b) s2) = Threw
       end ->
       exists s' c n,
         post_register jws_sign eks a b s = (res_error 500 "Registration failed", s') /\
         companies s' = (companies s ++ [c])%list /\ c_id c = cid /\
         company_branding s' = (company_branding s ++ [n])%list /\
         b_company_id n = Some cid /\ users s' = users s /\
         existsb (fun u => Z_is (u_company_id u) cid) (users s') = false).
Proof.
  intros jws_sign jws_open eks a b s cid s1 Hreach F0 F1 Hnew E1.
  destruct (next_company_unused s (reachable_tenants_ok _ _ _ _ Hreach)) as (Hnu & Hnb).
  pose proof (insert_companies_spec _ _ _ _ _ _ _ _ E1) as (U1 & B1 & Q1 & S1 & C1).
  destruct C1 as (-> & c & C1 & Hid & Hv & _).
  pose proof (varchar_reads _ _ _ Hv) as Ht.
  assert (is_empty (map u_id (filter (fun u => text_is (rb_email b) (u_email u))
                                     (users s))) = true) as Hempty.
  { now rewrite (filter_all_false _ _ _ (existsb_false_all _ _ _ Hnew)). }
  split.
  - intros F2. exists c.
    split; [|rewrite B1, U1; repeat split; assumption].
    unfold post_register, try_catch, bind, pool_query. rewrite F0, F1, F2.
    unfold select_users_by_email. rewrite Ht, Hempty. cbn [negb]. rewrite E1.
    reflexivity.
  - intros s2 F2 E2 Huser.
    pose proof (insert_company_branding_spec _ _ _ _ _ E2) as (C2 & U2 & Q2 & S2 & B2).
    destruct B2 as (n & B2 & Hn & _).
    unfold post_register, try_catch, bind, pool_query, lift. rewrite F0, F1, F2.
    unfold select_users_by_email. rewrite Ht, Hempty. cbn [negb]. rewrite E1, E2.
    destruct (bcrypt_hash_with eks (salt a) (rb_password b) 10) as [|ph].
    { exists s2, c, n. rewrite C2, B2, B1, U2, U1. repeat split; assumption. }
    destruct (fault a 3) eqn:F3.
    { exists s2, c, n. rewrite C2, B2, B1, U2, U1. repeat split; assumption. }
    destruct Huser as [|Huser]; [discriminate|].
    destruct (insert_users _ _ _ _ _ _ _ s2) as [o3 s3] eqn:E3.
    cbn [fst] in Huser. subst o3.
    pose proof (insert_users_spec _ _ _ _ _ _ _ _ _ _ E3) as (C3 & B3 & Q3 & S3 & U3).
    exists s3, c, n. rewrite C3, B3, U3, C2, B2, B1, U2, U1.
    repeat split; assumption.
Qed.

Lemma registration_not_atomic_demo :
  let s := Demo.two_companies in
  let t := 1700000600000 in
  let s1 := snd (insert_companies t (Some "Granite Bros") (Some "g@granite.test")
                                  None None s) in
  (exists c,
     post_register Demo.jws_sign Demo.eks_blowfish (Demo.drops_at_branding t)
       Demo.nameless s = (res_error 500 "Registration failed", s1) /\
     companies s1 = (companies s ++ [c])%list /\ c_id c = 3 /\
     company_branding s1 = company_branding s /\ users s1 = users s /\
     existsb (fun n => Z_is (b_company_id n) 3) (company_branding s1) = false /\
     existsb (fun u => Z_is (u_company_id u) 3) (users s1) = false) /\
  (exists s' c n,
     post_register Demo.jws_sign Demo.eks_blowfish (Demo.quiet t) Demo.nameless s
     = (res_error 500 "Registration failed", s') /\
     companies s' = (companies s ++ [c])%list /\ c_id c = 3 /\
     company_branding s' = (company_branding s ++ [n])%list /\
     b_company_id n = Some 3 /\ users s' = users s /\
     existsb (fun u => Z_is (u_company_id u) 3) (users s') = false).
Proof.
  intros s t s1.
  assert (reachable Demo.jws_sign Demo.jws_open Demo.eks_blowfish s)
    as Hreach by (apply reach_step, reach_step, reach_init).
  split.
  - apply (proj1 (registration_not_atomic Demo.jws_sign Demo.jws_open
                    Demo.eks_blowfish (Demo.drops_at_branding t) Demo.nameless s 3 s1
                    Hreach eq_refl eq_refl eq_refl eq_refl)).
    reflexivity.
  - apply (proj2 (registration_not_atomic Demo.jws_sign Demo.jws_open
                    Demo.eks_blowfish (Demo.quiet t) Demo.nameless s 3 s1
                    Hreach eq_refl eq_refl eq_refl eq_refl)
                 (snd (insert_company_branding t 3 s1)) eq_refl eq_refl).
    right. reflexivity.
Defined.

(** ** Quotes *)

(** C8.  Whatever the request, the quotes that were in the store are still
    there, in place, each with its company, creator and reference; a row
    that differs from what it was differs in [status] only, and only by a
    [PATCH /api/quotes/:id/status] of a caller whose token carries the
    row's company. *)
Theorem quotes_only_change_status :
  forall jws_sign jws_open eks a r s,
    exists kept added,
      quotes (snd (handle jws_sign jws_open eks a r s)) = (kept ++ added)%list /\
      Forall2 (quote_step jws_open a r) (quotes s) kept.
Proof.
  intros jws_sign jws_open eks a r s.
  assert (forall s' extra, quotes s' = (quotes s ++ extra)%list ->
            exists kept added,
              quotes s' = (kept ++ added)%list /\
              Forall2 (quote_step jws_open a r) (quotes s) kept) as Same.
  { intros s' extra E. exists (quotes s), extra. split; [exact E|].
    apply Forall2_same. intros q. repeat split. now left. }
  assert (forall s', quotes s' = quotes s ->
            exists kept added,
              quotes s' = (kept ++ added)%list /\
              Forall2 (quote_step jws_open a r) (quotes s) kept) as Keep.
  { intros s' E. apply (Same s' []). now rewrite app_nil_r. }
  destruct (reads_leave_store jws_sign jws_open eks a s) as (Rl & Rm & Rb & Rqs & Rq).
  destruct r as [|b|e pw|h|h|h b|h b|h b|h|h id|h id st|]; cbn [handle].
  - now apply Keep.
  - apply Keep. apply post_register_effect.
  - apply Keep. now rewrite Rl.
  - apply Keep. now rewrite Rm.
  - apply Keep. now rewrite Rb.
  - apply Keep. apply put_branding_frame.
  - apply Keep. apply put_company_frame.
  - unfold post_quotes, authenticated.
    destruct (authenticateToken jws_open (env a) (now a) h) as [? ?|user];
      [now apply Keep|].
    unfold try_catch, bind, pool_query, ret.
    destruct (fault a 0); [now apply Keep|].
    destruct (insert_quotes _ _ _ _ _ s) as [o s1] eqn:E.
    apply insert_quotes_spec in E. destruct E as (_ & _ & _ & _ & Q).
    destruct o as [|q]; cbn [snd]; [now apply Keep|].
    apply (Same s1 [q]). apply Q.
  - apply Keep. now rewrite Rqs.
  - apply Keep. now rewrite Rq.
  - unfold patch_quote_status, authenticated.
    destruct (authenticateToken jws_open (env a) (now a) h) as [? ?|user] eqn:Hauth;
      [now apply Keep|].
    unfold try_catch, bind, pool_query, ret.
    destruct (fault a 0); [now apply Keep|].
    unfold update_quotes_status, obind.
    destruct (varchar 20 st) as [|st'] eqn:Est; [now apply Keep|].
    destruct (int4_in id) as [|i] eqn:Eid; [now apply Keep|].
    destruct (int4_claim (companyId (p_claims user))) as [|k] eqn:Ek;
      [now apply Keep|].
    cbn [snd set_quotes quotes].
    eexists _, []. rewrite app_nil_r. split; [reflexivity|].
    apply Forall2_map_right. intros q.
    destruct (Z.eqb_spec (q_id q) i) as [Ei|]; cbn [andb];
      [|repeat split; now left].
    destruct (same_id (q_company_id q) k) eqn:Ec;
      [|repeat split; now left].
    apply same_id_true in Ec. destruct Ec as (n & -> & Ec).
    apply int4_claim_some in Ek. destruct Ek as (Ek & _).
    repeat split. right. exists h, id, st, st', user, n.
    repeat split; try assumption. now rewrite Ei.
  - now apply Keep.
Qed.

(** ** The primary key of quotes on reachable stores *)

Lemma keeps_ret :
  forall (X A : Type) (f : store -> X) (a : A), keeps f (ret a).
Proof. intros X A f a s. reflexivity. Qed.

Lemma keeps_lift :
  forall (X A : Type) (f : store -> X) (o : outcome A), keeps f (lift o).
Proof. intros X A f o s. reflexivity. Qed.

Lemma keeps_bind :
  forall (X A B : Type) (f : store -> X) (m : io A) (k : A -> io B),
    keeps f m -> (forall a, keeps f (k a)) -> keeps f (bind m k).
Proof.
  intros X A B f m k Hm Hk s. unfold bind.
  specialize (Hm s). destruct (m s) as [[|a] s1]; cbn [snd] in *.
  - exact Hm.
  - now rewrite Hk.
Qed.

Lemma keeps_pool_query :
  forall (X A : Type) (f : store -> X) (a : ambient) (k : nat) (q : io A),
    keeps f q -> keeps f (pool_query a k q).
Proof.
  intros X A f a k q Hq s. unfold pool_query.
  destruct (fault a k); [reflexivity | apply Hq].
Qed.

Lemma keeps_try_catch :
  forall (X : Type) (f : store -> X) (m : io response) (e : string) s,
    keeps f m -> f (snd (try_catch m e s)) = f s.
Proof.
  intros X f m e s Hm. unfold try_catch. specialize (Hm s).
  destruct (m s) as [[|r] s1]; exact Hm.
Qed.

Lemma keeps_authenticated :
  forall (X : Type) (f : store -> X) jws_open a h (next : claims -> handler) s,
    (forall user, f (snd (next user s)) = f s) ->
    f (snd (authenticated jws_open a h next s)) = f s.
Proof.
  intros X f jws_open a h next s H. unfold authenticated.
  destruct (authenticateToken jws_open (env a) (now a) h); [reflexivity | apply H].
Qed.

Create HintDb keeps.

#[local] Hint Resolve keeps_ret keeps_lift keeps_pool_query : keeps.

Lemma statements_keep_quotes :
  (forall e, keeps quotes_and_seq (select_users_by_email e)) /\
  (forall t n e p pc, keeps quotes_and_seq (insert_companies t n e p pc)) /\
  (forall t c, keeps quotes_and_seq (insert_company_branding t c)) /\
  (forall t c e h f l p, keeps quotes_and_seq (insert_users t c e h f l p)) /\
  (forall l p c hd ft i, keeps quotes_and_seq (update_company_branding l p c hd ft i)) /\
  (forall n p a1 a2 c pc v i, keeps quotes_and_seq (update_companies n p a1 a2 c pc v i)).
Proof.
  repeat apply conj; unfold keeps; intros.
  - unfold select_users_by_email. destruct (text e); reflexivity.
  - unfold insert_companies. cbn zeta. case_row R; reflexivity.
  - unfold insert_company_branding. cbn zeta. case_row R; reflexivity.
  - unfold insert_users. cbn zeta. case_row R; reflexivity.
  - unfold update_company_branding. cbn zeta. case_row R; reflexivity.
  - unfold update_companies. cbn zeta. case_row R; reflexivity.
Qed.

Lemma tenant_routes_keep_quotes :
  forall jws_sign jws_open eks a s,
    (forall b, quotes_and_seq (snd (post_register jws_sign eks a b s)) = quotes_and_seq s) /\
    (forall h b, quotes_and_seq (snd (put_branding jws_open a h b s)) = quotes_and_seq s) /\
    (forall h b, quotes_and_seq (snd (put_company jws_open a h b s)) = quotes_and_seq s).
Proof.
  intros jws_sign jws_open eks a s.
  destruct statements_keep_quotes as (K0 & K1 & K2 & K3 & K4 & K5).
  repeat apply conj; intros.
  - unfold post_register. apply keeps_try_catch.
    apply keeps_bind; [auto with keeps|]. intros existing.
    destruct (negb (is_empty existing)); [auto with keeps|].
    apply keeps_bind; [auto with keeps|]. intros companyId.
    apply keeps_bind; [auto with keeps|]. intros _.
    apply keeps_bind; [auto with keeps|]. intros passwordHash.
    apply keeps_bind; [auto with keeps|]. intros userId.
    auto with keeps.
  - unfold put_branding. apply keeps_authenticated. intros user.
    apply keeps_try_catch. apply keeps_bind; auto with keeps.
  - unfold put_company. apply keeps_authenticated. intros user.
    apply keeps_try_catch. apply keeps_bind; auto with keeps.
Qed.

Lemma quotes_ok_same :
  forall s s', quotes_and_seq s' = quotes_and_seq s -> quotes_ok s -> quotes_ok s'.
Proof.
  intros s s' E. unfold quotes_and_seq in E. injection E as E1 E2.
  unfold quotes_ok. now rewrite E1, E2.
Qed.

Lemma insert_quotes_key :
  forall t cid uid r f s q s1,
    insert_quotes t cid uid r f s = (Returned q, s1) ->
    q_id q = quotes_id_seq s /\ quotes_id_seq s1 = quotes_id_seq s + 1.
Proof.
  intros t cid uid r f s q s1. unfold insert_quotes. cbn zeta.
  case_row R; intros [= <- <-]. chain R. injection R as <-. split; reflexivity.
Qed.

Lemma insert_quotes_failed :
  forall t cid uid r f s s1,
    insert_quotes t cid uid r f s = (Threw, s1) ->
    quotes s1 = quotes s /\ quotes_id_seq s1 = quotes_id_seq s + 1.
Proof.
  intros t cid uid r f s s1. unfold insert_quotes. cbn zeta.
  case_row R; intros [= <-]. split; reflexivity.
Qed.

Lemma quotes_ok_handle :
  forall jws_sign jws_open eks a r s,
    quotes_ok s -> quotes_ok (snd (handle jws_sign jws_open eks a r s)).
Proof.
  intros jws_sign jws_open eks a r s Hok.
  destruct (reads_leave_store jws_sign jws_open eks a s) as (Rl & Rm & Rb & Rqs & Rq).
  destruct (tenant_routes_keep_quotes jws_sign jws_open eks a s) as (Kr & Kb & Kc).
  destruct r as [|b|e pw|h|h|h b|h b|h b|h|h id|h id st|]; cbn [handle snd];
    try exact Hok;
    try (rewrite ?Rl, ?Rm, ?Rb, ?Rqs, ?Rq; exact Hok);
    try (eapply quotes_ok_same; [|exact Hok]; auto; fail).
  - unfold post_quotes, authenticated.
    destruct (authenticateToken jws_open (env a) (now a) h) as [? ?|user];
      [exact Hok|].
    unfold try_catch, bind, pool_query, ret.
    destruct (fault a 0); [exact Hok|].
    destruct Hok as (Hd & Hlt).
    destruct (insert_quotes _ _ _ _ _ s) as [[|q] s1] eqn:E; cbv beta iota; cbn [snd].
    + apply insert_quotes_failed in E. destruct E as (E1 & E2).
      unfold quotes_ok. rewrite E1, E2. split; [exact Hd|].
      intros q Hq. specialize (Hlt q Hq). lia.
    + destruct (insert_quotes_key _ _ _ _ _ _ _ _ E) as (Hid & Hseq).
      apply insert_quotes_spec in E. destruct E as (_ & _ & _ & _ & E & _).
      unfold quotes_ok. rewrite E, Hseq, map_app. cbn [map]. split.
      * apply (distinct_snoc Z Z.eqb Z.eqb_spec); [exact Hd|].
        intros k Hk. apply in_map_iff in Hk. destruct Hk as (q0 & <- & Hq0).
        specialize (Hlt q0 Hq0). lia.
      * intros q0 Hq0. apply in_app_or in Hq0. destruct Hq0 as [Hq0|[<-|[]]]; [|lia].
        specialize (Hlt q0 Hq0). lia.
  - unfold patch_quote_status, authenticated.
    destruct (authenticateToken jws_open (env a) (now a) h) as [? ?|user];
      [exact Hok|].
    unfold try_catch, bind, pool_query, ret.
    destruct (fault a 0); [exact Hok|].
    unfold update_quotes_status, obind.
    destruct (varchar 20 st) as [|st']; [exact Hok|].
    destruct (int4_in id) as [|i]; [exact Hok|].
    destruct (int4_claim (companyId (p_claims user))) as [|k]; [exact Hok|].
    destruct Hok as (Hd & Hlt). unfold quotes_ok.
    cbn [snd quotes quotes_id_seq set_quotes].
    assert (forall q,
              q_id (if (q_id q =? i) && same_id (q_company_id q) k
                    then with_status st' q else q) = q_id q) as Hkey.
    { intros q. destruct ((q_id q =? i) && _); reflexivity. }
    split.
    + rewrite map_map. rewrite (map_ext _ q_id Hkey). exact Hd.
    + intros q Hq. apply in_map_iff in Hq. destruct Hq as (q0 & <- & Hq0).
      rewrite Hkey. now apply Hlt.
Qed.

(** On every store the routes can build, the keys the statements rely on
    are keys. *)
Lemma reachable_keys :
  forall jws_sign jws_open eks s,
    reachable jws_sign jws_open eks s ->
    distinct Z.eqb (map q_id (quotes s)) = true /\
    distinct Z.eqb (map c_id (companies s)) = true /\
    distinct String.eqb (map u_email (users s)) = true.
Proof.
  intros jws_sign jws_open eks s R.
  assert (quotes_ok s) as (Hq & _).
  { induction R as [|s a r _ IH].
    - split; [reflexivity | intros q []].
    - now apply quotes_ok_handle. }
  destruct (reachable_tenants_ok _ _ _ _ R) as (Hc & _ & Hu & _).
  now repeat split.
Qed.

(** * Further properties of the routes *)

(** ** The middleware *)

Lemma split_space_append :
  forall w rest,
    has_space w = false ->
    split_space (w ++ String " " rest) = w :: split_space rest.
Proof.
  induction w as [|c w IH]; intros rest H.
  - reflexivity.
  - cbn [append split_space]. cbn [has_space] in H.
    apply orb_false_iff in H. destruct H as [Hc Hw].
    rewrite Hc, (IH rest Hw). reflexivity.
Qed.

(** X1.  A request without an [Authorization] header, with a header of one
    word only, or with nothing between the first space and the next, is
    answered 401 [Access denied], whatever the token codec would accept. *)
Theorem no_token_unauthenticated :
  forall jws_open e t,
    authenticateToken jws_open e t None = Reject 401 "Access denied" /\
    (forall w, has_space w = false ->
       authenticateToken jws_open e t (Some w) = Reject 401 "Access denied") /\
    (forall w, has_space w = false ->
       authenticateToken jws_open e t (Some (w ++ " ")) = Reject 401 "Access denied") /\
    (forall w rest, has_space w = false ->
       authenticateToken jws_open e t (Some (w ++ "  " ++ rest))
       = Reject 401 "Access denied").
Proof.
  intros jws_open e t. split; [reflexivity|]. split; [|split].
  - intros w H. unfold authenticateToken.
    destruct (String.eqb w ""); [reflexivity|].
    rewrite (split_space_word _ H). reflexivity.
  - intros w H. unfold authenticateToken.
    destruct (String.eqb (w ++ " ") ""); [reflexivity|].
    rewrite (split_space_append w "" H). reflexivity.
  - intros w rest H. unfold authenticateToken.
    destruct (String.eqb (w ++ "  " ++ rest) ""); [reflexivity|].
    change (w ++ "  " ++ rest) with (w ++ String " " (String " " rest)).
    rewrite (split_space_append w _ H). reflexivity.
Qed.

(** X2.  The first word of the header is not looked at: any scheme word in
    place of [Bearer] gives the same answer. *)
Theorem scheme_word_ignored :
  forall jws_open e t scheme rest,
    has_space scheme = false -> scheme <> "" ->
    authenticateToken jws_open e t (Some (scheme ++ " " ++ rest))
    = authenticateToken jws_open e t (Some ("Bearer " ++ rest)).
Proof.
  intros jws_open e t scheme rest Hsp Hne. unfold authenticateToken.
  assert (String.eqb (scheme ++ " " ++ rest) "" = false) as ->.
  { destruct scheme; [contradiction | reflexivity]. }
  change (scheme ++ " " ++ rest) with (scheme ++ String " " rest).
  rewrite (split_space_append scheme rest Hsp).
  change ("Bearer " ++ rest) with ("Bearer" ++ String " " rest).
  rewrite (split_space_append "Bearer" rest eq_refl). reflexivity.
Qed.

Lemma scheme_word_ignored_basic :
  authenticateToken Demo.jws_open Demo.production 1700000300000
    (Some ("Basic " ++ "9.9.-.1.-.prime-worktops-secret-key-change-in-production"))
  = authenticateToken Demo.jws_open Demo.production 1700000300000
      (Some ("Bearer " ++ "9.9.-.1.-.prime-worktops-secret-key-change-in-production")).
Proof.
  apply (scheme_word_ignored Demo.jws_open Demo.production 1700000300000 "Basic");
    [reflexivity | discriminate].
Defined.

(** X3.  When the middleware lets a request through, the second word of the
    header is a non-empty token that opens under the configured secret to
    the payload handed on, and that payload is active and has not
    expired. *)
Theorem authenticated_token_is_valid :
  forall jws_open e t h user,
    authenticateToken jws_open e t h = Next user ->
    exists header token,
      h = Some header /\ nth_error (split_space header) 1 = Some token /\
      token <> "" /\ jws_open (JWT_SECRET e) token = Some user /\
      (forall x, p_nbf user = Some x -> x <= clockTimestamp t) /\
      forall x, p_exp user = Some x -> clockTimestamp t < x.
Proof.
  intros jws_open e t h user. unfold authenticateToken, jwt_verify.
  destruct h as [header|]; [|discriminate].
  destruct (String.eqb header ""); [discriminate|].
  destruct (nth_error (split_space header) 1) as [token|] eqn:Hnth; [|discriminate].
  destruct (String.eqb_spec token ""); [discriminate|].
  destruct (jws_open (JWT_SECRET e) token) as [p|] eqn:Hopen; [|discriminate].
  destruct (not_yet p t) eqn:Hnbf; [discriminate|].
  assert (forall x, p_nbf p = Some x -> x <= clockTimestamp t) as Hactive.
  { intros x Hx. unfold not_yet in Hnbf. rewrite Hx in Hnbf.
    destruct (Z.gtb_spec x (clockTimestamp t)); [discriminate | lia]. }
  destruct (p_exp p) as [x|] eqn:Hexp.
  - destruct (Z.geb_spec (clockTimestamp t) x); [discriminate|].
    intros [= <-]. exists header, token.
    split; [reflexivity|]. split; [exact Hnth|]. split; [assumption|].
    split; [assumption|]. split; [exact Hactive|].
    intros y Hy. rewrite Hexp in Hy. injection Hy as <-. lia.
  - intros [= <-]. exists header, token.
    split; [reflexivity|]. split; [exact Hnth|]. split; [assumption|].
    split; [assumption|]. split; [exact Hactive|].
    intros y Hy. congruence.
Qed.

Lemma authenticated_token_is_valid_demo :
  exists header token,
    Demo.bearer 2 2 1700000100000 = Some header /\
    nth_error (split_space header) 1 = Some token /\ token <> "" /\
    Demo.jws_open (JWT_SECRET Demo.production) token
    = Some (Demo.session 2 2 1700000100000) /\
    (forall x, p_nbf (Demo.session 2 2 1700000100000) = Some x ->
               x <= clockTimestamp 1700000300000) /\
    forall x, p_exp (Demo.session 2 2 1700000100000) = Some x ->
              clockTimestamp 1700000300000 < x.
Proof.
  apply (authenticated_token_is_valid Demo.jws_open Demo.production 1700000300000).
  reflexivity.
Defined.

(** X4.  A route behind the middleware answers a rejected header with the
    middleware's status, which is 401 or 403, and its message, and leaves
    the store as it was. *)
Theorem rejected_request_changes_nothing :
  forall jws_sign jws_open eks a r h st e s,
    authorization_of r = Some h ->
    authenticateToken jws_open (env a) (now a) h = Reject st e ->
    handle jws_sign jws_open eks a r s = (res_error st e, s) /\
    (st = 401 \/ st = 403).
Proof.
  intros jws_sign jws_open eks a r h st e s Hr Hrej. split.
  - destruct r; cbn in Hr; try discriminate; injection Hr as ->; cbn [handle];
      unfold get_me, get_branding, put_branding, put_company, post_quotes,
        get_quotes, get_quote, patch_quote_status, authenticated;
      rewrite Hrej; reflexivity.
  - revert Hrej. unfold authenticateToken.
    repeat match goal with
           | |- context [match ?x with _ => _ end] => destruct x
           end; intros [= <- <-]; auto.
Qed.

Lemma rejected_request_changes_nothing_demo :
  handle Demo.jws_sign Demo.jws_open Demo.eks_blowfish (Demo.quiet 1700000300000)
    (PatchQuoteStatus (Some "Bearer x.y.z") (IntText 1) (Some "sent")) Demo.with_quote
  = (res_error 403 "Invalid token", Demo.with_quote) /\ (403 = 401 \/ 403 = 403).
Proof.
  apply (rejected_request_changes_nothing Demo.jws_sign Demo.jws_open Demo.eks_blowfish
           (Demo.quiet 1700000300000)
           (PatchQuoteStatus (Some "Bearer x.y.z") (IntText 1) (Some "sent"))
           (Some "Bearer x.y.z")); reflexivity.
Defined.

(** ** Quote references *)

Lemma decimal_round_trip :
  forall z,
    option_map Z.of_int (NilZero.int_of_string (NilZero.string_of_int (Z.to_int z)))
    = Some z.
Proof.
  intros z. rewrite NilZero.isi.
  - cbn [option_map]. now rewrite DecimalZ.of_to.
  - destruct z; cbn; intros [= H]; now apply Unsigned.to_uint_nonnil in H.
  - destruct z; cbn; intros [= H]; now apply Unsigned.to_uint_nonnil in H.
Qed.

Lemma decimal_injective :
  forall x y,
    NilZero.string_of_int (Z.to_int x) = NilZero.string_of_int (Z.to_int y) -> x = y.
Proof.
  intros x y H. pose proof (decimal_round_trip x) as Hx.
  rewrite H, decimal_round_trip in Hx. now injection Hx.
Qed.

Lemma four_digits :
  forall z, 1000 <= z <= 9999 ->
    String.length (NilZero.string_of_int (Z.to_int z)) = 4%nat.
Proof.
  assert (forallb (fun z => Nat.eqb (String.length (NilZero.string_of_int (Z.to_int z))) 4)
                  (map (fun k => 1000 + Z.of_nat k) (seq 0 (Z.to_nat 9000))) = true) as All
    by (vm_compute; reflexivity).
  intros z Hz. rewrite forallb_forall in All. apply Nat.eqb_eq, All.
  apply in_map_iff. exists (Z.to_nat (z - 1000)). split; [lia|].
  apply in_seq. lia.
Qed.

Lemma length_of_append :
  forall a b, String.length (a ++ b) = (String.length a + String.length b)%nat.
Proof.
  induction a as [|c a IH]; intros b; cbn; [reflexivity | now rewrite IH].
Qed.

Lemma append_same_length :
  forall a1 a2 b1 b2,
    String.length a1 = String.length a2 -> a1 ++ b1 = a2 ++ b2 ->
    a1 = a2 /\ b1 = b2.
Proof.
  induction a1 as [|c a1 IH]; intros [|c' a2] b1 b2 Hl H; try discriminate.
  - now split.
  - cbn in Hl, H. injection Hl as Hl. injection H as -> H.
    destruct (IH a2 b1 b2 Hl H) as (-> & ->). now split.
Qed.

Lemma four_digits_ascii :
  forall z, 1000 <= z <= 9999 ->
    forallb (between 1 127)
            (list_ascii_of_string (NilZero.string_of_int (Z.to_int z))) = true.
Proof.
  assert (forallb (fun z => forallb (between 1 127)
                              (list_ascii_of_string
                                 (NilZero.string_of_int (Z.to_int z))))
                  (map (fun k => 1000 + Z.of_nat k) (seq 0 (Z.to_nat 9000))) = true) as All
    by (vm_compute; reflexivity).
  intros z Hz. rewrite forallb_forall in All. apply All.
  apply in_map_iff. exists (Z.to_nat (z - 1000)). split; [lia|].
  apply in_seq. lia.
Qed.

Lemma quote_reference_fits :
  forall a,
    1000 <= year a <= 9999 -> 0 <= random9000 a < 9000 ->
    String.length (generateQuoteRef a) = 12%nat /\
    varchar 20 (Some (generateQuoteRef a)) = Returned (Some (generateQuoteRef a)).
Proof.
  intros a Hy Hr.
  assert (String.length (generateQuoteRef a) = 12%nat) as L.
  { unfold generateQuoteRef. cbn zeta. cbn [append String.length].
    rewrite length_of_append. cbn [String.length].
    rewrite (four_digits (year a) Hy).
    rewrite (four_digits (random9000 a + 1000) ltac:(lia)). reflexivity. }
  assert (forallb (between 1 127) (list_ascii_of_string (generateQuoteRef a)) = true)
    as A.
  { unfold generateQuoteRef. cbn zeta.
    rewrite !list_ascii_of_append, !forallb_app.
    rewrite (four_digits_ascii (year a) Hy).
    rewrite (four_digits_ascii (random9000 a + 1000) ltac:(lia)). reflexivity. }
  split; [exact L|].
  apply (varchar_fits 20 _ _ (utf8_chars_ascii _ A)).
  rewrite length_map, length_list_ascii, L. lia.
Qed.

(** X5.  With a four-digit year and a draw below 9000, the reference is
    [PW-], the year, a dash and a number from 1000 to 9999, both in decimal:
    twelve characters, which the [VARCHAR(20)] column takes as they are. *)
Theorem quote_reference_shape :
  forall a,
    1000 <= year a <= 9999 -> 0 <= random9000 a < 9000 ->
    exists yy nn n,
      generateQuoteRef a = "PW-" ++ yy ++ "-" ++ nn /\
      String.length yy = 4%nat /\ String.length nn = 4%nat /\
      option_map Z.of_int (NilZero.int_of_string yy) = Some (year a) /\
      option_map Z.of_int (NilZero.int_of_string nn) = Some n /\
      1000 <= n <= 9999 /\
      String.length (generateQuoteRef a) = 12%nat /\
      varchar 20 (Some (generateQuoteRef a)) = Returned (Some (generateQuoteRef a)).
Proof.
  intros a Hy Hr. destruct (quote_reference_fits a Hy Hr) as (L & V).
  exists (NilZero.string_of_int (Z.to_int (year a))),
         (NilZero.string_of_int (Z.to_int (random9000 a + 1000))),
         (random9000 a + 1000).
  split; [reflexivity|]. split; [now apply four_digits|].
  split; [apply four_digits; lia|].
  split; [apply decimal_round_trip|]. split; [apply decimal_round_trip|].
  split; [lia|]. split; [exact L | exact V].
Qed.

Lemma quote_reference_shape_demo :
  exists yy nn n,
    generateQuoteRef (Demo.quiet 1700000200000) = "PW-" ++ yy ++ "-" ++ nn /\
    String.length yy = 4%nat /\ String.length nn = 4%nat /\
    option_map Z.of_int (NilZero.int_of_string yy) = Some 2026 /\
    option_map Z.of_int (NilZero.int_of_string nn) = Some n /\
    1000 <= n <= 9999 /\
    String.length (generateQuoteRef (Demo.quiet 1700000200000)) = 12%nat /\
    varchar 20 (Some (generateQuoteRef (Demo.quiet 1700000200000)))
    = Returned (Some (generateQuoteRef (Demo.quiet 1700000200000))).
Proof.
  apply (quote_reference_shape (Demo.quiet 1700000200000)); cbn; lia.
Defined.

(** X6.  Two references are the same text only when the year and the draw
    are the same (four-digit years). *)
Theorem quote_reference_injective :
  forall a1 a2,
    1000 <= year a1 <= 9999 -> 1000 <= year a2 <= 9999 ->
    generateQuoteRef a1 = generateQuoteRef a2 ->
    year a1 = year a2 /\ random9000 a1 = random9000 a2.
Proof.
  intros a1 a2 H1 H2. unfold generateQuoteRef. cbn zeta. cbn [append].
  intros [= H].
  apply append_same_length in H; [|now rewrite !four_digits].
  destruct H as (Hy & Hn). cbn [append] in Hn. injection Hn as Hn.
  apply decimal_injective in Hy, Hn. split; lia.
Qed.

Lemma quote_reference_injective_demo :
  generateQuoteRef (Demo.quiet 1700000200000) = generateQuoteRef (Demo.quiet 5) /\
  year (Demo.quiet 1700000200000) = year (Demo.quiet 5) /\
  random9000 (Demo.quiet 1700000200000) = random9000 (Demo.quiet 5).
Proof.
  split; [reflexivity|].
  apply (quote_reference_injective (Demo.quiet 1700000200000) (Demo.quiet 5));
    [cbn; lia | cbn; lia | reflexivity].
Defined.

(** ** Creating and reading quotes *)

Lemma reachable_quotes_ok :
  forall jws_sign jws_open eks s,
    reachable jws_sign jws_open eks s -> quotes_ok s.
Proof.
  intros jws_sign jws_open eks s R. induction R as [|s a r _ IH].
  - split; [reflexivity | intros q []].
  - now apply quotes_ok_handle.
Qed.

Lemma insert_quotes_duplicate :
  forall t cid uid ref f s,
    varchar 20 (Some ref) = Returned (Some ref) ->
    existsb (fun q => String.eqb (q_quote_reference q) ref) (quotes s) = true ->
    exists s1, insert_quotes t cid uid ref f s = (Threw, s1) /\
               quotes s1 = quotes s /\ companies s1 = companies s /\
               users s1 = users s /\ company_branding s1 = company_branding s.
Proof.
  intros t cid uid ref f s Hv Hdup.
  destruct (insert_quotes t cid uid ref f s) as [[|q] s1] eqn:E.
  - exists s1. split; [reflexivity|].
    pose proof (insert_quotes_spec _ _ _ _ _ _ _ _ E) as (C & U & B & _ & Q).
    now repeat split.
  - exfalso. revert E. unfold insert_quotes. cbn zeta.
    case_row R; intros [= <- <-]. chain R.
    injection Hv as ->.
    match goal with
    | H : not_null (Some _) = Returned _ |- _ => cbn in H; injection H as <-
    end.
    congruence.
Qed.

(** X7.  When the reference drawn for a new quote is already the reference
    of a stored quote, [POST /api/quotes] answers 500 and stores nothing. *)
Theorem duplicate_reference_refused :
  forall jws_open a h user b s,
    authenticateToken jws_open (env a) (now a) h = Next user ->
    1000 <= year a <= 9999 -> 0 <= random9000 a < 9000 ->
    existsb (fun q => String.eqb (q_quote_reference q) (generateQuoteRef a)) (quotes s)
    = true ->
    exists s',
      post_quotes jws_open a h b s = (res_error 500 "Failed to create quote", s') /\
      quotes s' = quotes s /\ companies s' = companies s /\ users s' = users s /\
      company_branding s' = company_branding s.
Proof.
  intros jws_open a h user b s Hauth Hy Hr Hdup.
  destruct (quote_reference_fits a Hy Hr) as (_ & Hv).
  unfold post_quotes, authenticated. rewrite Hauth.
  unfold try_catch, bind, pool_query.
  destruct (fault a 0); [exists s; now repeat split|].
  destruct (insert_quotes_duplicate (now a) (companyId (p_claims user))
              (userId (p_claims user)) (generateQuoteRef a) b s Hv Hdup)
    as (s1 & -> & Q & C & U & B).
  exists s1. now repeat split.
Qed.

Lemma duplicate_reference_refused_demo :
  exists s',
    post_quotes Demo.jws_open (Demo.quiet 1700000300000)
      (Demo.bearer 1 1 1700000000500) Demo.jane Demo.with_quote
    = (res_error 500 "Failed to create quote", s') /\
    quotes s' = quotes Demo.with_quote /\ companies s' = companies Demo.with_quote /\
    users s' = users Demo.with_quote /\
    company_branding s' = company_branding Demo.with_quote.
Proof.
  apply (duplicate_reference_refused Demo.jws_open (Demo.quiet 1700000300000)
           (Demo.bearer 1 1 1700000000500) (Demo.session 1 1 1700000000500));
    try reflexivity; cbn; lia.
Defined.

Ltac column_facts :=
  repeat match goal with
         | H : int4 (Some ?z) = Returned _ |- _ =>
             unfold int4 in H; destruct (int4_ok z) eqn:?; [|discriminate];
             injection H as <-
         | H : not_null ?v = Returned _ |- _ =>
             is_var v; destruct v; cbn [not_null] in H; [|discriminate];
             injection H as <-
         | H : negb _ = false |- _ => apply negb_false_iff in H
         end.

(** The row a successful [INSERT INTO quotes] returns. *)
Lemma insert_quotes_returned :
  forall t cid uid ref f s q s1,
    insert_quotes t cid uid ref f s = (Returned q, s1) ->
    quotes s1 = (quotes s ++ [q])%list /\ users s1 = users s /\
    companies s1 = companies s /\
    q_id q = quotes_id_seq s /\ int4_ok (q_id q) = true /\
    int4_claim cid = Returned (q_company_id q) /\
    int4_claim uid = Returned (q_created_by q) /\
    q_status q = Some "draft" /\
    varchar 20 (Some ref) = Returned (Some (q_quote_reference q)) /\
    quote_columns f = Returned (q_fields q) /\
    q_created_at q = Some t /\ q_valid_until q = Some (t / 86400000 + 30) /\
    references (q_company_id q) (map c_id (companies s)) = true /\
    references (q_created_by q) (map u_id (users s)) = true /\
    existsb (fun q' => String.eqb (q_quote_reference q') (q_quote_reference q))
            (quotes s) = false.
Proof.
  intros t cid uid ref f s q s1. unfold insert_quotes. cbn zeta.
  case_row R; intros [= <- <-]. chain R. column_facts. injection R as <-.
  cbn. repeat split; assumption.
Qed.

Lemma left_join_users_quote :
  forall us q,
    exists row rows,
      left_join_users us q = row :: rows /\ qr_quote row = q /\
      ((qr_first_name row = None /\ qr_last_name row = None /\
        filter (fun u => Z_is (q_created_by q) (u_id u)) us = []) \/
       exists u, In u us /\ q_created_by q = Some (u_id u) /\
                 qr_first_name row = Some (u_first_name u) /\
                 qr_last_name row = Some (u_last_name u)).
Proof.
  intros us q. unfold left_join_users.
  destruct (filter (fun u => Z_is (q_created_by q) (u_id u)) us) as [|u m] eqn:F.
  - eexists _, _. split; [reflexivity|]. cbn. split; [reflexivity|].
    left. now repeat split.
  - eexists _, _. split; [reflexivity|]. cbn. split; [reflexivity|].
    right. exists u.
    assert (In u (filter (fun u => Z_is (q_created_by q) (u_id u)) us)) as Hin
      by (rewrite F; now left).
    apply filter_In in Hin. destruct Hin as (Hin & Hz). apply Z_is_true in Hz.
    now repeat split.
Qed.

Lemma filter_snoc_only :
  forall (A : Type) (p : A -> bool) (l : list A) x,
    (forall a, In a l -> p a = false) -> p x = true ->
    filter p (l ++ [x]) = [x].
Proof.
  intros A p l x Hl Hx. rewrite filter_app, (filter_all_false _ _ _ Hl).
  cbn. now rewrite Hx.
Qed.

(** X8.  A quote that [POST /api/quotes] answered with 200, for a token
    that names company [k] and user [j], is a draft of that company,
    created by that user; read back through [GET /api/quotes/:id] with a
    token of that company, it is that row, with the creator's names beside
    it. *)
Theorem created_quote_reads_back :
  forall jws_sign jws_open eks a h user k j b s res s' a' h' user',
    reachable jws_sign jws_open eks s ->
    authenticateToken jws_open (env a) (now a) h = Next user ->
    companyId (p_claims user) = Id k -> userId (p_claims user) = Id j ->
    post_quotes jws_open a h b s = (res, s') ->
    res_status res = 200 ->
    authenticateToken jws_open (env a') (now a') h' = Next user' ->
    companyId (p_claims user') = Id k ->
    fault a' 0 = false ->
    exists q row u,
      res = res_json (JQuote q) /\
      q_company_id q = Some k /\
      q_created_by q = Some j /\
      q_status q = Some "draft" /\
      quote_columns b = Returned (q_fields q) /\
      get_quote jws_open a' h' (IntText (q_id q)) s' = (res_json (JQuoteRow row), s') /\
      qr_quote row = q /\
      In u (users s') /\ u_id u = j /\
      qr_first_name row = Some (u_first_name u) /\
      qr_last_name row = Some (u_last_name u).
Proof.
  intros jws_sign jws_open eks a h user k j b s res s' a' h' user'
         Hreach Hauth Hk Hj Hpost H200 Hauth' Hsame F0.
  destruct (reachable_quotes_ok _ _ _ _ Hreach) as (_ & Hlt).
  revert Hpost. unfold post_quotes, authenticated. rewrite Hauth.
  unfold try_catch, bind, pool_query, ret.
  destruct (fault a 0); [intros [= <- <-]; discriminate|].
  destruct (insert_quotes _ _ _ _ _ s) as [[|q] s1] eqn:E;
    intros [= <- <-]; [discriminate|].
  apply insert_quotes_returned in E.
  destruct E as (Q & U & _ & Hid & Hi4 & Hcid & Huid & Hst & _ & Hcols & _ & _ & _
                 & Hu & _).
  rewrite Hk in Hcid. rewrite Hj in Huid.
  cbn [int4_claim] in Hcid, Huid. unfold int4 in Hcid, Huid.
  destruct (int4_ok k) eqn:Hc4; [|discriminate]. injection Hcid as Hcid.
  destruct (int4_ok j) eqn:Hj4; [|discriminate]. injection Huid as Huid.
  symmetry in Hcid, Huid.
  assert (filter (fun q' => (q_id q' =? q_id q) && Z_is (q_company_id q') k)
                 (quotes s1) = [q]) as Hrows.
  { rewrite Q. apply filter_snoc_only.
    - intros q0 Hq0. specialize (Hlt q0 Hq0).
      destruct (Z.eqb_spec (q_id q0) (q_id q)); [lia | reflexivity].
    - rewrite Z.eqb_refl, Hcid. cbn. apply Z.eqb_refl. }
  destruct (left_join_users_quote (users s1) q) as (row & rows & Hjoin & Hrow & Hnames).
  destruct Hnames as [(_ & _ & Hnone)|(u & Hin & Hby & Hfn & Hln)].
  { exfalso. rewrite U, Huid in Hnone. rewrite Huid in Hu. cbn [references] in Hu.
    apply existsb_exists in Hu. destruct Hu as (x & Hx & Hz).
    apply in_map_iff in Hx. destruct Hx as (u & <- & Hin).
    assert (In u (filter (fun u => Z_is (Some j) (u_id u)) (users s))) as Hf
      by (apply filter_In; now split).
    rewrite Hnone in Hf. contradiction. }
  exists q, row, u. repeat split; try assumption.
  - unfold get_quote, authenticated. rewrite Hauth'.
    unfold try_catch, bind, pool_query, ret. rewrite F0.
    unfold select_quote, int4_in, obind.
    rewrite Hi4, Hsame, (int4_claim_id k Hc4). cbn [same_id]. rewrite Hrows.
    cbn [flat_map]. rewrite app_nil_r, Hjoin. reflexivity.
  - rewrite Huid in Hby. now injection Hby.
Qed.

Lemma created_quote_reads_back_demo :
  let a := Demo.quiet 1700000200000 in
  let h := Demo.bearer 2 2 1700000100000 in
  let a' := Demo.quiet 1700000300000 in
  let res := fst (post_quotes Demo.jws_open a h Demo.jane Demo.two_companies) in
  res_status res = 200 /\
  exists q row u,
    res = res_json (JQuote q) /\
    q_company_id q = Some 2 /\
    q_created_by q = Some 2 /\
    q_status q = Some "draft" /\
    quote_columns Demo.jane = Returned (q_fields q) /\
    get_quote Demo.jws_open a' h (IntText (q_id q)) Demo.with_quote
    = (res_json (JQuoteRow row), Demo.with_quote) /\
    qr_quote row = q /\
    In u (users Demo.with_quote) /\ u_id u = 2 /\
    qr_first_name row = Some (u_first_name u) /\
    qr_last_name row = Some (u_last_name u).
Proof.
  intros a h a' res. split; [reflexivity|].
  assert (reachable Demo.jws_sign Demo.jws_open Demo.eks_blowfish Demo.two_companies)
    as Hreach by (apply reach_step, reach_step, reach_init).
  apply (created_quote_reads_back Demo.jws_sign Demo.jws_open Demo.eks_blowfish
           a h (Demo.session 2 2 1700000100000) 2 2 Demo.jane Demo.two_companies res
           Demo.with_quote a' h (Demo.session 2 2 1700000100000)
           Hreach eq_refl eq_refl eq_refl eq_refl eq_refl eq_refl eq_refl eq_refl).
Defined.

(** ** Listing quotes *)

Lemma order_insert_permutation :
  forall r l, Permutation (r :: l) (order_insert r l).
Proof.
  intros r l. induction l as [|x l IH]; cbn; [reflexivity|].
  destruct (stays_before x r); [|reflexivity].
  rewrite perm_swap. now apply perm_skip.
Qed.

Lemma order_by_permutation :
  forall l, Permutation l (order_by_created_at_desc l).
Proof.
  intros l. unfold order_by_created_at_desc.
  assert (forall acc, Permutation (acc ++ l) (fold_left (fun acc r => order_insert r acc) l acc))
    as G.
  { induction l as [|r l IH]; intros acc; cbn.
    - now rewrite app_nil_r.
    - rewrite <- IH. rewrite <- Permutation_middle.
      change (r :: acc ++ l)%list with ((r :: acc) ++ l)%list.
      apply Permutation_app_tail. apply order_insert_permutation. }
  exact (G []).
Qed.

Lemma stays_before_total :
  forall x y, stays_before x y = false -> stays_before y x = true.
Proof.
  intros x y. unfold stays_before.
  destruct (q_created_at (qr_quote x)) as [tx|], (q_created_at (qr_quote y)) as [ty|];
    try discriminate; try reflexivity.
  intros H. apply Z.leb_gt in H. apply Z.leb_le. lia.
Qed.

Lemma order_insert_sorted :
  forall r l,
    Sorted (fun x y => stays_before x y = true) l ->
    Sorted (fun x y => stays_before x y = true) (order_insert r l).
Proof.
  intros r l S. induction S as [|x l S IH Hd]; cbn.
  - repeat constructor.
  - destruct (stays_before x r) eqn:E.
    + constructor; [exact IH|].
      destruct Hd as [|y l' Hxy]; cbn.
      * constructor. exact E.
      * destruct (stays_before y r); constructor; assumption.
    + constructor; [now constructor|]. constructor. now apply stays_before_total.
Qed.

Lemma order_by_sorted :
  forall l,
    Sorted (fun x y => stays_before x y = true) (order_by_created_at_desc l).
Proof.
  intros l. unfold order_by_created_at_desc.
  assert (forall acc, Sorted (fun x y => stays_before x y = true) acc ->
            Sorted (fun x y => stays_before x y = true)
                   (fold_left (fun acc r => order_insert r acc) l acc)) as G.
  { induction l as [|r l IH]; intros acc S; cbn; [exact S|].
    apply IH. now apply order_insert_sorted. }
  apply G. constructor.
Qed.

Lemma in_left_join_users :
  forall us q row, In row (left_join_users us q) -> qr_quote row = q.
Proof.
  intros us q row. unfold left_join_users.
  destruct (filter _ us) as [|u m].
  - intros [<-|[]]. reflexivity.
  - intros H. apply in_map_iff in H. destruct H as (u' & <- & _). reflexivity.
Qed.

Lemma select_quotes_rows :
  forall jws_open a h user k s,
    authenticateToken jws_open (env a) (now a) h = Next user ->
    fault a 0 = false ->
    int4_claim (companyId (p_claims user)) = Returned k ->
    get_quotes jws_open a h s
    = (res_json (JQuoteRows
         (order_by_created_at_desc
            (flat_map (left_join_users (users s))
               (filter (fun q => same_id (q_company_id q) k) (quotes s))))), s).
Proof.
  intros jws_open a h user k s Hauth F0 Hint.
  unfold get_quotes, authenticated. rewrite Hauth.
  unfold try_catch, bind, pool_query, ret. rewrite F0.
  unfold select_quotes. rewrite Hint. reflexivity.
Qed.

(** X9.  [GET /api/quotes], for a token that names company [k], lists
    quotes of that company only, and all of them: every row listed is a
    stored quote of that company, and every stored quote of that company
    is listed. *)
Theorem listed_quotes_are_the_company_s :
  forall jws_open a h user k s,
    authenticateToken jws_open (env a) (now a) h = Next user ->
    fault a 0 = false ->
    companyId (p_claims user) = Id k ->
    int4_ok k = true ->
    exists rows,
      get_quotes jws_open a h s = (res_json (JQuoteRows rows), s) /\
      (forall row, In row rows ->
         In (qr_quote row) (quotes s) /\
         q_company_id (qr_quote row) = Some k) /\
      (forall q, In q (quotes s) ->
         q_company_id q = Some k ->
         exists row, In row rows /\ qr_quote row = q).
Proof.
  intros jws_open a h user k s Hauth F0 Hk Hint.
  assert (int4_claim (companyId (p_claims user)) = Returned (Some k)) as Hread
    by (rewrite Hk; now apply int4_claim_id).
  eexists.
  split; [apply (select_quotes_rows jws_open a h user (Some k) s Hauth F0 Hread)|].
  cbn [same_id]. split.
  - intros row Hrow.
    apply (Permutation_in _ (Permutation_sym (order_by_permutation _))) in Hrow.
    apply in_flat_map in Hrow. destruct Hrow as (q & Hq & Hrow).
    apply in_left_join_users in Hrow. subst q.
    apply filter_In in Hq. destruct Hq as (Hin & Hz). split; [exact Hin|].
    now apply Z_is_true.
  - intros q Hq Hc.
    destruct (left_join_users_quote (users s) q) as (row & rows & Hjoin & Hrow & _).
    exists row. split; [|exact Hrow].
    apply (Permutation_in _ (order_by_permutation _)).
    apply in_flat_map. exists q. split.
    + apply filter_In. split; [exact Hq|]. rewrite Hc. cbn. apply Z.eqb_refl.
    + rewrite Hjoin. now left.
Qed.

Lemma listed_quotes_are_the_company_s_demo :
  exists rows,
    get_quotes Demo.jws_open (Demo.quiet 1700000300000) (Demo.bearer 2 2 1700000100000)
      Demo.with_quote = (res_json (JQuoteRows rows), Demo.with_quote) /\
    (forall row, In row rows ->
       In (qr_quote row) (quotes Demo.with_quote) /\
       q_company_id (qr_quote row) = Some 2) /\
    (forall q, In q (quotes Demo.with_quote) -> q_company_id q = Some 2 ->
       exists row, In row rows /\ qr_quote row = q).
Proof.
  apply (listed_quotes_are_the_company_s Demo.jws_open (Demo.quiet 1700000300000)
           (Demo.bearer 2 2 1700000100000) (Demo.session 2 2 1700000100000) 2);
    reflexivity.
Defined.

Lemma stays_before_transitive :
  forall x y z,
    stays_before x y = true -> stays_before y z = true -> stays_before x z = true.
Proof.
  intros x y z. unfold stays_before.
  destruct (q_created_at (qr_quote x)) as [tx|], (q_created_at (qr_quote y)) as [ty|],
           (q_created_at (qr_quote z)) as [tz|]; try discriminate; try reflexivity.
  intros H1 H2. apply Z.leb_le in H1, H2. apply Z.leb_le. lia.
Qed.

Lemma strongly_sorted_weaken :
  forall (A : Type) (R1 R2 : A -> A -> Prop) (l : list A),
    (forall x y, R1 x y -> R2 x y) -> StronglySorted R1 l -> StronglySorted R2 l.
Proof.
  intros A R1 R2 l H S. induction S as [|x l S IH F]; constructor; [exact IH|].
  revert F. apply Forall_impl. apply H.
Qed.

(** X10.  The list [GET /api/quotes] returns is newest first: a row is
    never older than a row that comes after it, and a row without a creation
    time comes before every row that has one.  ([k] is the token's company
    as the store reads it.) *)
Theorem listed_quotes_newest_first :
  forall jws_open a h user k s,
    authenticateToken jws_open (env a) (now a) h = Next user ->
    fault a 0 = false ->
    int4_claim (companyId (p_claims user)) = Returned k ->
    exists rows,
      get_quotes jws_open a h s = (res_json (JQuoteRows rows), s) /\
      StronglySorted
        (fun x y =>
           match q_created_at (qr_quote x), q_created_at (qr_quote y) with
           | Some tx, Some ty => ty <= tx
           | None, _ => True
           | Some _, None => False
           end) rows.
Proof.
  intros jws_open a h user k s Hauth F0 Hint.
  eexists. split; [apply (select_quotes_rows jws_open a h user k s Hauth F0 Hint)|].
  apply (strongly_sorted_weaken _ (fun x y => stays_before x y = true)).
  - intros x y. unfold stays_before.
    destruct (q_created_at (qr_quote x)), (q_created_at (qr_quote y));
      try discriminate; trivial.
    apply Z.leb_le.
  - apply Sorted_StronglySorted; [|apply order_by_sorted].
    intros x y z. apply stays_before_transitive.
Qed.

Lemma listed_quotes_newest_first_demo :
  exists rows,
    get_quotes Demo.jws_open (Demo.quiet 1700000300000) (Demo.bearer 2 2 1700000100000)
      Scenario.two_quotes = (res_json (JQuoteRows rows), Scenario.two_quotes) /\
    StronglySorted
      (fun x y =>
         match q_created_at (qr_quote x), q_created_at (qr_quote y) with
         | Some tx, Some ty => ty <= tx
         | None, _ => True
         | Some _, None => False
         end) rows.
Proof.
  apply (listed_quotes_newest_first Demo.jws_open (Demo.quiet 1700000300000)
           (Demo.bearer 2 2 1700000100000) (Demo.session 2 2 1700000100000) (Some 2));
    reflexivity.
Defined.

Example run_list_two :
  match fst (get_quotes Demo.jws_open (Demo.quiet 1700000300000)
               (Demo.bearer 2 2 1700000100000) Scenario.two_quotes) with
  | {| res_status := 200; res_body := JQuoteRows rows |} =>
      map (fun r => q_quote_reference (qr_quote r)) rows
  | _ => []
  end = ["PW-2026-8777"; "PW-2026-1234"].
Proof. reflexivity. Qed.

(** ** Changing the status of a quote *)

Lemma set_quotes_same : forall s, set_quotes (quotes s) (quotes_id_seq s) s = s.
Proof. intros []. reflexivity. Qed.

Lemma map_unchanged :
  forall (A : Type) (g : A -> A) (l : list A),
    (forall x, In x l -> g x = x) -> map g l = l.
Proof.
  intros A g l H. rewrite <- (map_id l) at 2. now apply map_ext_in.
Qed.

(** X11.  [PATCH /api/quotes/:id/status] on an id that no quote of the
    caller's company has (absent, or another company's), with a status the
    column takes, answers 200 [{success: true}] and leaves the store
    exactly as it was; with a status that is not a text (a NUL in it) it
    answers 500 and leaves the store as it was, whatever the id.  [k] is
    the token's company as the store reads it. *)
Theorem patch_of_foreign_quote_does_nothing :
  forall jws_open a h user k i st s,
    authenticateToken jws_open (env a) (now a) h = Next user ->
    fault a 0 = false ->
    int4_ok i = true ->
    int4_claim (companyId (p_claims user)) = Returned k ->
    (forall st',
       varchar 20 st = Returned st' ->
       existsb (fun q => (q_id q =? i) && same_id (q_company_id q) k) (quotes s)
       = false ->
       patch_quote_status jws_open a h (IntText i) st s = (res_json JSuccess, s)) /\
    (text st = Threw ->
     patch_quote_status jws_open a h (IntText i) st s
     = (res_error 500 "Failed to update quote", s)).
Proof.
  intros jws_open a h user k i st s Hauth F0 Hi Hc.
  unfold patch_quote_status, authenticated. rewrite Hauth.
  unfold try_catch, bind, pool_query, ret. rewrite F0.
  unfold update_quotes_status, obind, int4_in. rewrite Hi, Hc. split.
  - intros st' Hst Hnone. rewrite Hst. rewrite map_unchanged.
    + now rewrite set_quotes_same.
    + intros q Hq. now rewrite (existsb_false_all _ _ _ Hnone q Hq).
  - intros Hst. now rewrite (varchar_not_text 20 st Hst).
Qed.

Lemma patch_of_foreign_quote_does_nothing_demo :
  patch_quote_status Demo.jws_open (Demo.quiet 1700000300000)
    (Demo.bearer 1 1 1700000000500) (IntText 1) (Some "accepted") Demo.with_quote
  = (res_json JSuccess, Demo.with_quote) /\
  patch_quote_status Demo.jws_open (Demo.quiet 1700000300000)
    (Demo.bearer 1 1 1700000000500) (IntText 1) (Some (String zero_byte "sent"))
    Demo.with_quote
  = (res_error 500 "Failed to update quote", Demo.with_quote).
Proof.
  split.
  - apply (proj1 (patch_of_foreign_quote_does_nothing Demo.jws_open
                    (Demo.quiet 1700000300000) (Demo.bearer 1 1 1700000000500)
                    (Demo.session 1 1 1700000000500) (Some 1) 1 (Some "accepted")
                    Demo.with_quote eq_refl eq_refl eq_refl eq_refl)
                 (Some "accepted")); reflexivity.
  - apply (proj2 (patch_of_foreign_quote_does_nothing Demo.jws_open
                    (Demo.quiet 1700000300000) (Demo.bearer 1 1 1700000000500)
                    (Demo.session 1 1 1700000000500) (Some 1) 1
                    (Some (String zero_byte "sent"))
                    Demo.with_quote eq_refl eq_refl eq_refl eq_refl)); reflexivity.
Defined.

Lemma filter_own_quote :
  forall l q cid,
    distinct Z.eqb (map q_id l) = true -> In q l ->
    q_company_id q = Some cid ->
    filter (fun q' => (q_id q' =? q_id q) && Z_is (q_company_id q') cid) l = [q].
Proof.
  intros l q cid Hd Hq Hc.
  rewrite <- (filter_key_one quote Z q_id Z.eqb Z.eqb_spec l q Hd Hq).
  apply filter_ext_in. intros q' Hq'.
  destruct (Z.eqb_spec (q_id q') (q_id q)) as [E|]; [|reflexivity].
  rewrite (same_key_same_row _ q_id l q q' Hd Hq Hq' E), Hc. cbn.
  now rewrite Z.eqb_refl.
Qed.

(** X12.  After a [PATCH /api/quotes/:id/status] on a quote of the caller's
    company [k], with a status the column takes, [GET /api/quotes/:id]
    shows that quote with the new status and everything else as it was;
    the other quotes are untouched.  A status of at most twenty characters
    is stored as it was sent. *)
Theorem patched_status_reads_back :
  forall jws_open a h user k st st' s q a' h' user',
    authenticateToken jws_open (env a) (now a) h = Next user ->
    fault a 0 = false ->
    distinct Z.eqb (map q_id (quotes s)) = true ->
    companyId (p_claims user) = Id k ->
    In q (quotes s) -> q_company_id q = Some k ->
    int4_ok (q_id q) = true -> int4_ok k = true ->
    varchar 20 st = Returned st' ->
    authenticateToken jws_open (env a') (now a') h' = Next user' ->
    companyId (p_claims user') = Id k ->
    fault a' 0 = false ->
    exists s' row,
      patch_quote_status jws_open a h (IntText (q_id q)) st s = (res_json JSuccess, s') /\
      get_quote jws_open a' h' (IntText (q_id q)) s' = (res_json (JQuoteRow row), s') /\
      qr_quote row = with_status st' q /\
      (forall t cs, st = Some t -> utf8_chars t = Some cs -> (List.length cs <= 20)%nat ->
                    st' = Some t) /\
      (forall q', In q' (quotes s) -> q_id q' <> q_id q -> In q' (quotes s')).
Proof.
  intros jws_open a h user k st st' s q a' h' user'
         Hauth F0 Hd Hk Hq Hc Hi Hc4 Hst Hauth' Hsame F0'.
  set (g := fun q' => if (q_id q' =? q_id q) && Z_is (q_company_id q') k
                      then with_status st' q' else q').
  set (s' := set_quotes (map g (quotes s)) (quotes_id_seq s) s).
  assert (patch_quote_status jws_open a h (IntText (q_id q)) st s
          = (res_json JSuccess, s')) as Hpatch.
  { unfold patch_quote_status, authenticated. rewrite Hauth.
    unfold try_catch, bind, pool_query, ret. rewrite F0.
    unfold update_quotes_status, obind, int4_in.
    rewrite Hst, Hi, Hk, (int4_claim_id k Hc4). reflexivity. }
  assert (filter (fun q' => (q_id q' =? q_id q) && Z_is (q_company_id q') k)
                 (quotes s') = [with_status st' q]) as Hrows.
  { unfold s'. cbn [quotes set_quotes]. rewrite filter_map_same.
    - rewrite (filter_own_quote _ q _ Hd Hq Hc). cbn [map]. unfold g.
      now rewrite Z.eqb_refl, Hc; cbn; rewrite Z.eqb_refl.
    - intros q'. unfold g.
      destruct ((q_id q' =? q_id q) && _) eqn:E; [|exact E]. exact E. }
  destruct (left_join_users_quote (users s') (with_status st' q))
    as (row & rows & Hjoin & Hrow & _).
  exists s', row. split; [exact Hpatch|]. split; [|split; [exact Hrow|split]].
  - unfold get_quote, authenticated. rewrite Hauth'.
    unfold try_catch, bind, pool_query, ret. rewrite F0'.
    unfold select_quote, int4_in, obind.
    rewrite Hi, Hsame, (int4_claim_id k Hc4). cbn [same_id]. rewrite Hrows.
    cbn [flat_map]. rewrite app_nil_r, Hjoin. reflexivity.
  - intros t cs -> Hcs Hlen. f_equal.
    destruct (varchar_some _ _ _ Hst) as (y & ->). f_equal.
    exact (varchar_as_sent 20 t y cs Hst Hcs Hlen).
  - intros q' Hq' Hne. unfold s'. cbn [quotes set_quotes].
    apply in_map_iff. exists q'. split; [|exact Hq']. unfold g.
    destruct (Z.eqb_spec (q_id q') (q_id q)); [contradiction | reflexivity].
Qed.

Lemma patched_status_reads_back_demo :
  exists s' row,
    patch_quote_status Demo.jws_open (Demo.quiet 1700000300000)
      (Demo.bearer 2 2 1700000100000) (IntText (q_id Demo.the_quote)) (Some "sent")
      Demo.with_quote = (res_json JSuccess, s') /\
    get_quote Demo.jws_open (Demo.quiet 1700000400000) (Demo.bearer 2 2 1700000100000)
      (IntText (q_id Demo.the_quote)) s' = (res_json (JQuoteRow row), s') /\
    qr_quote row = with_status (Some "sent") Demo.the_quote /\
    (forall t cs, Some "sent" = Some t -> utf8_chars t = Some cs ->
                  (List.length cs <= 20)%nat -> Some "sent" = Some t) /\
    (forall q', In q' (quotes Demo.with_quote) -> q_id q' <> q_id Demo.the_quote ->
                In q' (quotes s')).
Proof.
  assert (In Demo.the_quote (quotes Demo.with_quote)) as Hin by (left; reflexivity).
  apply (patched_status_reads_back Demo.jws_open (Demo.quiet 1700000300000)
           (Demo.bearer 2 2 1700000100000) (Demo.session 2 2 1700000100000) 2
           (Some "sent") (Some "sent") Demo.with_quote Demo.the_quote
           (Demo.quiet 1700000400000) (Demo.bearer 2 2 1700000100000)
           (Demo.session 2 2 1700000100000)
           eq_refl eq_refl eq_refl eq_refl Hin eq_refl eq_refl eq_refl eq_refl eq_refl
           eq_refl eq_refl).
Defined.

(** ** A successful registration *)

Lemma insert_companies_returned :
  forall t n e p pc s id s1,
    insert_companies t n e p pc s = (Returned id, s1) ->
    exists n' e' p' pc',
      varchar 255 n = Returned (Some n') /\ varchar 255 e = Returned (Some e') /\
      varchar 20 p = Returned p' /\ varchar 10 pc = Returned pc' /\
      id = companies_id_seq s /\
      s1 = set_companies
             (companies s ++
              [{| c_id := id; c_company_name := n'; c_email := e'; c_phone := p';
                  c_address_line1 := None; c_address_line2 := None; c_city := None;
                  c_postcode := pc'; c_vat_number := None;
                  c_account_status := Some "trial";
                  c_trial_ends_at := Some (t + 14 * 86400000);
                  c_markup_percentage := Some 2000;
                  c_created_at := Some t |}])%list (id + 1) s.
Proof.
  intros t n e p pc s id s1. unfold insert_companies. cbn zeta.
  case_row R; intros [= <- <-]. chain R. column_facts. injection R as <-.
  eexists _, _, _, _. repeat split; reflexivity.
Qed.

Lemma insert_company_branding_returned :
  forall t cid s s1,
    insert_company_branding t cid s = (Returned tt, s1) ->
    s1 = set_company_branding
           (company_branding s ++
            [{| b_id := company_branding_id_seq s; b_company_id := Some cid;
                b_logo_url := None; b_primary_colour := Some "#033f2a";
                b_secondary_colour := Some "#f6d466"; b_quote_header_text := None;
                b_quote_footer_text := None; b_created_at := Some t |}])%list
           (company_branding_id_seq s + 1) s.
Proof.
  intros t cid s s1. unfold insert_company_branding. cbn zeta.
  case_row R; intros [= <-]. chain R. column_facts. injection R as <-.
  reflexivity.
Qed.

Lemma insert_users_returned :
  forall t cid e h f l p s id s1,
    insert_users t cid e h f l p s = (Returned id, s1) ->
    exists e' f' l' p',
      varchar 255 e = Returned (Some e') /\ varchar 100 f = Returned (Some f') /\
      varchar 100 l = Returned (Some l') /\ varchar 20 p = Returned p' /\
      id = users_id_seq s /\
      s1 = set_users
             (users s ++
              [{| u_id := id; u_company_id := Some cid; u_email := e';
                  u_password_hash := h; u_first_name := f'; u_last_name := l';
                  u_phone := p'; u_role := Some "trade_admin";
                  u_is_active := Some true; u_created_at := Some t |}])%list
             (id + 1) s.
Proof.
  intros t cid e h f l p s id s1. unfold insert_users. cbn zeta.
  case_row R; intros [= <- <-]. chain R. column_facts. injection R as <-.
  eexists _, _, _, _. repeat split; reflexivity.
Qed.

Lemma post_register_ok :
  forall jws_sign eks a b s res s',
    post_register jws_sign eks a b s = (res, s') ->
    res_status res = 200 ->
    exists c n u,
      companies s' = (companies s ++ [c])%list /\
      company_branding s' = (company_branding s ++ [n])%list /\
      users s' = (users s ++ [u])%list /\ quotes s' = quotes s /\
      c_id c = companies_id_seq s /\
      varchar 255 (rb_companyName b) = Returned (Some (c_company_name c)) /\
      varchar 255 (rb_email b) = Returned (Some (c_email c)) /\
      c_account_status c = Some "trial" /\
      c_trial_ends_at c = Some (now a + 14 * 86400000) /\
      c_markup_percentage c = Some 2000 /\
      b_company_id n = Some (c_id c) /\
      b_logo_url n = None /\ b_primary_colour n = Some "#033f2a" /\
      b_secondary_colour n = Some "#f6d466" /\
      u_company_id u = Some (c_id c) /\ u_email u = c_email c /\
      u_role u = Some "trade_admin" /\ u_is_active u = Some true /\
      bcrypt_hash_with eks (salt a) (rb_password b) 10 = Returned (u_password_hash u) /\
      varchar 100 (rb_firstName b) = Returned (Some (u_first_name u)) /\
      varchar 100 (rb_lastName b) = Returned (Some (u_last_name u)) /\
      res = res_json
              (JSession
                 (jwt_sign jws_sign
                    {| userId := Id (u_id u); companyId := Id (c_id c);
                       role := Some "trade_admin" |}
                    (JWT_SECRET (env a)) (now a))
                 {| su_firstName := rb_firstName b; su_lastName := rb_lastName b;
                    su_email := rb_email b; su_role := Some "trade_admin" |}
                 {| sc_id := c_id c; sc_name := rb_companyName b; sc_status := None |}).
Proof.
  intros jws_sign eks a b s res s'.
  unfold post_register, try_catch, bind, pool_query, lift, ret.
  destruct (fault a 0); [intros [= <- <-]; discriminate|].
  unfold select_users_by_email.
  destruct (text (rb_email b)) as [|e0]; [intros [= <- <-]; discriminate|].
  cbv beta iota.
  match goal with |- context [if negb ?x then _ else _] => destruct (negb x) end;
    [intros [= <- <-]; discriminate|].
  destruct (fault a 1); [intros [= <- <-]; discriminate|].
  destruct (insert_companies _ _ _ _ _ s) as [[|cid] s1] eqn:E1;
    [intros [= <- <-]; discriminate|].
  apply insert_companies_returned in E1.
  destruct E1 as (n' & e' & p' & pc' & Hn & He & Hp & Hpc & -> & ->).
  destruct (fault a 2); [intros [= <- <-]; discriminate|].
  match goal with
  | |- context [insert_company_branding ?t ?c ?x] =>
      destruct (insert_company_branding t c x) as [[|[]] s2] eqn:E2
  end; [intros [= <- <-]; discriminate|].
  apply insert_company_branding_returned in E2. subst s2.
  destruct (bcrypt_hash_with eks (salt a) (rb_password b) 10) as [|ph] eqn:Hh;
    [intros [= <- <-]; discriminate|].
  destruct (fault a 3); [intros [= <- <-]; discriminate|].
  match goal with
  | |- context [insert_users ?t ?c ?e ?h ?f ?l ?p ?x] =>
      destruct (insert_users t c e h f l p x) as [[|uid] s3] eqn:E3
  end; [intros [= <- <-]; discriminate|].
  apply insert_users_returned in E3.
  destruct E3 as (e2 & f' & l' & p2 & He2 & Hf & Hl & Hp2 & -> & ->).
  intros [= <- <-] _.
  rewrite He in He2. injection He2 as <-.
  eexists _, _, _. cbn.
  repeat match goal with |- _ /\ _ => split end; try reflexivity; assumption.
Qed.

Lemma insert_companies_int4 :
  forall t n e p pc s id s1,
    insert_companies t n e p pc s = (Returned id, s1) ->
    int4_ok (companies_id_seq s) = true.
Proof.
  intros t n e p pc s id s1. unfold insert_companies, obind, int4. cbv zeta.
  destruct (int4_ok (companies_id_seq s)); [reflexivity | discriminate].
Qed.

Lemma post_register_ids :
  forall jws_sign eks a b s res s',
    post_register jws_sign eks a b s = (res, s') ->
    res_status res = 200 ->
    int4_ok (companies_id_seq s) = true /\
    exists us u, users s' = (us ++ [u])%list /\ u_id u = users_id_seq s.
Proof.
  intros jws_sign eks a b s res s'.
  unfold post_register, try_catch, bind, pool_query, lift, ret.
  destruct (fault a 0); [intros [= <- <-]; discriminate|].
  unfold select_users_by_email.
  destruct (text (rb_email b)) as [|e0]; [intros [= <- <-]; discriminate|].
  cbv beta iota.
  match goal with |- context [if negb ?x then _ else _] => destruct (negb x) end;
    [intros [= <- <-]; discriminate|].
  destruct (fault a 1); [intros [= <- <-]; discriminate|].
  destruct (insert_companies _ _ _ _ _ s) as [[|cid] s1] eqn:E1;
    [intros [= <- <-]; discriminate|].
  pose proof (insert_companies_int4 _ _ _ _ _ _ _ _ E1) as Hint.
  apply insert_companies_returned in E1.
  destruct E1 as (n' & e' & p' & pc' & Hn & He & Hp & Hpc & -> & ->).
  destruct (fault a 2); [intros [= <- <-]; discriminate|].
  match goal with
  | |- context [insert_company_branding ?t ?c ?x] =>
      destruct (insert_company_branding t c x) as [[|[]] s2] eqn:E2
  end; [intros [= <- <-]; discriminate|].
  apply insert_company_branding_returned in E2. subst s2.
  destruct (bcrypt_hash_with eks (salt a) (rb_password b) 10) as [|ph] eqn:Hh;
    [intros [= <- <-]; discriminate|].
  destruct (fault a 3); [intros [= <- <-]; discriminate|].
  match goal with
  | |- context [insert_users ?t ?c ?e ?h ?f ?l ?p ?x] =>
      destruct (insert_users t c e h f l p x) as [[|uid] s3] eqn:E3
  end; [intros [= <- <-]; discriminate|].
  apply insert_users_returned in E3.
  destruct E3 as (e2 & f' & l' & p2 & He2 & Hf & Hl & Hp2 & -> & ->).
  intros [= <- <-] _. split; [exact Hint|].
  eexists _, _. cbn. split; reflexivity.
Qed.

(** X13.  A registration answered with 200 has added exactly one company,
    one branding row and one user: the company on trial for fourteen days
    with the default markup, the branding with the two default colours, the
    user an active [trade_admin] of that company under the company's email,
    holding the bcrypt hash of the password; and the token in the answer
    names that user and company. *)
Theorem registration_creates_tenant :
  forall jws_sign eks a b s res s',
    post_register jws_sign eks a b s = (res, s') ->
    res_status res = 200 ->
    exists c n u,
      companies s' = (companies s ++ [c])%list /\
      company_branding s' = (company_branding s ++ [n])%list /\
      users s' = (users s ++ [u])%list /\ quotes s' = quotes s /\
      c_id c = companies_id_seq s /\
      varchar 255 (rb_companyName b) = Returned (Some (c_company_name c)) /\
      varchar 255 (rb_email b) = Returned (Some (c_email c)) /\
      c_account_status c = Some "trial" /\
      c_trial_ends_at c = Some (now a + 14 * 86400000) /\
      c_markup_percentage c = Some 2000 /\
      b_company_id n = Some (c_id c) /\
      b_logo_url n = None /\ b_primary_colour n = Some "#033f2a" /\
      b_secondary_colour n = Some "#f6d466" /\
      u_company_id u = Some (c_id c) /\ u_email u = c_email c /\
      u_role u = Some "trade_admin" /\ u_is_active u = Some true /\
      bcrypt_hash_with eks (salt a) (rb_password b) 10 = Returned (u_password_hash u) /\
      varchar 100 (rb_firstName b) = Returned (Some (u_first_name u)) /\
      varchar 100 (rb_lastName b) = Returned (Some (u_last_name u)) /\
      res = res_json
              (JSession
                 (jwt_sign jws_sign
                    {| userId := Id (u_id u); companyId := Id (c_id c);
                       role := Some "trade_admin" |}
                    (JWT_SECRET (env a)) (now a))
                 {| su_firstName := rb_firstName b; su_lastName := rb_lastName b;
                    su_email := rb_email b; su_role := Some "trade_admin" |}
                 {| sc_id := c_id c; sc_name := rb_companyName b; sc_status := None |}).
Proof.
  exact post_register_ok.
Qed.

Lemma registration_creates_tenant_demo :
  let a := Demo.quiet 1700000700000 in
  let s := Demo.two_companies in
  let res := fst (post_register Demo.jws_sign Demo.eks_blowfish a Scenario.granite s) in
  let s' := snd (post_register Demo.jws_sign Demo.eks_blowfish a Scenario.granite s) in
  res_status res = 200 /\
  exists c n u,
    companies s' = (companies s ++ [c])%list /\
    company_branding s' = (company_branding s ++ [n])%list /\
    users s' = (users s ++ [u])%list /\ quotes s' = quotes s /\
    c_id c = 3 /\ c_company_name c = "Granite Bros" /\
    b_company_id n = Some 3 /\ b_primary_colour n = Some "#033f2a" /\
    u_company_id u = Some 3 /\ u_email u = "g@granite.test" /\
    u_role u = Some "trade_admin" /\ u_is_active u = Some true.
Proof.
  intros a s res s'. split; [reflexivity|].
  destruct (registration_creates_tenant Demo.jws_sign Demo.eks_blowfish a
              Scenario.granite s res s' eq_refl eq_refl)
    as (c & n & u & C & B & U & Q & Hid & Hn & He & _ & _ & _ & Hb & _ & Hp & _ & Hu
        & Hue & Hr & Hact & _).
  exists c, n, u. cbn in Hid, Hn, He. injection Hn as Hn. injection He as He.
  rewrite Hue, Hid in *. repeat split; try assumption; congruence.
Defined.

(** X14.  A registration answered with 200 has appended one user and one
    company, the user belonging to that company; a login with the stored
    email (the email sent, when it has at most 255 characters) and the same
    password is then answered with 200 and a token that carries the same
    claims as the token the registration returned: that user, that company,
    [trade_admin]. *)
Theorem registered_user_can_log_in :
  forall jws_sign jws_open eks a b s res s' a',
    reachable jws_sign jws_open eks s ->
    post_register jws_sign eks a b s = (res, s') ->
    res_status res = 200 ->
    fault a' 0 = false ->
    exists u c,
      let cl := {| userId := Id (u_id u); companyId := Id (c_id c);
                   role := Some "trade_admin" |} in
      users s' = (users s ++ [u])%list /\ companies s' = (companies s ++ [c])%list /\
      u_company_id u = Some (c_id c) /\
      u_id u = users_id_seq s /\ c_id c = companies_id_seq s /\
      varchar 255 (rb_email b) = Returned (Some (u_email u)) /\
      (forall e cs, rb_email b = Some e -> utf8_chars e = Some cs ->
                    (List.length cs <= 255)%nat -> u_email u = e) /\
      res = res_json
              (JSession
                 (jwt_sign jws_sign cl (JWT_SECRET (env a)) (now a))
                 {| su_firstName := rb_firstName b; su_lastName := rb_lastName b;
                    su_email := rb_email b; su_role := Some "trade_admin" |}
                 {| sc_id := c_id c; sc_name := rb_companyName b; sc_status := None |}) /\
      post_login jws_sign eks a' (Some (u_email u)) (rb_password b) s'
      = (res_json
           (JSession
              (jwt_sign jws_sign cl (JWT_SECRET (env a')) (now a'))
              {| su_firstName := Some (u_first_name u);
                 su_lastName := Some (u_last_name u);
                 su_email := Some (u_email u); su_role := Some "trade_admin" |}
              {| sc_id := c_id c; sc_name := Some (c_company_name c);
                 sc_status := Some (Some "trial") |}), s').
Proof.
  intros jws_sign jws_open eks a b s res s' a' Hreach Hpost H200 F0.
  assert (reachable jws_sign jws_open eks s') as Hreach'.
  { replace s' with (snd (handle jws_sign jws_open eks a (PostRegister b) s))
      by (cbn [handle]; now rewrite Hpost).
    now apply reach_step. }
  destruct (reachable_tenants_ok _ _ _ _ Hreach') as (H1 & _ & H3 & _).
  destruct (post_register_ids _ _ _ _ _ _ _ Hpost H200) as (_ & us & u0 & U0 & Huid).
  destruct (post_register_ok _ _ _ _ _ _ _ Hpost H200)
    as (c & n & u & C & _ & U & _ & Hid & _ & He & Hst & _ & _ & _ & _ & _ & _ & Hcid
        & Hue & Hrole & _ & Hhash & _ & _ & Hres).
  rewrite U in U0. apply app_inj_tail in U0. destruct U0 as (_ & <-).
  assert (In u (users s')) as Hu by (rewrite U; apply in_or_app; right; now left).
  assert (In c (companies s')) as Hc by (rewrite C; apply in_or_app; right; now left).
  assert (is_text (u_email u) = true) as Ht
    by (rewrite Hue; exact (varchar_is_text _ _ _ He)).
  exists u, c. cbn zeta. split; [exact U|]. split; [exact C|]. split; [exact Hcid|].
  split; [exact Huid|]. split; [exact Hid|].
  split; [now rewrite Hue|]. split; [|split; [exact Hres|]].
  - intros e cs Hbe Hcs Hlen. rewrite Hbe in He. rewrite Hue.
    exact (varchar_as_sent 255 e (c_email c) cs He Hcs Hlen).
  - unfold post_login, try_catch, bind, pool_query, lift, ret. rewrite F0.
    rewrite (select_login_one s' u c Ht H3 H1 Hu Hc Hcid).
    unfold bcrypt_hash_with in Hhash. destruct (rb_password b) as [pw|]; [|discriminate].
    injection Hhash as Hhash. unfold bcrypt_compare. rewrite <- Hhash.
    cbn [bh_salt bh_cost bh_digest]. rewrite String.eqb_refl. cbn [negb].
    rewrite Hrole, Hst. reflexivity.
Qed.

Lemma registered_user_can_log_in_demo :
  let s := Demo.two_companies in
  let a := Demo.quiet 1700000700000 in
  let res := fst (post_register Demo.jws_sign Demo.eks_blowfish a Scenario.granite s) in
  let s' := snd (post_register Demo.jws_sign Demo.eks_blowfish a Scenario.granite s) in
  exists u c,
    let cl := {| userId := Id (u_id u); companyId := Id (c_id c);
                 role := Some "trade_admin" |} in
    users s' = (users s ++ [u])%list /\ companies s' = (companies s ++ [c])%list /\
    u_company_id u = Some (c_id c) /\
    u_id u = 3 /\ c_id c = 3 /\
    varchar 255 (rb_email Scenario.granite) = Returned (Some (u_email u)) /\
    (forall e cs, rb_email Scenario.granite = Some e -> utf8_chars e = Some cs ->
                  (List.length cs <= 255)%nat -> u_email u = e) /\
    res = res_json
            (JSession
               (jwt_sign Demo.jws_sign cl (JWT_SECRET Demo.production) 1700000700000)
               {| su_firstName := Some "Gus"; su_lastName := Some "Moss";
                  su_email := Some "g@granite.test"; su_role := Some "trade_admin" |}
               {| sc_id := c_id c; sc_name := Some "Granite Bros"; sc_status := None |}) /\
    post_login Demo.jws_sign Demo.eks_blowfish (Demo.quiet 1700000800000)
      (Some (u_email u)) (rb_password Scenario.granite) s'
    = (res_json
         (JSession
            (jwt_sign Demo.jws_sign cl (JWT_SECRET Demo.production) 1700000800000)
            {| su_firstName := Some (u_first_name u);
               su_lastName := Some (u_last_name u);
               su_email := Some (u_email u); su_role := Some "trade_admin" |}
            {| sc_id := c_id c; sc_name := Some (c_company_name c);
               sc_status := Some (Some "trial") |}), s').
Proof.
  intros s a res s'.
  assert (reachable Demo.jws_sign Demo.jws_open Demo.eks_blowfish s)
    as Hreach by (apply reach_step, reach_step, reach_init).
  apply (registered_user_can_log_in Demo.jws_sign Demo.jws_open Demo.eks_blowfish
           a Scenario.granite s res s' (Demo.quiet 1700000800000)
           Hreach eq_refl eq_refl eq_refl).
Defined.

(** ** Failed logins *)

Lemma select_login_none :
  forall e s,
    text e = Returned e ->
    existsb (fun u => text_is e (u_email u)) (users s) = false ->
    select_login e s = (Returned [], s).
Proof.
  intros e s Ht H. unfold select_login. rewrite Ht.
  now rewrite (filter_all_false _ _ _ (existsb_false_all _ _ _ H)).
Qed.

Lemma text_returned : forall v r, text v = Returned r -> r = v.
Proof.
  intros [x|] r; unfold text; [destruct (is_text x); [|discriminate]|];
    now intros [= <-].
Qed.

Lemma text_some : forall e, is_text e = true -> text (Some e) = Returned (Some e).
Proof.
  intros e H. unfold text. now rewrite H.
Qed.

Lemma select_login_refused :
  forall e s, is_text e = false -> select_login (Some e) s = (Threw, s).
Proof.
  intros e s H. unfold select_login, text. now rewrite H.
Qed.

(** X15.  A wrong password for a registered email and any password for an
    email nobody registered get the same answer, 400 [Invalid email or
    password], when the email sent is a text; an email the store cannot
    read as a text (one that holds a NUL) is answered 500 [Login failed].
    None of them touches the store. *)
Theorem login_failures_look_alike :
  forall jws_sign eks a s pw u c,
    fault a 0 = false ->
    is_text (u_email u) = true ->
    distinct String.eqb (map u_email (users s)) = true ->
    distinct Z.eqb (map c_id (companies s)) = true ->
    In u (users s) -> In c (companies s) -> u_company_id u = Some (c_id c) ->
    bcrypt_compare eks (Some pw) (u_password_hash u) = Returned false ->
    post_login jws_sign eks a (Some (u_email u)) (Some pw) s
    = (res_error 400 "Invalid email or password", s) /\
    (forall e,
       is_text e = true ->
       existsb (fun u' => text_is (Some e) (u_email u')) (users s) = false ->
       post_login jws_sign eks a (Some e) (Some pw) s
       = (res_error 400 "Invalid email or password", s)) /\
    (forall e,
       is_text e = false ->
       post_login jws_sign eks a (Some e) (Some pw) s = (res_error 500 "Login failed", s)).
Proof.
  intros jws_sign eks a s pw u c F0 Ht Hue Hci Hu Hc Hcid Hpw.
  unfold post_login, try_catch, bind, pool_query, lift, ret. rewrite F0.
  rewrite (select_login_one s u c Ht Hue Hci Hu Hc Hcid), Hpw.
  split; [reflexivity|]. split.
  - intros e He Hnone.
    now rewrite (select_login_none (Some e) s (text_some e He) Hnone).
  - intros e He. now rewrite (select_login_refused e s He).
Qed.

Lemma login_failures_look_alike_demo :
  post_login Demo.jws_sign Demo.eks_blowfish (Demo.quiet 1700000400000)
    (Some "a@acme.test") (Some "secret124") Demo.two_companies
  = (res_error 400 "Invalid email or password", Demo.two_companies) /\
  post_login Demo.jws_sign Demo.eks_blowfish (Demo.quiet 1700000400000)
    (Some "nobody@acme.test") (Some "secret124") Demo.two_companies
  = (res_error 400 "Invalid email or password", Demo.two_companies) /\
  post_login Demo.jws_sign Demo.eks_blowfish (Demo.quiet 1700000400000)
    (Some (String zero_byte "a@acme.test")) (Some "secret124") Demo.two_companies
  = (res_error 500 "Login failed", Demo.two_companies).
Proof.
  assert (In Demo.ann (users Demo.two_companies)) as Hu by (left; reflexivity).
  assert (In Demo.acme_row (companies Demo.two_companies)) as Hc by (left; reflexivity).
  destruct (login_failures_look_alike Demo.jws_sign Demo.eks_blowfish
              (Demo.quiet 1700000400000) Demo.two_companies "secret124"
              Demo.ann Demo.acme_row
              eq_refl eq_refl eq_refl eq_refl Hu Hc eq_refl eq_refl) as (H1 & H2 & H3).
  split; [exact H1|]. split.
  - exact (H2 "nobody@acme.test" eq_refl eq_refl).
  - exact (H3 (String zero_byte "a@acme.test") eq_refl).
Defined.

(** X16.  A login whose body has no password tells a registered email from
    an unregistered one: the first is answered 500 [Login failed], because
    the comparison throws, the second 400, when it is a text; an email that
    is not a text is answered 500 by the store.  A body without an email is
    answered 400. *)
Theorem login_without_password :
  forall jws_sign eks a s u c,
    fault a 0 = false ->
    is_text (u_email u) = true ->
    distinct String.eqb (map u_email (users s)) = true ->
    distinct Z.eqb (map c_id (companies s)) = true ->
    In u (users s) -> In c (companies s) -> u_company_id u = Some (c_id c) ->
    post_login jws_sign eks a (Some (u_email u)) None s
    = (res_error 500 "Login failed", s) /\
    (forall e,
       is_text e = true ->
       existsb (fun u' => text_is (Some e) (u_email u')) (users s) = false ->
       post_login jws_sign eks a (Some e) None s
       = (res_error 400 "Invalid email or password", s)) /\
    (forall e,
       is_text e = false ->
       post_login jws_sign eks a (Some e) None s = (res_error 500 "Login failed", s)) /\
    forall pw,
      post_login jws_sign eks a None pw s
      = (res_error 400 "Invalid email or password", s).
Proof.
  intros jws_sign eks a s u c F0 Ht Hue Hci Hu Hc Hcid.
  unfold post_login, try_catch, bind, pool_query, lift, ret. rewrite F0.
  rewrite (select_login_one s u c Ht Hue Hci Hu Hc Hcid).
  split; [reflexivity|]. split; [|split].
  - intros e He Hnone.
    now rewrite (select_login_none (Some e) s (text_some e He) Hnone).
  - intros e He. now rewrite (select_login_refused e s He).
  - intros pw. rewrite (select_login_none None s); [reflexivity | reflexivity |].
    apply all_false_existsb. reflexivity.
Qed.

Lemma login_without_password_demo :
  post_login Demo.jws_sign Demo.eks_blowfish (Demo.quiet 1700000400000)
    (Some "a@acme.test") None Demo.two_companies
  = (res_error 500 "Login failed", Demo.two_companies) /\
  post_login Demo.jws_sign Demo.eks_blowfish (Demo.quiet 1700000400000)
    (Some "nobody@acme.test") None Demo.two_companies
  = (res_error 400 "Invalid email or password", Demo.two_companies) /\
  post_login Demo.jws_sign Demo.eks_blowfish (Demo.quiet 1700000400000)
    (Some (String zero_byte "nobody@acme.test")) None Demo.two_companies
  = (res_error 500 "Login failed", Demo.two_companies) /\
  forall pw,
    post_login Demo.jws_sign Demo.eks_blowfish (Demo.quiet 1700000400000)
      None pw Demo.two_companies
    = (res_error 400 "Invalid email or password", Demo.two_companies).
Proof.
  assert (In Demo.ann (users Demo.two_companies)) as Hu by (left; reflexivity).
  assert (In Demo.acme_row (companies Demo.two_companies)) as Hc by (left; reflexivity).
  destruct (login_without_password Demo.jws_sign Demo.eks_blowfish
              (Demo.quiet 1700000400000) Demo.two_companies
              Demo.ann Demo.acme_row
              eq_refl eq_refl eq_refl eq_refl Hu Hc eq_refl) as (H1 & H2 & H3 & H4).
  split; [exact H1|]. split; [exact (H2 "nobody@acme.test" eq_refl eq_refl)|].
  split; [exact (H3 (String zero_byte "nobody@acme.test") eq_refl) | exact H4].
Defined.

(** ** Registrations that cannot succeed *)

(** When the company insert cannot return, the registration stores nothing
    and is not answered 200. *)
Lemma registration_stopped_at_company :
  forall jws_sign eks a b s,
    (forall id s1,
       insert_companies (now a) (rb_companyName b) (rb_email b) (rb_phone b)
                        (rb_postcode b) s <> (Returned id, s1)) ->
    exists st e s',
      post_register jws_sign eks a b s = (res_error st e, s') /\
      (st = 400 \/ st = 500) /\
      (existsb (fun u => text_is (rb_email b) (u_email u)) (users s) = false ->
       st = 500 /\ e = "Registration failed") /\
      companies s' = companies s /\ company_branding s' = company_branding s /\
      users s' = users s /\ quotes s' = quotes s.
Proof.
  intros jws_sign eks a b s Hno.
  unfold post_register, try_catch, bind, pool_query, lift, ret.
  destruct (fault a 0).
  { eexists _, _, s. split; [reflexivity|]. split; [now right|]. now repeat split. }
  unfold select_users_by_email.
  destruct (text (rb_email b)) as [|e0] eqn:Et.
  { eexists _, _, s. split; [reflexivity|]. split; [now right|]. now repeat split. }
  apply text_returned in Et. subst e0. cbv beta iota.
  destruct (filter (fun u => text_is (rb_email b) (u_email u)) (users s)) as [|u0 l] eqn:F.
  2:{ eexists _, _, s. split; [reflexivity|]. split; [now left|].
      split; [|now repeat split]. intros Hnone.
      rewrite (filter_all_false _ _ _ (existsb_false_all _ _ _ Hnone)) in F.
      discriminate. }
  cbn [map is_empty negb].
  destruct (fault a 1).
  { eexists _, _, s. split; [reflexivity|]. split; [now right|]. now repeat split. }
  destruct (insert_companies _ _ _ _ _ s) as [[|id] s1] eqn:E.
  - apply insert_companies_spec in E. destruct E as (U & B & Q & _ & C).
    eexists _, _, s1. split; [reflexivity|]. split; [now right|]. now repeat split.
  - exfalso. exact (Hno id s1 eq_refl).
Qed.

(** X17.  A registration without an email is answered 500 and stores
    nothing; one without a company name is answered 400 or 500 and stores
    nothing. *)
Theorem registration_without_email_or_name :
  forall jws_sign eks a b s,
    rb_email b = None \/ rb_companyName b = None ->
    exists st e s',
      post_register jws_sign eks a b s = (res_error st e, s') /\
      (st = 400 \/ st = 500) /\
      (rb_email b = None -> st = 500 /\ e = "Registration failed") /\
      companies s' = companies s /\ company_branding s' = company_branding s /\
      users s' = users s /\ quotes s' = quotes s.
Proof.
  intros jws_sign eks a b s Hmiss.
  destruct (registration_stopped_at_company jws_sign eks a b s)
    as (st & e & s' & Hres & Hst & H500 & Htables).
  - intros id s1 E. apply insert_companies_returned in E.
    destruct E as (n' & e' & _ & _ & Hn & He & _).
    destruct Hmiss as [H|H]; rewrite H in *; discriminate.
  - exists st, e, s'. split; [exact Hres|]. split; [exact Hst|].
    split; [|exact Htables].
    intros He. apply H500. rewrite He. now apply all_false_existsb.
Qed.

Lemma registration_without_email_or_name_demo :
  exists st e s',
    post_register Demo.jws_sign Demo.eks_blowfish (Demo.quiet 1700000700000)
      {| rb_companyName := Some "No Mail Ltd"; rb_email := None;
         rb_password := Some "x"; rb_firstName := Some "N"; rb_lastName := Some "M";
         rb_phone := None; rb_postcode := None |} Demo.two_companies
    = (res_error st e, s') /\
    (st = 400 \/ st = 500) /\
    (@None string = None -> st = 500 /\ e = "Registration failed") /\
    companies s' = companies Demo.two_companies /\
    company_branding s' = company_branding Demo.two_companies /\
    users s' = users Demo.two_companies /\ quotes s' = quotes Demo.two_companies.
Proof.
  apply (registration_without_email_or_name Demo.jws_sign Demo.eks_blowfish
           (Demo.quiet 1700000700000)
           {| rb_companyName := Some "No Mail Ltd"; rb_email := None;
              rb_password := Some "x"; rb_firstName := Some "N";
              rb_lastName := Some "M"; rb_phone := None; rb_postcode := None |}
           Demo.two_companies).
  left. reflexivity.
Defined.

(** X18.  Once a company row holds an email that no user has (what a
    registration that failed after its company insert leaves behind), every
    later registration with that email is answered 500 and stores nothing. *)
Theorem orphaned_email_cannot_register :
  forall jws_sign eks a b s e,
    varchar 255 (rb_email b) = Returned (Some e) ->
    existsb (fun c => String.eqb (c_email c) e) (companies s) = true ->
    existsb (fun u => text_is (rb_email b) (u_email u)) (users s) = false ->
    exists s',
      post_register jws_sign eks a b s = (res_error 500 "Registration failed", s') /\
      companies s' = companies s /\ company_branding s' = company_branding s /\
      users s' = users s /\ quotes s' = quotes s.
Proof.
  intros jws_sign eks a b s e He Hdup Hnone.
  destruct (registration_stopped_at_company jws_sign eks a b s)
    as (st & msg & s' & Hres & _ & H500 & Htables).
  - intros id s1 E. apply insert_companies_spec in E.
    destruct E as (_ & _ & _ & _ & _ & c & _ & _ & Hce & Hfresh).
    rewrite He in Hce. injection Hce as ->. congruence.
  - destruct (H500 Hnone) as (-> & ->). exists s'. now split.
Qed.

Lemma orphaned_email_cannot_register_demo :
  exists s',
    post_register Demo.jws_sign Demo.eks_blowfish (Demo.quiet 1700000700000)
      Scenario.granite Scenario.orphaned
    = (res_error 500 "Registration failed", s') /\
    companies s' = companies Scenario.orphaned /\
    company_branding s' = company_branding Scenario.orphaned /\
    users s' = users Scenario.orphaned /\ quotes s' = quotes Scenario.orphaned.
Proof.
  apply (orphaned_email_cannot_register Demo.jws_sign Demo.eks_blowfish
           (Demo.quiet 1700000700000) Scenario.granite Scenario.orphaned
           "g@granite.test"); reflexivity.
Defined.

(** ** What no route does *)

Lemma post_register_users :
  forall jws_sign eks a b s,
    users (snd (post_register jws_sign eks a b s)) = users s \/
    exists u,
      users (snd (post_register jws_sign eks a b s)) = (users s ++ [u])%list /\
      u_role u = Some "trade_admin" /\ u_is_active u = Some true.
Proof.
  intros jws_sign eks a b s.
  destruct (post_register jws_sign eks a b s) as [res s'] eqn:E. cbn [snd].
  destruct (Z.eq_dec (res_status res) 200) as [H200|Hnot].
  - right. destruct (post_register_ok _ _ _ _ _ _ _ E H200)
      as (c & n & u & _ & _ & U & _ & _ & _ & _ & _ & _ & _ & _ & _ & _ & _ & _ & _
          & Hr & Ha & _).
    exists u. now repeat split.
  - left. revert E.
    unfold post_register, try_catch, bind, pool_query, lift, ret.
    destruct (fault a 0); [now intros [= <- <-]|].
    unfold select_users_by_email.
    destruct (text (rb_email b)) as [|e0]; [now intros [= <- <-]|]. cbv beta iota.
    match goal with |- context [if negb ?x then _ else _] => destruct (negb x) end;
      [now intros [= <- <-]|].
    destruct (fault a 1); [now intros [= <- <-]|].
    destruct (insert_companies _ _ _ _ _ s) as [o1 s1] eqn:E1.
    apply insert_companies_spec in E1. destruct E1 as (U1 & _).
    destruct o1 as [|cid]; [now intros [= <- <-]|].
    destruct (fault a 2); [now intros [= <- <-]|].
    destruct (insert_company_branding _ _ s1) as [o2 s2] eqn:E2.
    apply insert_company_branding_spec in E2. destruct E2 as (_ & U2 & _).
    destruct o2 as [|[]]; [intros [= <- <-]; congruence|].
    destruct (bcrypt_hash_with _ _ _ _); [intros [= <- <-]; congruence|].
    destruct (fault a 3); [intros [= <- <-]; congruence|].
    destruct (insert_users _ _ _ _ _ _ _ s2) as [o3 s3] eqn:E3.
    apply insert_users_spec in E3. destruct E3 as (_ & _ & _ & _ & U3).
    destruct o3 as [|uid]; [intros [= <- <-]; congruence|].
    intros [= <- <-]. exfalso. now apply Hnot.
Qed.

Lemma handle_users :
  forall jws_sign jws_open eks a r s,
    users (snd (handle jws_sign jws_open eks a r s)) = users s \/
    exists b u,
      r = PostRegister b /\
      users (snd (handle jws_sign jws_open eks a r s)) = (users s ++ [u])%list /\
      u_role u = Some "trade_admin" /\ u_is_active u = Some true.
Proof.
  intros jws_sign jws_open eks a r s.
  destruct (reads_leave_store jws_sign jws_open eks a s) as (Rl & Rm & Rb & Rqs & Rq).
  destruct r as [|b|e pw|h|h|h b|h b|h b|h|h id|h id st|]; cbn [handle];
    try (left; reflexivity);
    try (left; rewrite ?Rl, ?Rm, ?Rb, ?Rqs, ?Rq; reflexivity).
  - destruct (post_register_users jws_sign eks a b s) as [H|(u & H & Hr & Ha)];
      [now left|]. right. exists b, u. now repeat split.
  - left. apply put_branding_frame.
  - left. apply put_company_frame.
  - left. apply (proj1 (quote_routes_leave_tenants jws_open a h s) b).
  - left. apply (proj2 (quote_routes_leave_tenants jws_open a h s) id st).
Qed.

(** X19.  No route changes or removes a user row: after any request the
    users are the users there were, followed by at most one new row, which
    only a registration adds and which is an active [trade_admin]. *)
Theorem users_are_only_added :
  forall jws_sign jws_open eks a r s,
    users (snd (handle jws_sign jws_open eks a r s)) = users s \/
    exists b u,
      r = PostRegister b /\
      users (snd (handle jws_sign jws_open eks a r s)) = (users s ++ [u])%list /\
      u_role u = Some "trade_admin" /\ u_is_active u = Some true.
Proof.
  exact handle_users.
Qed.

(** X20.  In every store the routes can build from empty tables, every
    user is active and a [trade_admin]. *)
Theorem every_user_is_an_active_admin :
  forall jws_sign jws_open eks s,
    reachable jws_sign jws_open eks s ->
    Forall (fun u => u_is_active u = Some true /\ u_role u = Some "trade_admin")
           (users s).
Proof.
  intros jws_sign jws_open eks s R. induction R as [|s a r _ IH].
  - constructor.
  - destruct (handle_users jws_sign jws_open eks a r s) as [->|(b & u & _ & -> & Hr & Ha)];
      [exact IH|].
    apply Forall_app. split; [exact IH|]. now repeat constructor.
Qed.

Lemma every_user_is_an_active_admin_demo :
  Forall (fun u => u_is_active u = Some true /\ u_role u = Some "trade_admin")
         (users Scenario.two_quotes).
Proof.
  apply (every_user_is_an_active_admin Demo.jws_sign Demo.jws_open Demo.eks_blowfish).
  apply reach_step, reach_step, reach_step, reach_step, reach_init.
Defined.

Lemma handle_companies :
  forall jws_sign jws_open eks a r s,
    exists kept added,
      companies (snd (handle jws_sign jws_open eks a r s)) = (kept ++ added)%list /\
      Forall2 (fun old new =>
                 c_id new = c_id old /\ c_email new = c_email old /\
                 c_account_status new = c_account_status old /\
                 c_trial_ends_at new = c_trial_ends_at old /\
                 c_markup_percentage new = c_markup_percentage old /\
                 c_created_at new = c_created_at old)
              (companies s) kept.
Proof.
  intros jws_sign jws_open eks a r s.
  assert (forall s' extra, companies s' = (companies s ++ extra)%list ->
            exists kept added,
              companies s' = (kept ++ added)%list /\
              Forall2 (fun old new =>
                 c_id new = c_id old /\ c_email new = c_email old /\
                 c_account_status new = c_account_status old /\
                 c_trial_ends_at new = c_trial_ends_at old /\
                 c_markup_percentage new = c_markup_percentage old /\
                 c_created_at new = c_created_at old)
              (companies s) kept) as Same.
  { intros s' extra E. exists (companies s), extra. split; [exact E|].
    apply Forall2_same. intros c. now repeat split. }
  assert (forall s', companies s' = companies s ->
            exists kept added,
              companies s' = (kept ++ added)%list /\
              Forall2 (fun old new =>
                 c_id new = c_id old /\ c_email new = c_email old /\
                 c_account_status new = c_account_status old /\
                 c_trial_ends_at new = c_trial_ends_at old /\
                 c_markup_percentage new = c_markup_percentage old /\
                 c_created_at new = c_created_at old)
              (companies s) kept) as Keep.
  { intros s' E. apply (Same s' []). now rewrite app_nil_r. }
  destruct (reads_leave_store jws_sign jws_open eks a s) as (Rl & Rm & Rb & Rqs & Rq).
  destruct r as [|b|e pw|h|h|h b|h b|h b|h|h id|h id st|]; cbn [handle];
    try (apply Keep; reflexivity);
    try (apply Keep; rewrite ?Rl, ?Rm, ?Rb, ?Rqs, ?Rq; reflexivity).
  - destruct (post_register_effect jws_sign eks a b s)
      as (_ & _ & [(C & _)|(c & C & _)]); [now apply Keep | now apply (Same _ [c])].
  - apply Keep. apply put_branding_frame.
  - destruct (put_company_frame jws_open a h b s) as (_ & _ & _ & F).
    eexists _, []. rewrite app_nil_r. split; [reflexivity|].
    revert F. apply Forall2_weaken.
    intros old new [->|M]; [now repeat split|].
    unfold company_merge in M. tauto.
  - apply Keep. apply (proj1 (quote_routes_leave_tenants jws_open a h s) b).
  - apply Keep. apply (proj2 (quote_routes_leave_tenants jws_open a h s) id st).
Qed.

(** X21.  No route removes a company or changes its id, email, account
    status, trial end, markup or creation time: after any request the
    companies there were are still there, in place, with those columns as
    they were. *)
Theorem companies_keep_identity_and_billing :
  forall jws_sign jws_open eks a r s,
    exists kept added,
      companies (snd (handle jws_sign jws_open eks a r s)) = (kept ++ added)%list /\
      Forall2 (fun old new =>
                 c_id new = c_id old /\ c_email new = c_email old /\
                 c_account_status new = c_account_status old /\
                 c_trial_ends_at new = c_trial_ends_at old /\
                 c_markup_percentage new = c_markup_percentage old /\
                 c_created_at new = c_created_at old)
              (companies s) kept.
Proof.
  exact handle_companies.
Qed.

(** ** Errors of the store *)

(** X22.  An [:id] that is not an integer of the column's range is answered
    500, not 404, by both quote routes, and nothing changes. *)
Theorem bad_quote_id_is_a_server_error :
  forall jws_open a h user id st s,
    authenticateToken jws_open (env a) (now a) h = Next user ->
    int4_in id = Threw ->
    get_quote jws_open a h id s = (res_error 500 "Failed to get quote", s) /\
    patch_quote_status jws_open a h id st s = (res_error 500 "Failed to update quote", s).
Proof.
  intros jws_open a h user id st s Hauth Hid.
  unfold get_quote, patch_quote_status, authenticated. rewrite Hauth.
  unfold try_catch, bind, pool_query, ret.
  destruct (fault a 0); [now split|].
  unfold select_quote, update_quotes_status, obind. rewrite Hid.
  destruct (varchar 20 st); now split.
Qed.

Lemma bad_quote_id_is_a_server_error_demo :
  get_quote Demo.jws_open (Demo.quiet 1700000300000) (Demo.bearer 2 2 1700000100000)
    (OtherText "1; DROP TABLE quotes") Demo.with_quote
  = (res_error 500 "Failed to get quote", Demo.with_quote) /\
  patch_quote_status Demo.jws_open (Demo.quiet 1700000300000)
    (Demo.bearer 2 2 1700000100000) (OtherText "1; DROP TABLE quotes") (Some "sent")
    Demo.with_quote
  = (res_error 500 "Failed to update quote", Demo.with_quote).
Proof.
  apply (bad_quote_id_is_a_server_error Demo.jws_open (Demo.quiet 1700000300000)
           (Demo.bearer 2 2 1700000100000) (Demo.session 2 2 1700000100000));
    reflexivity.
Defined.

(** X23.  An update of the caller's row with one value the column refuses
    is refused whole: [PUT /api/branding] with a logo URL or a colour of
    too many characters, or with a logo URL, colour, header or footer that
    is not a text, and [PUT /api/company] with a name, phone, address line,
    city, postcode or VAT number of too many characters or that is not a
    text, are answered 500 and change no field, the acceptable ones of the
    same body included.  [k] is the company the token names. *)
Theorem refused_value_refuses_the_update :
  forall jws_open a h user k s,
    authenticateToken jws_open (env a) (now a) h = Next user ->
    companyId (p_claims user) = Id k ->
    (forall b,
       existsb (fun n => Z_is (b_company_id n) k) (company_branding s) = true ->
       varchar 500 (bb_logoUrl b) = Threw \/ varchar 7 (bb_primaryColour b) = Threw \/
       varchar 7 (bb_secondaryColour b) = Threw \/
       text (bb_quoteHeaderText b) = Threw \/ text (bb_quoteFooterText b) = Threw ->
       put_branding jws_open a h b s = (res_error 500 "Failed to update branding", s)) /\
    (forall b,
       existsb (fun c => c_id c =? k) (companies s) = true ->
       varchar 255 (cb_companyName b) = Threw \/ varchar 20 (cb_phone b) = Threw \/
       varchar 255 (cb_addressLine1 b) = Threw \/ varchar 255 (cb_addressLine2 b) = Threw \/
       varchar 100 (cb_city b) = Threw \/ varchar 10 (cb_postcode b) = Threw \/
       varchar 20 (cb_vatNumber b) = Threw ->
       put_company jws_open a h b s = (res_error 500 "Failed to update company", s)).
Proof.
  intros jws_open a h user k s Hauth Hk. split; intros b _ Hbad.
  - unfold put_branding, authenticated. rewrite Hauth.
    unfold try_catch, bind, pool_query, ret.
    destruct (fault a 0); [reflexivity|].
    unfold update_company_branding, obind.
    destruct (varchar 500 (bb_logoUrl b)); [reflexivity|].
    destruct (varchar 7 (bb_primaryColour b)); [reflexivity|].
    destruct (varchar 7 (bb_secondaryColour b)); [reflexivity|].
    destruct (text (bb_quoteHeaderText b)); [reflexivity|].
    destruct (text (bb_quoteFooterText b)); [reflexivity|].
    exfalso. intuition discriminate.
  - unfold put_company, authenticated. rewrite Hauth.
    unfold try_catch, bind, pool_query, ret.
    destruct (fault a 0); [reflexivity|].
    unfold update_companies, obind.
    destruct (varchar 255 (cb_companyName b)); [reflexivity|].
    destruct (varchar 20 (cb_phone b)); [reflexivity|].
    destruct (varchar 255 (cb_addressLine1 b)); [reflexivity|].
    destruct (varchar 255 (cb_addressLine2 b)); [reflexivity|].
    destruct (varchar 100 (cb_city b)); [reflexivity|].
    destruct (varchar 10 (cb_postcode b)); [reflexivity|].
    destruct (varchar 20 (cb_vatNumber b)); [reflexivity|].
    exfalso. intuition discriminate.
Qed.

(** A colour of ten characters is refused, and so is the logo URL sent
    with it; a footer with a NUL in it is refused. *)
Lemma refused_value_refuses_the_update_demo :
  put_branding Demo.jws_open (Demo.quiet 1700000300000) (Demo.bearer 1 1 1700000000500)
    {| bb_logoUrl := Some "https://acme.test/logo.png";
       bb_primaryColour := Some "rgb(0,0,0)"; bb_secondaryColour := None;
       bb_quoteHeaderText := Some "Acme"; bb_quoteFooterText := None |}
    Demo.two_companies
  = (res_error 500 "Failed to update branding", Demo.two_companies) /\
  put_branding Demo.jws_open (Demo.quiet 1700000300000) (Demo.bearer 1 1 1700000000500)
    {| bb_logoUrl := None; bb_primaryColour := Some "#112233";
       bb_secondaryColour := None; bb_quoteHeaderText := None;
       bb_quoteFooterText := Some (String zero_byte "Thank you") |}
    Demo.two_companies
  = (res_error 500 "Failed to update branding", Demo.two_companies).
Proof.
  split.
  - apply (proj1 (refused_value_refuses_the_update Demo.jws_open
                    (Demo.quiet 1700000300000) (Demo.bearer 1 1 1700000000500)
                    (Demo.session 1 1 1700000000500) 1 Demo.two_companies
                    eq_refl eq_refl));
      [reflexivity|].
    right. left. reflexivity.
  - apply (proj1 (refused_value_refuses_the_update Demo.jws_open
                    (Demo.quiet 1700000300000) (Demo.bearer 1 1 1700000000500)
                    (Demo.session 1 1 1700000000500) 1 Demo.two_companies
                    eq_refl eq_refl));
      [reflexivity|].
    right. right. right. right. reflexivity.
Defined.

(** ** Reading one's profile and branding *)

(** X24.  [GET /api/me], for a token that names user [j], answers 404
    [User not found] when no user has that id, and otherwise the row of
    that user with its company: names, email, role, and the company's id,
    name, status and trial end. *)
Theorem me_is_the_token_s_user :
  forall jws_open a h user j s,
    authenticateToken jws_open (env a) (now a) h = Next user ->
    fault a 0 = false ->
    userId (p_claims user) = Id j ->
    int4_ok j = true ->
    (existsb (fun u => u_id u =? j) (users s) = false ->
     get_me jws_open a h s = (res_error 404 "User not found", s)) /\
    (forall u c,
       distinct Z.eqb (map u_id (users s)) = true ->
       distinct Z.eqb (map c_id (companies s)) = true ->
       In u (users s) -> u_id u = j ->
       In c (companies s) -> u_company_id u = Some (c_id c) ->
       get_me jws_open a h s
       = (res_json (JMe
            {| me_id := u_id u; me_first_name := u_first_name u;
               me_last_name := u_last_name u; me_email := u_email u;
               me_role := u_role u; me_company_id := c_id c;
               me_company_name := c_company_name c;
               me_account_status := c_account_status c;
               me_trial_ends_at := c_trial_ends_at c |}), s)).
Proof.
  intros jws_open a h user j s Hauth F0 Hj Hint.
  unfold get_me, authenticated. rewrite Hauth.
  unfold try_catch, bind, pool_query, ret. rewrite F0.
  unfold select_me. rewrite Hj, (int4_claim_id j Hint). cbn [same_id Z_is]. split.
  - intros Hnone.
    now rewrite (filter_all_false _ _ _ (existsb_false_all _ _ _ Hnone)).
  - intros u c Hdu Hdc Hu Hid Hc Hcid. rewrite <- Hid.
    rewrite (filter_key_one _ Z u_id Z.eqb Z.eqb_spec _ u Hdu Hu).
    unfold join. cbn [flat_map]. rewrite app_nil_r.
    rewrite (filter_ext (user_company u) (fun c' => c_id c' =? c_id c)).
    + now rewrite (filter_key_one company Z c_id Z.eqb Z.eqb_spec _ c Hdc Hc).
    + intros c'. unfold user_company, Z_is. rewrite Hcid. apply Z.eqb_sym.
Qed.

Lemma me_is_the_token_s_user_demo :
  get_me Demo.jws_open (Demo.quiet 1700000300000) (Demo.bearer 9 9 1700000100000)
    Demo.two_companies = (res_error 404 "User not found", Demo.two_companies) /\
  get_me Demo.jws_open (Demo.quiet 1700000300000) (Demo.bearer 1 1 1700000000500)
    Demo.two_companies
  = (res_json (JMe
       {| me_id := 1; me_first_name := "Ann"; me_last_name := "Lee";
          me_email := "a@acme.test"; me_role := Some "trade_admin";
          me_company_id := 1; me_company_name := "Acme Worktops";
          me_account_status := Some "trial";
          me_trial_ends_at := Some 1701209600500 |}), Demo.two_companies).
Proof.
  assert (In Demo.ann (users Demo.two_companies)) as Hu by (left; reflexivity).
  assert (In Demo.acme_row (companies Demo.two_companies)) as Hc by (left; reflexivity).
  split.
  - apply (proj1 (me_is_the_token_s_user Demo.jws_open (Demo.quiet 1700000300000)
                    (Demo.bearer 9 9 1700000100000) (Demo.session 9 9 1700000100000) 9
                    Demo.two_companies eq_refl eq_refl eq_refl eq_refl)).
    reflexivity.
  - exact (proj2 (me_is_the_token_s_user Demo.jws_open (Demo.quiet 1700000300000)
                    (Demo.bearer 1 1 1700000000500) (Demo.session 1 1 1700000000500) 1
                    Demo.two_companies eq_refl eq_refl eq_refl eq_refl)
                 Demo.ann Demo.acme_row eq_refl eq_refl Hu eq_refl Hc eq_refl).
Defined.

(** X25.  After a [PUT /api/branding] whose values the columns take, by
    a token that names company [k], [GET /api/branding] with a token of the
    same company returns the company's branding row with each field of the
    body in place (as the column took it), the fields the body left out as
    before, and the company's contact columns beside it. *)
Theorem branding_update_reads_back :
  forall jws_open a h user k b s n c a' h' user',
    authenticateToken jws_open (env a) (now a) h = Next user ->
    fault a 0 = false ->
    companyId (p_claims user) = Id k ->
    int4_ok k = true ->
    distinct Z.eqb (non_null (map b_company_id (company_branding s))) = true ->
    distinct Z.eqb (map c_id (companies s)) = true ->
    In n (company_branding s) -> b_company_id n = Some k ->
    In c (companies s) -> c_id c = k ->
    varchar 500 (bb_logoUrl b) <> Threw -> varchar 7 (bb_primaryColour b) <> Threw ->
    varchar 7 (bb_secondaryColour b) <> Threw ->
    text (bb_quoteHeaderText b) <> Threw -> text (bb_quoteFooterText b) <> Threw ->
    authenticateToken jws_open (env a') (now a') h' = Next user' ->
    companyId (p_claims user') = Id k ->
    fault a' 0 = false ->
    exists s' n',
      put_branding jws_open a h b s = (res_json JSuccess, s') /\
      get_branding jws_open a' h' s'
      = (res_json (JBranding
           {| br_branding := n'; br_company_name := c_company_name c;
              br_email := c_email c; br_phone := c_phone c;
              br_address_line1 := c_address_line1 c;
              br_address_line2 := c_address_line2 c;
              br_city := c_city c; br_postcode := c_postcode c |}), s') /\
      branding_merge b n n'.
Proof.
  intros jws_open a h user k b s n c a' h' user'
         Hauth F0 Hk Hint Hdb Hdc Hn Hncid Hc Hcid Hl Hp Hs Hhd Hft Hauth' Hsame F0'.
  destruct (varchar 500 (bb_logoUrl b)) as [|l] eqn:El; [contradiction|].
  destruct (varchar 7 (bb_primaryColour b)) as [|p] eqn:Ep; [contradiction|].
  destruct (varchar 7 (bb_secondaryColour b)) as [|sc] eqn:Es; [contradiction|].
  destruct (text (bb_quoteHeaderText b)) as [|hd] eqn:Ehd; [contradiction|].
  destruct (text (bb_quoteFooterText b)) as [|ft] eqn:Eft; [contradiction|].
  set (g := fun x : branding =>
              if Z_is (b_company_id x) k then
                {| b_id := b_id x; b_company_id := b_company_id x;
                   b_logo_url := coalesce l (b_logo_url x);
                   b_primary_colour := coalesce p (b_primary_colour x);
                   b_secondary_colour := coalesce sc (b_secondary_colour x);
                   b_quote_header_text := coalesce hd (b_quote_header_text x);
                   b_quote_footer_text := coalesce ft (b_quote_footer_text x);
                   b_created_at := b_created_at x |}
              else x).
  set (s' := set_company_branding (map g (company_branding s))
                                  (company_branding_id_seq s) s).
  assert (b_company_id (g n) = Some k) as Hgn.
  { unfold g. destruct (Z_is (b_company_id n) _); exact Hncid. }
  exists s', (g n). split; [|split].
  - unfold put_branding, authenticated. rewrite Hauth.
    unfold try_catch, bind, pool_query, ret. rewrite F0.
    unfold update_company_branding, obind.
    rewrite El, Ep, Es, Ehd, Eft, Hk, (int4_claim_id k Hint). reflexivity.
  - unfold get_branding, authenticated. rewrite Hauth'.
    unfold try_catch, bind, pool_query, ret. rewrite F0'.
    unfold select_branding. rewrite Hsame, (int4_claim_id k Hint). cbn [same_id].
    unfold s'. cbn [company_branding companies set_company_branding].
    rewrite filter_map_same.
    + rewrite (filter_non_null_one _ b_company_id _ n _ Hdb Hn Hncid).
      unfold join. cbn [map flat_map]. rewrite app_nil_r.
      rewrite (filter_ext (fun c' => Z_is (b_company_id (g n)) (c_id c'))
                          (fun c' => c_id c' =? c_id c)).
      * now rewrite (filter_key_one company Z c_id Z.eqb Z.eqb_spec _ c Hdc Hc).
      * intros c'. rewrite Hgn, Hcid. cbn. apply Z.eqb_sym.
    + intros x. unfold g. destruct (Z_is (b_company_id x) _) eqn:E; [exact E | exact E].
  - unfold g. rewrite Hncid. cbn [Z_is]. rewrite Z.eqb_refl.
    unfold branding_merge. cbn.
    repeat split; auto using assigned_varchar, assigned_text.
Qed.

Lemma branding_update_reads_back_demo :
  let b := Scenario.only_primary "#112233" in
  let h := Demo.bearer 1 1 1700000000500 in
  exists s' n',
    put_branding Demo.jws_open (Demo.quiet 1700000300000) h b Demo.two_companies
    = (res_json JSuccess, s') /\
    get_branding Demo.jws_open (Demo.quiet 1700000400000) h s'
    = (res_json (JBranding
         {| br_branding := n'; br_company_name := "Acme Worktops";
            br_email := "a@acme.test"; br_phone := None; br_address_line1 := None;
            br_address_line2 := None; br_city := None;
            br_postcode := Some "AB1 2CD" |}), s') /\
    branding_merge b Scenario.acme_branding n'.
Proof.
  intros b h.
  assert (In Scenario.acme_branding (company_branding Demo.two_companies))
    as Hn by (left; reflexivity).
  assert (In Demo.acme_row (companies Demo.two_companies)) as Hc by (left; reflexivity).
  apply (branding_update_reads_back Demo.jws_open (Demo.quiet 1700000300000) h
           (Demo.session 1 1 1700000000500) 1 b Demo.two_companies
           Scenario.acme_branding Demo.acme_row
           (Demo.quiet 1700000400000) h (Demo.session 1 1 1700000000500)
           eq_refl eq_refl eq_refl eq_refl eq_refl eq_refl Hn eq_refl Hc eq_refl);
    try reflexivity; discriminate.
Defined.

(** ** What holds of every store the routes build *)

(** X26.  In every store the routes can build from empty tables, user
    emails are unique, company ids and emails are unique, a company has at
    most one branding row, and every user belongs to a stored company that
    has the user's email and a branding row. *)
Theorem every_user_has_a_tenant :
  forall jws_sign jws_open eks s,
    reachable jws_sign jws_open eks s ->
    NoDup (map u_email (users s)) /\
    NoDup (map c_id (companies s)) /\ NoDup (map c_email (companies s)) /\
    NoDup (non_null (map b_company_id (company_branding s))) /\
    forall u, In u (users s) ->
      exists c n,
        In c (companies s) /\ In n (company_branding s) /\
        u_company_id u = Some (c_id c) /\ b_company_id n = Some (c_id c) /\
        c_email c = u_email u.
Proof.
  intros jws_sign jws_open eks s R.
  destruct (reachable_tenants_ok _ _ _ _ R) as (H1 & H2 & H3 & H4 & _ & H6 & _).
  split; [exact (distinct_NoDup string String.eqb String.eqb_spec _ H3)|].
  split; [exact (distinct_NoDup Z Z.eqb Z.eqb_spec _ H1)|].
  split; [exact (distinct_NoDup string String.eqb String.eqb_spec _ H2)|].
  split; [exact (distinct_NoDup Z Z.eqb Z.eqb_spec _ H4)|].
  exact H6.
Qed.

Lemma every_user_has_a_tenant_demo :
  NoDup (map u_email (users Scenario.two_quotes)) /\
  NoDup (map c_id (companies Scenario.two_quotes)) /\
  NoDup (map c_email (companies Scenario.two_quotes)) /\
  NoDup (non_null (map b_company_id (company_branding Scenario.two_quotes))) /\
  forall u, In u (users Scenario.two_quotes) ->
    exists c n,
      In c (companies Scenario.two_quotes) /\
      In n (company_branding Scenario.two_quotes) /\
      u_company_id u = Some (c_id c) /\ b_company_id n = Some (c_id c) /\
      c_email c = u_email u.
Proof.
  apply (every_user_has_a_tenant Demo.jws_sign Demo.jws_open Demo.eks_blowfish).
  apply reach_step, reach_step, reach_step, reach_step, reach_init.
Defined.

(** What a request does to the list of quotes: rows rewritten in place with
    their keys kept, or one checked row appended. *)
Lemma handle_quotes_shape :
  forall jws_sign jws_open eks a r s,
    (exists g,
       quotes (snd (handle jws_sign jws_open eks a r s)) = map g (quotes s) /\
       forall q, q_id (g q) = q_id q /\ q_company_id (g q) = q_company_id q /\
                 q_created_by (g q) = q_created_by q /\
                 q_quote_reference (g q) = q_quote_reference q) \/
    (exists q',
       quotes (snd (handle jws_sign jws_open eks a r s)) = (quotes s ++ [q'])%list /\
       references (q_company_id q') (map c_id (companies s)) = true /\
       references (q_created_by q') (map u_id (users s)) = true /\
       existsb (fun q => String.eqb (q_quote_reference q) (q_quote_reference q'))
               (quotes s) = false).
Proof.
  intros jws_sign jws_open eks a r s.
  assert (forall s', quotes s' = quotes s ->
            exists g,
              quotes s' = map g (quotes s) /\
              forall q, q_id (g q) = q_id q /\ q_company_id (g q) = q_company_id q /\
                        q_created_by (g q) = q_created_by q /\
                        q_quote_reference (g q) = q_quote_reference q) as Keep.
  { intros s' E. exists (fun q => q). rewrite map_id. split; [exact E|].
    intros q. now repeat split. }
  assert (forall s', quotes_and_seq s' = quotes_and_seq s -> quotes s' = quotes s) as Fst.
  { intros s' E. unfold quotes_and_seq in E. now injection E. }
  destruct (reads_leave_store jws_sign jws_open eks a s) as (Rl & Rm & Rb & Rqs & Rq).
  destruct (tenant_routes_keep_quotes jws_sign jws_open eks a s) as (Kr & Kb & Kc).
  destruct r as [|b|e pw|h|h|h b|h b|h b|h|h id|h id st|]; cbn [handle];
    try (left; apply Keep; reflexivity);
    try (left; apply Keep; rewrite ?Rl, ?Rm, ?Rb, ?Rqs, ?Rq; reflexivity);
    try (left; apply Keep, Fst; auto; fail).
  - unfold post_quotes, authenticated.
    destruct (authenticateToken jws_open (env a) (now a) h) as [? ?|user];
      [left; now apply Keep|].
    unfold try_catch, bind, pool_query, ret.
    destruct (fault a 0); [left; now apply Keep|].
    destruct (insert_quotes _ _ _ _ _ s) as [[|q] s1] eqn:E; cbv beta iota; cbn [snd].
    + left. apply Keep. now apply insert_quotes_failed in E.
    + right. apply insert_quotes_returned in E.
      destruct E as (Q & _ & _ & _ & _ & _ & _ & _ & _ & _ & _ & _ & Ec & Eu & Er).
      exists q. now repeat split.
  - left. unfold patch_quote_status, authenticated.
    destruct (authenticateToken jws_open (env a) (now a) h) as [? ?|user];
      [now apply Keep|].
    unfold try_catch, bind, pool_query, ret.
    destruct (fault a 0); [now apply Keep|].
    unfold update_quotes_status, obind.
    destruct (varchar 20 st) as [|st']; [now apply Keep|].
    destruct (int4_in id) as [|i]; [now apply Keep|].
    destruct (int4_claim (companyId (p_claims user))) as [|k]; [now apply Keep|].
    cbn [snd quotes set_quotes]. eexists. split; [reflexivity|].
    intros q. cbv beta.
    match goal with |- context [if ?b then _ else _] => destruct b end;
      now repeat split.
Qed.

(** X27.  In every store the routes can build from empty tables, quote ids
    are unique and quote references are unique. *)
Theorem quote_keys_are_unique :
  forall jws_sign jws_open eks s,
    reachable jws_sign jws_open eks s ->
    NoDup (map q_id (quotes s)) /\ NoDup (map q_quote_reference (quotes s)).
Proof.
  intros jws_sign jws_open eks s R. split.
  - destruct (reachable_quotes_ok _ _ _ _ R) as (Hd & _).
    exact (distinct_NoDup Z Z.eqb Z.eqb_spec _ Hd).
  - apply (distinct_NoDup string String.eqb String.eqb_spec).
    induction R as [|s a r _ IH]; [reflexivity|].
    destruct (handle_quotes_shape jws_sign jws_open eks a r s)
      as [(g & -> & Hg)|(q' & -> & _ & _ & Hfresh)].
    + rewrite map_map. rewrite (map_ext _ q_quote_reference); [exact IH|].
      intros q. apply Hg.
    + rewrite map_app. cbn [map].
      apply (distinct_snoc string String.eqb String.eqb_spec); [exact IH|].
      now apply fresh_email.
Qed.

Lemma quote_keys_are_unique_demo :
  NoDup (map q_id (quotes Scenario.two_quotes)) /\
  NoDup (map q_quote_reference (quotes Scenario.two_quotes)).
Proof.
  apply (quote_keys_are_unique Demo.jws_sign Demo.jws_open Demo.eks_blowfish).
  apply reach_step, reach_step, reach_step, reach_step, reach_init.
Defined.

Lemma company_ids_stay :
  forall jws_sign jws_open eks a r s c,
    In c (companies s) ->
    exists c', In c' (companies (snd (handle jws_sign jws_open eks a r s))) /\
               c_id c' = c_id c.
Proof.
  intros jws_sign jws_open eks a r s c Hc.
  destruct (handle_companies jws_sign jws_open eks a r s) as (kept & added & -> & F).
  destruct (Forall2_in_left _ _ _ _ c F Hc) as (c' & Hc' & Hid & _).
  exists c'. split; [apply in_or_app; now left | exact Hid].
Qed.

Lemma users_stay :
  forall jws_sign jws_open eks a r s u,
    In u (users s) -> In u (users (snd (handle jws_sign jws_open eks a r s))).
Proof.
  intros jws_sign jws_open eks a r s u Hu.
  destruct (handle_users jws_sign jws_open eks a r s) as [->|(b & u' & _ & -> & _)];
    [exact Hu | apply in_or_app; now left].
Qed.

(** X28.  In every store the routes can build from empty tables, a quote
    that has a company belongs to a stored company, and one that has a
    creator was created by a stored user.  (Either may be NULL: a token
    that names no company or no user stores NULL there, and the foreign
    keys do not check a NULL.) *)
Theorem every_quote_has_company_and_creator :
  forall jws_sign jws_open eks s,
    reachable jws_sign jws_open eks s ->
    forall q, In q (quotes s) ->
      (forall k, q_company_id q = Some k -> exists c, In c (companies s) /\ c_id c = k) /\
      (forall j, q_created_by q = Some j -> exists u, In u (users s) /\ u_id u = j).
Proof.
  intros jws_sign jws_open eks s R. induction R as [|s a r _ IH]; [intros q []|].
  assert (forall q,
            (forall k, q_company_id q = Some k ->
                       exists c, In c (companies s) /\ c_id c = k) /\
            (forall j, q_created_by q = Some j ->
                       exists u, In u (users s) /\ u_id u = j) ->
            (forall k, q_company_id q = Some k ->
                       exists c, In c (companies (snd (handle jws_sign jws_open eks a r s)))
                                 /\ c_id c = k) /\
            (forall j, q_created_by q = Some j ->
                       exists u, In u (users (snd (handle jws_sign jws_open eks a r s)))
                                 /\ u_id u = j)) as Step.
  { intros q (Hc & Hu). split.
    - intros k Hk. destruct (Hc k Hk) as (c & Hin & Hid).
      destruct (company_ids_stay jws_sign jws_open eks a r s c Hin) as (c' & Hc' & Hid').
      exists c'. split; [exact Hc' | congruence].
    - intros j Hj. destruct (Hu j Hj) as (u & Hin & Hid).
      exists u. split; [now apply users_stay | exact Hid]. }
  intros q' Hq'.
  destruct (handle_quotes_shape jws_sign jws_open eks a r s)
    as [(g & E & Hg)|(q0 & E & Hc & Hu & _)]; rewrite E in Hq'.
  - apply in_map_iff in Hq'. destruct Hq' as (q & <- & Hq).
    destruct (Hg q) as (_ & Kc & Ku & _). rewrite Kc, Ku.
    apply Step. rewrite <- Kc, <- Ku. rewrite Kc, Ku. now apply IH.
  - apply in_app_or in Hq'. destruct Hq' as [Hq|[<-|[]]].
    + apply Step. now apply IH.
    + apply Step. split.
      * intros k Hk. rewrite Hk in Hc. cbn [references] in Hc.
        apply existsb_exists in Hc. destruct Hc as (x & Hx & Hz).
        apply in_map_iff in Hx. destruct Hx as (c & <- & Hin).
        exists c. split; [exact Hin|]. apply Z.eqb_eq in Hz. now symmetry.
      * intros j Hj. rewrite Hj in Hu. cbn [references] in Hu.
        apply existsb_exists in Hu. destruct Hu as (x & Hx & Hz).
        apply in_map_iff in Hx. destruct Hx as (u & <- & Hin).
        exists u. split; [exact Hin|]. apply Z.eqb_eq in Hz. now symmetry.
Qed.

Lemma every_quote_has_company_and_creator_demo :
  Forall (fun q =>
            (forall k, q_company_id q = Some k ->
                       exists c, In c (companies Scenario.two_quotes) /\ c_id c = k) /\
            (forall j, q_created_by q = Some j ->
                       exists u, In u (users Scenario.two_quotes) /\ u_id u = j))
         (quotes Scenario.two_quotes).
Proof.
  apply Forall_forall.
  apply (every_quote_has_company_and_creator Demo.jws_sign Demo.jws_open
           Demo.eks_blowfish).
  apply reach_step, reach_step, reach_step, reach_step, reach_init.
Defined.

(** A token that names nobody creates a quote of no company, by no user,
    which that token does not read back. *)
Example run_quote_of_nobody :
  let r := post_quotes Demo.jws_open (Demo.quiet 1700000300000) Scenario.unnamed
             Demo.jane Demo.two_companies in
  res_status (fst r) = 200 /\
  map (fun q => (q_id q, q_company_id q, q_created_by q)) (quotes (snd r))
  = [(1, None, None)] /\
  fst (get_quote Demo.jws_open (Demo.quiet 1700000400000) Scenario.unnamed (IntText 1)
         (snd r))
  = res_error 404 "Quote not found" /\
  fst (get_quotes Demo.jws_open (Demo.quiet 1700000400000) Scenario.unnamed (snd r))
  = res_json (JQuoteRows []).
Proof. repeat split; reflexivity. Qed.

(** ** From registration to the first page *)

(** X29.  The token a successful registration returns, presented to
    [GET /api/branding] within seven days, is answered with the new
    company's branding row, which carries the schema's two default colours
    and no logo, beside the company's name and email as stored.  The codec
    is any for which this token opens to what was signed and is one word. *)
Theorem new_tenant_reads_default_branding :
  forall jws_sign jws_open eks a b s res s' a',
    let cl := {| userId := Id (users_id_seq s); companyId := Id (companies_id_seq s);
                 role := Some "trade_admin" |} in
    let token := jwt_sign jws_sign cl (JWT_SECRET (env a)) (now a) in
    let issued := {| p_claims := cl; p_iat := clockTimestamp (now a); p_nbf := None;
                     p_exp := Some (clockTimestamp (now a) + seven_days) |} in
    reachable jws_sign jws_open eks s ->
    post_register jws_sign eks a b s = (res, s') ->
    res_status res = 200 ->
    jws_open (JWT_SECRET (env a')) token = Some issued ->
    has_space token = false -> token <> "" ->
    clockTimestamp (now a') < clockTimestamp (now a) + seven_days ->
    fault a' 0 = false ->
    exists su sc n c,
      res = res_json (JSession token su sc) /\
      get_branding jws_open a' (Some ("Bearer " ++ token)) s'
      = (res_json (JBranding
           {| br_branding := n; br_company_name := c_company_name c;
              br_email := c_email c; br_phone := c_phone c;
              br_address_line1 := c_address_line1 c;
              br_address_line2 := c_address_line2 c;
              br_city := c_city c; br_postcode := c_postcode c |}), s') /\
      b_company_id n = Some (companies_id_seq s) /\ b_logo_url n = None /\
      b_primary_colour n = Some "#033f2a" /\ b_secondary_colour n = Some "#f6d466" /\
      c_id c = companies_id_seq s /\
      varchar 255 (rb_companyName b) = Returned (Some (c_company_name c)) /\
      varchar 255 (rb_email b) = Returned (Some (c_email c)).
Proof.
  intros jws_sign jws_open eks a b s res s' a' cl token issued
         Hreach Hpost H200 Hopen Hsp Hne Hlive F0.
  assert (reachable jws_sign jws_open eks s') as Hreach'.
  { replace s' with (snd (handle jws_sign jws_open eks a (PostRegister b) s))
      by (cbn [handle]; now rewrite Hpost).
    now apply reach_step. }
  destruct (reachable_tenants_ok _ _ _ _ Hreach') as (H1 & _ & _ & H4 & _).
  destruct (post_register_ids _ _ _ _ _ _ _ Hpost H200) as (Hint & us & u0 & U0 & Huid).
  destruct (post_register_ok _ _ _ _ _ _ _ Hpost H200)
    as (c & n & u & C & B & U & _ & Hcid & Hname & Hemail & _ & _ & _ & Hn & Hlogo
        & Hpri & Hsec & _ & _ & _ & _ & _ & _ & _ & Hres).
  rewrite U in U0. apply app_inj_tail in U0. destruct U0 as (_ & <-).
  assert (In n (company_branding s')) as Hin
    by (rewrite B; apply in_or_app; right; now left).
  assert (In c (companies s')) as Hc by (rewrite C; apply in_or_app; right; now left).
  rewrite Hcid in Hn.
  eexists _, _, n, c. split.
  { rewrite Hres. unfold token, cl. rewrite Huid, Hcid. reflexivity. }
  split; [|now repeat split].
  unfold get_branding, authenticated.
  rewrite (authenticate_bearer jws_open (env a') (now a') token issued Hsp Hne Hopen).
  unfold not_yet. cbn [p_nbf p_exp issued].
  destruct (Z.geb_spec (clockTimestamp (now a')) (clockTimestamp (now a) + seven_days))
    as [Hge|_]; [lia|].
  unfold try_catch, bind, pool_query, ret. rewrite F0.
  unfold select_branding. cbn [p_claims issued companyId cl].
  rewrite (int4_claim_id _ Hint). cbn [same_id].
  rewrite (filter_non_null_one _ b_company_id _ n _ H4 Hin Hn).
  unfold join. cbn [map flat_map]. rewrite app_nil_r.
  rewrite (filter_ext (fun c' => Z_is (b_company_id n) (c_id c'))
                      (fun c' => c_id c' =? c_id c)).
  - now rewrite (filter_key_one company Z c_id Z.eqb Z.eqb_spec _ c H1 Hc).
  - intros c'. rewrite Hn, Hcid. cbn. apply Z.eqb_sym.
Qed.

Lemma new_tenant_reads_default_branding_demo :
  let a := Demo.quiet 1700000700000 in
  let s := Demo.two_companies in
  let token := jwt_sign Demo.jws_sign
                 {| userId := Id 3; companyId := Id 3; role := Some "trade_admin" |}
                 (JWT_SECRET Demo.production) 1700000700000 in
  let s' := snd (post_register Demo.jws_sign Demo.eks_blowfish a Scenario.granite s) in
  exists su sc n c,
    fst (post_register Demo.jws_sign Demo.eks_blowfish a Scenario.granite s)
    = res_json (JSession token su sc) /\
    get_branding Demo.jws_open (Demo.quiet 1700000800000) (Some ("Bearer " ++ token)) s'
    = (res_json (JBranding
         {| br_branding := n; br_company_name := c_company_name c;
            br_email := c_email c; br_phone := c_phone c;
            br_address_line1 := c_address_line1 c;
            br_address_line2 := c_address_line2 c;
            br_city := c_city c; br_postcode := c_postcode c |}), s') /\
    b_company_id n = Some 3 /\ b_logo_url n = None /\
    b_primary_colour n = Some "#033f2a" /\ b_secondary_colour n = Some "#f6d466" /\
    c_id c = 3 /\
    varchar 255 (rb_companyName Scenario.granite) = Returned (Some (c_company_name c)) /\
    varchar 255 (rb_email Scenario.granite) = Returned (Some (c_email c)).
Proof.
  intros a s token s'.
  assert (reachable Demo.jws_sign Demo.jws_open Demo.eks_blowfish s)
    as Hreach by (apply reach_step, reach_step, reach_init).
  assert (token <> "") as Hne by discriminate.
  apply (new_tenant_reads_default_branding Demo.jws_sign Demo.jws_open
           Demo.eks_blowfish a Scenario.granite s
           (fst (post_register Demo.jws_sign Demo.eks_blowfish a Scenario.granite s)) s'
           (Demo.quiet 1700000800000)
           Hreach eq_refl eq_refl eq_refl eq_refl Hne eq_refl eq_refl).
Defined.
